(** * Deposit exporter: extraction heuristics and export pipeline

    A shallow embedding of [return-detector.js] and [script-demo.js]:
    JavaScript strings and the regular expressions the scripts use, the part
    of the DOM they read, container discovery, record extraction, the
    per-record enrichment loop and the CSV writer, followed by the
    properties proved about them. *)

From Stdlib Require Import List NArith ZArith String Ascii Bool Lia DecimalString.
Import ListNotations.

(* ================================================================== *)
(** ** JavaScript strings *)
(* ================================================================== *)

(** A JavaScript string is a sequence of UTF-16 code units. *)
Definition jsstring := list N.

(** An ASCII literal of the source as a JavaScript string. *)
Definition js (s : string) : jsstring := map N_of_ascii (list_ascii_of_string s).

Module Char.
Definition quote : N := 34%N.        (* the double-quote character *)
Definition dollar : N := 36%N.       (* $ *)
Definition comma : N := 44%N.        (* , *)
Definition period : N := 46%N.       (* . *)
Definition backslash : N := 92%N.
Definition newline : N := 10%N.      (* \n *)
Definition letter_d : N := 100%N.    (* d *)
Definition pound : N := 0xA3%N.      (* £ *)
Definition euro : N := 0x20AC%N.     (* € *)
End Char.

Fixpoint str_eqb (a b : jsstring) : bool :=
  match a, b with
  | [], [] => true
  | x :: a', y :: b' => N.eqb x y && str_eqb a' b'
  | _, _ => false
  end.

(** WhiteSpace and LineTerminator code units: what [String.prototype.trim]
    strips and what [\s] matches. *)
Definition isWhiteSpace (c : N) : bool :=
  (((9 <=? c) && (c <=? 13)) || (c =? 32) || (c =? 0xA0) || (c =? 0x1680)
   || ((0x2000 <=? c) && (c <=? 0x200A))
   || (c =? 0x2028) || (c =? 0x2029) || (c =? 0x202F) || (c =? 0x205F)
   || (c =? 0x3000) || (c =? 0xFEFF))%N.

Definition isLineTerminator (c : N) : bool :=
  ((c =? 10) || (c =? 13) || (c =? 0x2028) || (c =? 0x2029))%N.

Fixpoint dropWhile (p : N -> bool) (s : jsstring) : jsstring :=
  match s with
  | [] => []
  | c :: s' => if p c then dropWhile p s' else s
  end.

Definition trimStart (s : jsstring) : jsstring := dropWhile isWhiteSpace s.
Definition trimEnd (s : jsstring) : jsstring := rev (dropWhile isWhiteSpace (rev s)).

(** [s.trim()] *)
Definition trim (s : jsstring) : jsstring := trimEnd (trimStart s).

Fixpoint startsWith (s t : jsstring) : bool :=
  match t, s with
  | [], _ => true
  | y :: t', x :: s' => N.eqb x y && startsWith s' t'
  | _ :: _, [] => false
  end.

(** [s.includes(t)] *)
Fixpoint includes (s t : jsstring) : bool :=
  startsWith s t ||
  match s with
  | [] => false
  | _ :: s' => includes s' t
  end.

(** [parts.join(sep)] *)
Fixpoint join (sep : jsstring) (parts : list jsstring) : jsstring :=
  match parts with
  | [] => []
  | [p] => p
  | p :: rest => p ++ sep ++ join sep rest
  end.

(** [s.replace(/c/g, by)] for a pattern that is one literal character. *)
Definition replaceAllChar (c : N) (by_ : jsstring) (s : jsstring) : jsstring :=
  flat_map (fun x => if N.eqb x c then by_ else [x]) s.

(** [String(n)] for an integer-valued number (below 10^21, where
    JavaScript still writes all the digits). *)
Definition numberToString (n : Z) : jsstring := js (NilZero.string_of_int (Z.to_int n)).

(** [a || b] on a possibly undefined string: the empty string is falsy. *)
Definition orElse (a : option jsstring) (b : jsstring) : jsstring :=
  match a with
  | Some (c :: s) => c :: s
  | _ => b
  end.

(* ================================================================== *)
(** ** Regular expressions *)
(* ================================================================== *)

Module Regex.

Inductive regex : Type :=
| Never                         (* matches nothing *)
| Eps                           (* the empty string *)
| Class (p : N -> bool)         (* one code unit of a class *)
| Seq (r1 r2 : regex)
| Alt (r1 r2 : regex)
| Star (r : regex).

Definition Plus (r : regex) : regex := Seq r (Star r).              (* r+ *)
Definition Opt (r : regex) : regex := Alt r Eps.                    (* r? *)
Definition Lit (c : N) : regex := Class (N.eqb c).                  (* a literal *)
Definition AnyUnit : regex := Class (fun _ => true).
Definition Dot : regex := Class (fun c => negb (isLineTerminator c)). (* . *)

Definition isDigit (c : N) : bool := ((48 <=? c) && (c <=? 57))%N.       (* \d, [0-9] *)

Fixpoint nullable (r : regex) : bool :=
  match r with
  | Never => false
  | Eps => true
  | Class _ => false
  | Seq r1 r2 => nullable r1 && nullable r2
  | Alt r1 r2 => nullable r1 || nullable r2
  | Star _ => true
  end.

(** Brzozowski derivative with respect to one code unit. *)
Fixpoint deriv (c : N) (r : regex) : regex :=
  match r with
  | Never => Never
  | Eps => Never
  | Class p => if p c then Eps else Never
  | Seq r1 r2 =>
      if nullable r1 then Alt (Seq (deriv c r1) r2) (deriv c r2)
      else Seq (deriv c r1) r2
  | Alt r1 r2 => Alt (deriv c r1) (deriv c r2)
  | Star r1 => Seq (deriv c r1) (Star r1)
  end.

(** The whole string belongs to the language of [r]. *)
Fixpoint matches (r : regex) (s : jsstring) : bool :=
  match s with
  | [] => nullable r
  | c :: s' => matches (deriv c r) s'
  end.

(** [/^r$/.test(s)]: the pattern is anchored on both sides. *)
Definition testWhole (r : regex) (s : jsstring) : bool := matches r s.

(** [/r/.test(s)]: some substring of [s] matches. *)
Definition testAnywhere (r : regex) (s : jsstring) : bool :=
  matches (Seq (Star AnyUnit) (Seq r (Star AnyUnit))) s.

(** Declarative semantics, used to reason about [matches]. *)
Inductive Matches : regex -> jsstring -> Prop :=
| MEps : Matches Eps []
| MClass p c : p c = true -> Matches (Class p) [c]
| MSeq r1 r2 s1 s2 : Matches r1 s1 -> Matches r2 s2 -> Matches (Seq r1 r2) (s1 ++ s2)
| MAltL r1 r2 s : Matches r1 s -> Matches (Alt r1 r2) s
| MAltR r1 r2 s : Matches r2 s -> Matches (Alt r1 r2) s
| MStarNil r : Matches (Star r) []
| MStarCons r s1 s2 : Matches r s1 -> Matches (Star r) s2 -> Matches (Star r) (s1 ++ s2).

End Regex.

(* ================================================================== *)
(** ** Exceptions *)
(* ================================================================== *)

(** What a [throw] carries: an [Error] object with its [message]; some
    other value that has properties (a string, a number, an object without
    [message]), whose [message] property is [undefined]; or [null] or
    [undefined], which have no properties at all. *)
Inductive JSThrown : Type :=
| ErrorObject (message : jsstring)
| OtherValue
| NullOrUndefined.

(** The result of running a piece of code that may throw. *)
Inductive outcome (A : Type) : Type :=
| Returned (a : A)
| Thrown (e : JSThrown).
Arguments Returned {A} a.
Arguments Thrown {A} e.

Definition bind {A B : Type} (c : outcome A) (k : A -> outcome B) : outcome B :=
  match c with
  | Returned a => k a
  | Thrown e => Thrown e
  end.

Notation "x <- c ;; k" := (bind c (fun x => k))
  (at level 61, c at next level, right associativity).

(** The errors the engine itself throws. The wording of their messages is
    the engine's and changes with the engine and with the property that
    was read; all that is used of it is that it is not empty. *)
Definition typeErrorMessage : jsstring := js "Cannot read properties of undefined".
Definition typeError : JSThrown := ErrorObject typeErrorMessage.
Definition syntaxError : JSThrown :=
  ErrorObject (js "The provided selector is not a valid selector").

(** A property read on a value that may be [undefined] or [null]. *)
Definition deref {A : Type} (v : option A) : outcome A :=
  match v with
  | Some a => Returned a
  | None => Thrown typeError
  end.

(** [error.message] in a [catch (error)]: the message of an [Error],
    [undefined] for another value with properties, and a [TypeError] of
    its own when the caught value is [null] or [undefined]. *)
Definition messageOf (e : JSThrown) : outcome (option jsstring) :=
  match e with
  | ErrorObject m => Returned (Some m)
  | OtherValue => Returned None
  | NullOrUndefined => Thrown typeError
  end.

(* ================================================================== *)
(** ** The DOM *)
(* ================================================================== *)

(** The nodes of an HTML document. An element is given by its local
    name, in lower case as the HTML parser stores it, its attributes and
    its child nodes. *)
#[warnings="-register-all"]
Inductive Node : Type :=
| TextNode (data : jsstring)
| CommentNode (data : jsstring)
| Element (localName : jsstring) (attributes : list (jsstring * jsstring))
          (children : list Node).

(** A document is given by the child nodes of its document node. *)
Definition Document := list Node.

(** A node is identified by its position: the index among its siblings
    followed by the position of its parent; [[]] is the document node. *)
Definition ref := list nat.

Fixpoint ref_eqb (a b : ref) : bool :=
  match a, b with
  | [], [] => true
  | x :: a', y :: b' => Nat.eqb x y && ref_eqb a' b'
  | _, _ => false
  end.

(** An element object: where it is, and the subtree found there. *)
Record Elem : Type := mkElem { e_ref : ref; e_node : Node }.

(** [a === b] on element objects. *)
Definition sameElem (a b : Elem) : bool := ref_eqb (e_ref a) (e_ref b).

Definition childNodes (n : Node) : list Node :=
  match n with
  | Element _ _ cs => cs
  | _ => []
  end.

Definition isElementNode (n : Node) : bool :=
  match n with
  | Element _ _ _ => true
  | _ => false
  end.

Fixpoint childNodesAt (doc : Document) (r : ref) : list Node :=
  match r with
  | [] => doc
  | i :: parent =>
      match nth_error (childNodesAt doc parent) i with
      | Some n => childNodes n
      | None => []
      end
  end.

Definition nodeAt (doc : Document) (r : ref) : option Node :=
  match r with
  | [] => None
  | i :: parent => nth_error (childNodesAt doc parent) i
  end.

(** The element object really is the element of [doc] at its position. *)
Definition attached (doc : Document) (e : Elem) : Prop :=
  nodeAt doc (e_ref e) = Some (e_node e) /\ isElementNode (e_node e) = true.

(** Concatenated data of the text nodes of a subtree, in tree order. *)
Fixpoint descendantText (n : Node) : jsstring :=
  match n with
  | TextNode d => d
  | CommentNode _ => []
  | Element _ _ cs =>
      (fix all (cs : list Node) : jsstring :=
         match cs with
         | [] => []
         | c :: cs' => descendantText c ++ all cs'
         end) cs
  end.

(** [element.textContent] *)
Definition textContent (e : Elem) : jsstring := descendantText (e_node e).

(** The elements of the subtree at [r], the root first, in tree order. *)
Fixpoint subtree (r : ref) (n : Node) {struct n} : list Elem :=
  match n with
  | Element _ _ cs =>
      mkElem r n ::
      (fix kids (i : nat) (cs : list Node) : list Elem :=
         match cs with
         | [] => []
         | c :: cs' => subtree (i :: r) c ++ kids (S i) cs'
         end) 0%nat cs
  | _ => []
  end.

(** The elements below the node at [r] whose child nodes are [cs], the
    first of them having index [i]. *)
Fixpoint elementsBelow (r : ref) (i : nat) (cs : list Node) : list Elem :=
  match cs with
  | [] => []
  | c :: cs' => subtree (i :: r) c ++ elementsBelow r (S i) cs'
  end.

(** [element.parentElement]: [null] for the root element, whose parent is
    the document. *)
Definition parentElement (doc : Document) (e : Elem) : option Elem :=
  match e_ref e with
  | _ :: (j :: grand) as parent =>
      match nodeAt doc parent with
      | Some (Element _ _ _ as n) => Some (mkElem parent n)
      | _ => None
      end
  | _ => None
  end.

Definition getAttribute (n : Node) (name : jsstring) : option jsstring :=
  match n with
  | Element _ attrs _ =>
      match find (fun a => str_eqb (fst a) name) attrs with
      | Some a => Some (snd a)
      | None => None
      end
  | _ => None
  end.

Definition toUpperUnit (c : N) : N :=
  if ((97 <=? c) && (c <=? 122))%N then (c - 32)%N else c.

(** [element.tagName]: the name in ASCII upper case, for an HTML element. *)
Definition tagName (n : Node) : jsstring :=
  match n with
  | Element name _ _ => map toUpperUnit name
  | _ => []
  end.

(* ================================================================== *)
(** ** Selectors *)
(* ================================================================== *)

(** Selectors are kept in parsed form. The scripts only use compound
    selectors and comma-separated lists of them. *)
Module Selector.

Inductive simple : Type :=
| Universal                              (* [*] *)
| TypeSel (name : jsstring)              (* [p] *)
| ClassSel (name : jsstring)             (* [.name] *)
| IdSel (name : jsstring)                (* [#name] *)
| AttrEquals (attr value : jsstring)     (* [[attr="value"]] *)
| AttrContains (attr value : jsstring)   (* [[attr*="value"]] *)
| PseudoContains (text : jsstring).      (* [:contains("text")]: jQuery's, not CSS *)

Definition compound := list simple.

(** A selector string: its comma-separated alternatives. *)
Definition selector := list compound.

(** [selectors.join(', ')] *)
Definition joinSelectors (selectors : list selector) : selector := List.concat selectors.

Definition validSimple (s : simple) : bool :=
  match s with
  | PseudoContains _ => false
  | _ => true
  end.

Definition validCompound (c : compound) : bool :=
  match c with
  | [] => false
  | _ => forallb validSimple c
  end.

(** The selector parses; the empty string and a list with one bad
    alternative do not. *)
Definition valid (s : selector) : bool :=
  match s with
  | [] => false
  | _ => forallb validCompound s
  end.

Definition isAsciiSpace (c : N) : bool :=
  ((c =? 9) || (c =? 10) || (c =? 12) || (c =? 13) || (c =? 32))%N.

(** The space-separated tokens of a [class] attribute. *)
Fixpoint tokens (cur : jsstring) (s : jsstring) : list jsstring :=
  match s with
  | [] => match cur with [] => [] | _ => [rev cur] end
  | c :: s' =>
      if isAsciiSpace c
      then match cur with [] => tokens [] s' | _ => rev cur :: tokens [] s' end
      else tokens (c :: cur) s'
  end.

Definition matchesSimple (s : simple) (n : Node) : bool :=
  match s with
  | Universal => true
  | TypeSel name =>
      match n with
      | Element local _ _ => str_eqb local name
      | _ => false
      end
  | ClassSel name =>
      match getAttribute n (js "class") with
      | Some v => existsb (str_eqb name) (tokens [] v)
      | None => false
      end
  | IdSel name =>
      match getAttribute n (js "id") with
      | Some v => str_eqb v name
      | None => false
      end
  | AttrEquals attr value =>
      match getAttribute n attr with
      | Some v => str_eqb v value
      | None => false
      end
  | AttrContains attr value =>
      match getAttribute n attr, value with
      | Some v, _ :: _ => includes v value
      | _, _ => false
      end
  | PseudoContains _ => false
  end.

Definition matchesElement (s : selector) (n : Node) : bool :=
  existsb (fun c => forallb (fun x => matchesSimple x n) c) s.

End Selector.

(** The root of a query: [document] or an element. *)
Inductive Root : Type :=
| DocumentRoot
| ElementRoot (e : Elem).

Definition descendantElements (doc : Document) (root : Root) : list Elem :=
  match root with
  | DocumentRoot => elementsBelow [] 0 doc
  | ElementRoot e => elementsBelow (e_ref e) 0 (childNodes (e_node e))
  end.

(** The browser's [root.querySelectorAll(selector)]: a selector that does
    not parse throws. *)
Definition nativeQuerySelectorAll (doc : Document) (selector : Selector.selector)
    (root : Root) : outcome (list Elem) :=
  if Selector.valid selector
  then Returned (filter (fun e => Selector.matchesElement selector (e_node e))
                        (descendantElements doc root))
  else Thrown syntaxError.

(** The browser's [root.querySelector(selector)]: the first match. *)
Definition nativeQuerySelector (doc : Document) (selector : Selector.selector)
    (root : Root) : outcome (option Elem) :=
  if Selector.valid selector
  then Returned (find (fun e => Selector.matchesElement selector (e_node e))
                      (descendantElements doc root))
  else Thrown syntaxError.

Definition sel_p : Selector.selector := [[Selector.TypeSel (js "p")]].          (* 'p' *)
Definition sel_small : Selector.selector := [[Selector.TypeSel (js "small")]].  (* 'small' *)

(* ================================================================== *)
(** ** DOMUtils (the same in both scripts) *)
(* ================================================================== *)

Module DOMUtils.

Definition querySelector (doc : Document) (selector : Selector.selector)
    (root : Root) : option Elem :=
  match nativeQuerySelector doc selector root with
  | Returned e => e
  | Thrown _ => None          (* catch: logged, return null *)
  end.

Definition querySelectorAll (doc : Document) (selector : Selector.selector)
    (root : Root) : list Elem :=
  match nativeQuerySelectorAll doc selector root with
  | Returned es => es
  | Thrown _ => []            (* catch: logged, return [] *)
  end.

Definition elementContainsText (element : Elem) (text : jsstring) : bool :=
  includes (trim (textContent element)) text.

Definition findElementsByText (doc : Document) (tag : Selector.selector)
    (text : jsstring) (root : Root) : list Elem :=
  filter (fun el => str_eqb (trim (textContent el)) text)
         (querySelectorAll doc tag root).

(** The loop of [findAncestor], with [remaining = maxDepth - depth]. *)
Fixpoint findAncestorLoop (doc : Document) (predicate : Elem -> bool)
    (current : option Elem) (remaining : nat) : option Elem :=
  match remaining, current with
  | S k, Some c =>
      if predicate c then Some c
      else findAncestorLoop doc predicate (parentElement doc c) k
  | _, _ => None
  end.

Definition findAncestor (doc : Document) (element : Elem)
    (predicate : Elem -> bool) (maxDepth : nat) : option Elem :=
  findAncestorLoop doc predicate (Some element) maxDepth.

End DOMUtils.

(* ================================================================== *)
(** ** The patterns of the scripts *)
(* ================================================================== *)

Module Patterns.
Import Regex.

(** [[€$£]] *)
Definition isCurrencySymbol (c : N) : bool :=
  N.eqb c Char.euro || N.eqb c Char.dollar || N.eqb c Char.pound.

(** [[0-9,.]] in return-detector.js, [[\d,.]] in script-demo.js *)
Definition isAmountChar (c : N) : bool :=
  isDigit c || N.eqb c Char.comma || N.eqb c Char.period.

(** [/[0-9,.]+/] and [/[\d,.]+/] *)
Definition amountChars : regex := Plus (Class isAmountChar).

(** [/^[€$£]?\s*[0-9,.]+$/] and [/^[€$£]?\s*[\d,.]+$/], between the anchors *)
Definition combinedAmount : regex :=
  Seq (Opt (Class isCurrencySymbol))
      (Seq (Star (Class isWhiteSpace)) (Plus (Class isAmountChar))).

(** [text.match(/^([€$£]?)\s*([0-9,.]+)$/)]: the two capture groups, or
    [None] for [null]. The optional symbol is taken when present, then
    the white space, and what remains must be the amount. *)
Definition matchCombinedAmount (text : jsstring) : option (jsstring * jsstring) :=
  let '(symbol, rest) :=
    match text with
    | c :: rest => if isCurrencySymbol c then ([c], rest) else ([], text)
    | [] => ([], [])
    end in
  match dropWhile isWhiteSpace rest with
  | [] => None
  | c :: digits =>
      if forallb isAmountChar (c :: digits) then Some (symbol, c :: digits) else None
  end.

(** script-demo.js: [/\d+\.\d+|\d+,\d+/] *)
Definition decimalNumber : regex :=
  Alt (Seq (Plus (Class isDigit)) (Seq (Lit Char.period) (Plus (Class isDigit))))
      (Seq (Plus (Class isDigit)) (Seq (Lit Char.comma) (Plus (Class isDigit)))).

(** return-detector.js: [/\\d+\\.\\d+|\\d+,\\d+/]. In a regular
    expression literal [\\] is a literal backslash, so [d+] is the letter
    d repeated and [.] is any character but a line terminator. *)
Definition escapedDecimalNumber : regex :=
  Alt (Seq (Lit Char.backslash) (Seq (Plus (Lit Char.letter_d))
        (Seq (Lit Char.backslash) (Seq Dot
          (Seq (Lit Char.backslash) (Plus (Lit Char.letter_d)))))))
      (Seq (Lit Char.backslash) (Seq (Plus (Lit Char.letter_d))
        (Seq (Lit Char.comma)
          (Seq (Lit Char.backslash) (Plus (Lit Char.letter_d)))))).

End Patterns.

(* ================================================================== *)
(** ** Container discovery *)
(* ================================================================== *)

(** [CONFIG.SELECTORS.DEPOSITS] *)
Record DepositSelectors : Type := {
  CONTAINERS : list Selector.selector;
  CURRENCY_SYMBOLS : list jsstring
}.

(** [findDepositContainers] and [findDepositContainersGeneric] are written
    the same way in both scripts; they differ in the configured selectors
    and in the pattern behind [hasNumbers]. *)
Module Discovery.
Section Discovery.

Variable CONFIG : DepositSelectors.
Variable numberPattern : Regex.regex.
Variable doc : Document.

(** The predicate handed to [findAncestor]. *)
Definition containerPredicate (el : Elem) : bool :=
  let hasDeposit := DOMUtils.elementContainsText el (js "Deposit") in
  let hasAmount :=
    existsb (fun symbol => DOMUtils.elementContainsText el symbol)
            (CURRENCY_SYMBOLS CONFIG) in
  let hasNumbers := Regex.testAnywhere numberPattern (textContent el) in
  hasDeposit && (hasAmount || hasNumbers).

(** The [for] loop over [depositTexts], pushing onto [containers]. *)
Fixpoint collectContainers (depositTexts : list Elem) (containers : list Elem)
    : list Elem :=
  match depositTexts with
  | [] => containers
  | depositText :: rest =>
      match DOMUtils.findAncestor doc depositText containerPredicate 8 with
      | Some container =>
          if existsb (sameElem container) containers     (* containers.includes *)
          then collectContainers rest containers
          else collectContainers rest (containers ++ [container])
      | None => collectContainers rest containers
      end
  end.

Definition findDepositContainersGeneric : list Elem :=
  let depositTexts :=
    DOMUtils.findElementsByText doc sel_p (js "Deposit") DocumentRoot in
  collectContainers depositTexts [].

Definition findDepositContainers : list Elem :=
  let containerSelectors := Selector.joinSelectors (CONTAINERS CONFIG) in
  let containers := DOMUtils.querySelectorAll doc containerSelectors DocumentRoot in
  let containers :=
    filter (fun container => DOMUtils.elementContainsText container (js "Deposit"))
           containers in
  match containers with
  | [] => findDepositContainersGeneric
  | _ => containers
  end.

End Discovery.
End Discovery.

(* ================================================================== *)
(** ** Record extraction: the blocks both scripts share *)
(* ================================================================== *)

Module Fields.

(** [paragraphs.indexOf(p)], counting from [i]. *)
Fixpoint indexOfFrom (paragraphs : list Elem) (p : Elem) (i : Z) : Z :=
  match paragraphs with
  | [] => (-1)%Z
  | q :: rest => if sameElem q p then i else indexOfFrom rest p (i + 1)%Z
  end.

Definition indexOf (paragraphs : list Elem) (p : Elem) : Z :=
  indexOfFrom paragraphs p 0%Z.

Definition hasText (text : jsstring) (p : Elem) : bool :=
  str_eqb (trim (textContent p)) text.

(** "Check for standalone currency symbols": the loop over the symbols,
    with the values of [currency] and [amount] so far. Returning from
    the middle of the list is the [break]. *)
Fixpoint standaloneCurrency (symbols : list jsstring) (paragraphs : list Elem)
    (currency amount : jsstring) : outcome (jsstring * jsstring) :=
  match symbols with
  | [] => Returned (currency, amount)
  | symbol :: rest =>
      match find (hasText symbol) paragraphs with
      | Some currencyParagraph =>
          let currency := symbol in
          let currencyIndex := indexOf paragraphs currencyParagraph in
          if ((0 <=? currencyIndex) &&
              (currencyIndex <? Z.of_nat (List.length paragraphs) - 1))%Z
          then
            nextParagraph <-
              deref (nth_error paragraphs (Z.to_nat (currencyIndex + 1))) ;;
            if Regex.testAnywhere Patterns.amountChars
                 (trim (textContent nextParagraph))
            then Returned (currency, trim (textContent nextParagraph))
            else standaloneCurrency rest paragraphs currency amount
          else standaloneCurrency rest paragraphs currency amount
      | None => standaloneCurrency rest paragraphs currency amount
      end
  end.

(** "If not found, look for combined format". *)
Definition combinedFormat (paragraphs : list Elem) (currency amount : jsstring)
    : jsstring * jsstring :=
  match amount with
  | [] =>
      match find (fun p => Regex.testWhole Patterns.combinedAmount
                             (trim (textContent p))) paragraphs with
      | Some amountParagraph =>
          let text := trim (textContent amountParagraph) in
          match Patterns.matchCombinedAmount text with
          | Some (symbol, digits) => (orElse (Some symbol) [], orElse (Some digits) text)
          | None => (currency, text)
          end
      | None => (currency, amount)
      end
  | _ :: _ => (currency, amount)
  end.

(** "Get deposit status": the text of the first [small] inside the parent
    of the paragraph that reads [label]. script-demo.js reads the return
    status in the same way. *)
Definition labelStatus (doc : Document) (paragraphs : list Elem)
    (label : jsstring) : jsstring :=
  match find (hasText label) paragraphs with
  | Some labelParagraph =>
      match parentElement doc labelParagraph with
      | Some parent =>
          match DOMUtils.querySelector doc sel_small (ElementRoot parent) with
          | Some smallInParent => trim (textContent smallInParent)
          | None => []
          end
      | None => []
      end
  | None => []
  end.

End Fields.

(** [items.map((item, i) => f(item, i + 1))], stopping at the first throw;
    [i] is the index of the head of [items]. *)
Fixpoint mapIndexed {A B : Type} (f : A -> Z -> outcome B) (items : list A) (i : Z)
    : outcome (list B) :=
  match items with
  | [] => Returned []
  | item :: rest =>
      b <- f item (i + 1)%Z ;;
      bs <- mapIndexed f rest (i + 1)%Z ;;
      Returned (b :: bs)
  end.

(* ================================================================== *)
(** ** return-detector.js *)
(* ================================================================== *)

Module ReturnDetector.

Definition CONFIG : DepositSelectors := {|
  CONTAINERS := [
    (* '.sc-beqWaB.sc-eIoBCF.bUiODS.iDrAoK' *)
    [[Selector.ClassSel (js "sc-beqWaB"); Selector.ClassSel (js "sc-eIoBCF");
      Selector.ClassSel (js "bUiODS"); Selector.ClassSel (js "iDrAoK")]];
    (* '[class*="sc-beqWaB"][class*="sc-eIoBCF"]' *)
    [[Selector.AttrContains (js "class") (js "sc-beqWaB");
      Selector.AttrContains (js "class") (js "sc-eIoBCF")]];
    (* '.sc-dxnOzg' *)
    [[Selector.ClassSel (js "sc-dxnOzg")]];
    (* '.sc-beqWaB.sc-eKNumk.sc-hbpqLB' *)
    [[Selector.ClassSel (js "sc-beqWaB"); Selector.ClassSel (js "sc-eKNumk");
      Selector.ClassSel (js "sc-hbpqLB")]]
  ];
  CURRENCY_SYMBOLS := [[Char.euro]; [Char.dollar]; [Char.pound]]
|}.

(** The pattern of [hasNumbers], line 106. *)
Definition hasNumbersPattern : Regex.regex := Patterns.escapedDecimalNumber.

Definition findDepositContainersGeneric (doc : Document) : list Elem :=
  Discovery.findDepositContainersGeneric CONFIG hasNumbersPattern doc.

Definition findDepositContainers (doc : Document) : list Elem :=
  Discovery.findDepositContainers CONFIG hasNumbersPattern doc.

Record Deposit : Type := {
  index : Z;
  type : jsstring;
  amount : jsstring;
  currency : jsstring;
  depositStatus : jsstring;
  hasBeenReturned : bool;
  returnStatus : jsstring;
  xpath : option jsstring;        (* [None] is [undefined] *)
  outerHTML : jsstring
}.

(** "FIXED RETURN DETECTION": the values of [hasBeenReturned] and
    [returnStatus]. The [small] is looked up with the browser's own
    [parent.querySelector]. *)
Definition returnDetection (doc : Document) (paragraphs : list Elem)
    : outcome (bool * jsstring) :=
  match find (Fields.hasText (js "Return")) paragraphs with
  | Some returnParagraph =>
      match parentElement doc returnParagraph with
      | Some parent =>
          small <- nativeQuerySelector doc sel_small (ElementRoot parent) ;;
          match small with
          | Some small =>
              let returnStatus := trim (textContent small) in
              if str_eqb returnStatus (js "Invoiced") then Returned (true, returnStatus)
              else if str_eqb returnStatus (js "Pending invoice")
                   then Returned (false, returnStatus)
                   else Returned (false, returnStatus)
          | None => Returned (false, [])
          end
      | None => Returned (false, [])
      end
  | None => Returned (false, [])
  end.

(** [element.id]: the [id] attribute of an element, the empty string when
    it has none; a text or comment node has no such property, and the read
    gives [undefined]. *)
Definition elementId (n : Node) : option jsstring :=
  if isElementNode n
  then match getAttribute n (js "id") with
       | Some v => Some v
       | None => Some []
       end
  else None.

(** [document.body]: the first [body] or [frameset] child of the [html]
    root element. *)
Definition bodyRef (doc : Document) : option ref :=
  let firstIndex := fix firstIndex (p : Node -> bool) (ns : list Node) (i : nat) :=
    match ns with
    | [] => None
    | n :: rest => if p n then Some (i, n) else firstIndex p rest (S i)
    end in
  match firstIndex isElementNode doc 0%nat with
  | Some (h, Element name _ cs) =>
      if str_eqb name (js "html") then
        match firstIndex (fun n => match n with
                                   | Element local _ _ =>
                                       str_eqb local (js "body") ||
                                       str_eqb local (js "frameset")
                                   | _ => false
                                   end) cs 0%nat with
        | Some (b, _) => Some [b; h]
        | None => None
        end
      else None
  | _ => None
  end.

Definition isBody (doc : Document) (r : ref) : bool :=
  match bodyRef doc with
  | Some b => ref_eqb r b
  | None => false
  end.

(** A string template applied to a value that may be [undefined]. *)
Definition stringOf (v : option jsstring) : jsstring :=
  match v with
  | Some s => s
  | None => js "undefined"
  end.

(** [`//*[@id="${id}"]`] *)
Definition idPath (id : jsstring) : jsstring :=
  js "//*[@id=" ++ [Char.quote] ++ id ++ [Char.quote] ++ js "]".

Section WithBrowser.

(** Two built-ins are taken as given: [String.prototype.toLowerCase]
    and the serialisation behind [element.outerHTML]. *)
Variable toLowerCase : jsstring -> jsstring.
Variable serialize : Elem -> jsstring.

(** The loop over [siblings] in [getXPath]: [i] is the loop index,
    [position] the index at which [sibling === element] holds, [ix]
    the counter, [parentPath] the result of [getXPath(parentNode)]. *)
Fixpoint siblingScan (siblings : list Node) (i : nat) (ix : Z) (position : nat)
    (element : Node) (parentPath : outcome (option jsstring))
    : outcome (option jsstring) :=
  match siblings with
  | [] => Returned None
  | sibling :: rest =>
      if Nat.eqb i position then
        parent <- parentPath ;;
        Returned (Some (stringOf parent ++ js "/" ++ toLowerCase (tagName element)
                        ++ js "[" ++ numberToString (ix + 1) ++ js "]"))
      else if isElementNode sibling && str_eqb (tagName sibling) (tagName element)
           then siblingScan rest (S i) (ix + 1)%Z position element parentPath
           else siblingScan rest (S i) ix position element parentPath
  end.

(** [getXPath(element)] for the node at [r]. The first test is
    [element.id !== '']: it holds for an [id] that is not empty and also
    for [undefined], the [id] of the document node and of a text or
    comment node, so the recursion ends there with the id written by the
    template literal. *)
Fixpoint getXPath (doc : Document) (r : ref) : outcome (option jsstring) :=
  match r with
  | [] => Returned (Some (idPath (stringOf None)))
  | position :: parentNode =>
      element <- deref (nodeAt doc r) ;;
      match elementId element with
      | Some [] =>
          if isBody doc r then Returned (Some (js "/html/body"))
          else siblingScan (childNodesAt doc parentNode) 0 0 position element
                           (getXPath doc parentNode)
      | id => Returned (Some (idPath (stringOf id)))
      end
  end.

Definition extractDepositInfo (doc : Document) (container : Elem) (index : Z)
    : outcome Deposit :=
  let paragraphs := DOMUtils.querySelectorAll doc sel_p (ElementRoot container) in
  let smallElements := DOMUtils.querySelectorAll doc sel_small (ElementRoot container) in
  found <- Fields.standaloneCurrency (CURRENCY_SYMBOLS CONFIG) paragraphs [] [] ;;
  let '(currency, amount) :=
    Fields.combinedFormat paragraphs (fst found) (snd found) in
  let depositStatus := Fields.labelStatus doc paragraphs (js "Deposit") in
  returned <- returnDetection doc paragraphs ;;
  path <- getXPath doc (e_ref container) ;;
  Returned {|
    index := index;
    type := js "Deposit";
    amount := amount;
    currency := currency;
    depositStatus := depositStatus;
    hasBeenReturned := fst returned;
    returnStatus := snd returned;
    xpath := path;
    outerHTML := firstn 500 (serialize container)
  |}.

Definition findAllDeposits (doc : Document) : outcome (list Deposit) :=
  let containers := findDepositContainers doc in
  mapIndexed (extractDepositInfo doc) containers 0.

End WithBrowser.

End ReturnDetector.

(* ================================================================== *)
(** ** JavaScript values and objects, as the CSV writer sees them *)
(* ================================================================== *)

(** The values [toCSV] is followed on: [undefined], [null], booleans,
    strings, integer-valued numbers, and objects, which the writer only
    hands to [JSON.stringify] and which are given by the text that call
    returns. Functions, symbols, bigints, fractional numbers and objects
    that [JSON.stringify] refuses are not represented; the rows
    [formatForExport] builds hold none of them. *)
Inductive jsvalue : Type :=
| VUndefined
| VNull
| VBoolean (b : bool)
| VString (s : jsstring)
| VNumber (n : Z)
| VObject (json : jsstring).    (* an object, given by its [JSON.stringify] text *)

(** A plain object: its own properties in the order of [Object.keys],
    which is the order of insertion for names that are not array
    indices. *)
Definition jsobject := list (jsstring * jsvalue).

(** [Object.keys(o)] *)
Definition keys (o : jsobject) : list jsstring := map fst o.

(** [o[key]] *)
Definition property (o : jsobject) (key : jsstring) : jsvalue :=
  match find (fun kv => str_eqb (fst kv) key) o with
  | Some kv => snd kv
  | None => VUndefined
  end.

(* ================================================================== *)
(** ** script-demo.js *)
(* ================================================================== *)

Module ScriptDemo.

Module CONFIG.
Definition USER : jsstring := js "wolketich".
Definition TIMESTAMPS_current : jsstring := js "2025-04-28 14:25:07".
Definition FILE_PREFIX : jsstring := js "deposits_export_".

Definition DEPOSITS : DepositSelectors := {|
  CONTAINERS := [
    (* '.sc-beqWaB.sc-eIoBCF.bUiODS.iDrAoK' *)
    [[Selector.ClassSel (js "sc-beqWaB"); Selector.ClassSel (js "sc-eIoBCF");
      Selector.ClassSel (js "bUiODS"); Selector.ClassSel (js "iDrAoK")]];
    (* '[class*="sc-beqWaB"][class*="sc-eIoBCF"]' *)
    [[Selector.AttrContains (js "class") (js "sc-beqWaB");
      Selector.AttrContains (js "class") (js "sc-eIoBCF")]]
  ];
  CURRENCY_SYMBOLS := [[Char.euro]; [Char.dollar]; [Char.pound]]
|}.

(** [SELECTORS.MODAL.CLOSE_BUTTON] *)
Definition CLOSE_BUTTON : list Selector.selector := [
  [[Selector.IdSel (js "closeModalButton")]];                      (* '#closeModalButton' *)
  [[Selector.ClassSel (js "LEGACY_MODAL_closeButton")]];           (* '.LEGACY_MODAL_closeButton' *)
  [[Selector.TypeSel (js "button");
    Selector.AttrEquals (js "role") (js "button")]];               (* 'button[role="button"]' *)
  [[Selector.TypeSel (js "button");
    Selector.PseudoContains (js "Close")]];                        (* 'button:contains("Close")' *)
  [[Selector.AttrEquals (js "aria-label") (js "Close")]]           (* '[aria-label="Close"]' *)
].
End CONFIG.

(** The pattern of [hasNumbers], line 355. *)
Definition hasNumbersPattern : Regex.regex := Patterns.decimalNumber.

(** *** DepositFinder *)

Definition findDepositContainersGeneric (doc : Document) : list Elem :=
  Discovery.findDepositContainersGeneric CONFIG.DEPOSITS hasNumbersPattern doc.

Definition findDepositContainers (doc : Document) : list Elem :=
  Discovery.findDepositContainers CONFIG.DEPOSITS hasNumbersPattern doc.

Record Deposit : Type := {
  index : Z;
  type : jsstring;
  amount : jsstring;
  currency : jsstring;
  depositStatus : jsstring;
  hasBeenReturned : bool;
  returnStatus : jsstring;
  element : Elem
}.

Definition extractDepositInfo (doc : Document) (container : Elem) (index : Z)
    : outcome Deposit :=
  let paragraphs := DOMUtils.querySelectorAll doc sel_p (ElementRoot container) in
  let smallElements := DOMUtils.querySelectorAll doc sel_small (ElementRoot container) in
  (* Check for Return text *)
  let hasBeenReturned :=
    existsb (Fields.hasText (js "Return")) paragraphs ||
    DOMUtils.elementContainsText container (js "Return") in
  found <- Fields.standaloneCurrency (CURRENCY_SYMBOLS CONFIG.DEPOSITS) paragraphs [] [] ;;
  let '(currency, amount) :=
    Fields.combinedFormat paragraphs (fst found) (snd found) in
  let depositStatus := Fields.labelStatus doc paragraphs (js "Deposit") in
  (* Get return status if applicable *)
  let returnStatus :=
    if hasBeenReturned then Fields.labelStatus doc paragraphs (js "Return") else [] in
  Returned {|
    index := index;
    type := js "Deposit";
    amount := amount;
    currency := currency;
    depositStatus := depositStatus;
    hasBeenReturned := hasBeenReturned;
    returnStatus := returnStatus;
    element := container
  |}.

Definition findAllDeposits (doc : Document) : outcome (list Deposit) :=
  let containers := findDepositContainers doc in
  mapIndexed (extractDepositInfo doc) containers 0.

(** *** ModalHandler *)

Module ModalInfo.
Record t : Type := {
  billPayer : jsstring;
  amount : jsstring;
  depositDate : jsstring;
  note : jsstring;
  alreadyPaid : bool
}.
End ModalInfo.

Module ListInfo.
Record t : Type := {
  amount : jsstring;
  currency : jsstring;
  depositStatus : jsstring;
  hasBeenReturned : bool;
  returnStatus : jsstring
}.
End ListInfo.

(** The objects pushed onto [depositDetails]; an absent property reads
    as [undefined], here [None]. *)
Module Details.
Record t : Type := {
  index : Z;
  listInfo : option ListInfo.t;
  modalInfo : option ModalInfo.t;
  error : option jsstring;
  timestamp : option jsstring;
  extractedBy : option jsstring
}.
End Details.

(** What the page does while one record is processed: the script clicks,
    waits and reads, and each of these steps returns or throws. *)
Record Page : Type := {
  click : outcome unit;                 (* findClickableElement(...), .click() *)
  modalWait : outcome unit;             (* await waitForElement(...): rejected on timeout *)
  modalDetails : outcome ModalInfo.t;   (* await extractModalDetails() *)
  closeModal : outcome bool             (* ModalHandler.closeModal() and the wait after it *)
}.

Definition listInfoOf (deposit : Deposit) : ListInfo.t := {|
  ListInfo.amount := amount deposit;
  ListInfo.currency := currency deposit;
  ListInfo.depositStatus := depositStatus deposit;
  ListInfo.hasBeenReturned := hasBeenReturned deposit;
  ListInfo.returnStatus := returnStatus deposit
|}.

(** The object both [catch] blocks build: "Return partial information"
    in [getDepositDetails], "Add deposit with error info" in the loop.
    The object literal reads [error.message], and that read throws when
    the caught value is [null] or [undefined]. *)
Definition partialDetails (deposit : Deposit) (error : JSThrown)
    : outcome Details.t :=
  message <- messageOf error ;;
  Returned {|
    Details.index := index deposit;
    Details.listInfo := Some (listInfoOf deposit);
    Details.modalInfo := None;
    Details.error := message;
    Details.timestamp := Some CONFIG.TIMESTAMPS_current;
    Details.extractedBy := Some CONFIG.USER
  |}.

(** [getDepositDetails] is an [async] function: [Thrown] stands for a
    rejected promise, which is what a throw inside its [catch] block
    gives. *)
Definition getDepositDetails (deposit : Deposit) (page : Page)
    : outcome Details.t :=
  let attempt :=
    _ <- click page ;;
    (* try { await waitForElement } catch { warn }: the rejection is dropped *)
    let _ := match modalWait page with Returned _ => tt | Thrown _ => tt end in
    modalInfo <- modalDetails page ;;
    Returned {|
      Details.index := index deposit;
      Details.listInfo := Some (listInfoOf deposit);
      Details.modalInfo := Some modalInfo;
      Details.error := None;
      Details.timestamp := Some CONFIG.TIMESTAMPS_current;
      Details.extractedBy := Some CONFIG.USER
    |} in
  match attempt with
  | Returned fullDetails => Returned fullDetails
  | Thrown error => partialDetails deposit error
  end.

(** *** DataExport *)

(** One field of a CSV row. *)
Definition csvField (value : jsvalue) : jsstring :=
  match value with
  | VNull | VUndefined => []
  | VBoolean b => if b then js "true" else js "false"
  | VString s =>
      [Char.quote] ++ replaceAllChar Char.quote [Char.quote; Char.quote] s ++ [Char.quote]
  | VObject json =>
      [Char.quote] ++ replaceAllChar Char.quote [Char.quote; Char.quote] json ++ [Char.quote]
  | VNumber n => [Char.quote] ++ numberToString n ++ [Char.quote]
  end.

Definition csvRow (headers : list jsstring) (item : jsobject) : jsstring :=
  join [Char.comma] (map (fun header => csvField (property item header)) headers).

Definition toCSV (data : list jsobject) : jsstring :=
  match data with
  | [] => []
  | first :: _ =>
      let headers := keys first in
      let csv := join [Char.comma] headers ++ [Char.newline] in
      fold_left (fun csv item => csv ++ csvRow headers item ++ [Char.newline]) data csv
  end.

Definition formatDeposit (deposit : Details.t) : jsobject :=
  let modalInfo := Details.modalInfo deposit in     (* || {} *)
  let listInfo := Details.listInfo deposit in       (* || {} *)
  [ (js "index", VNumber (Details.index deposit));
    (js "amount",
      VString match option_map ListInfo.amount listInfo with
              | Some (c :: s) => replaceAllChar Char.comma [] (c :: s)
              | _ => []
              end);
    (js "currency", VString (orElse (option_map ListInfo.currency listInfo) []));
    (js "depositStatus", VString (orElse (option_map ListInfo.depositStatus listInfo) []));
    (js "hasBeenReturned",
      VBoolean match listInfo with
               | Some l => ListInfo.hasBeenReturned l || false
               | None => false
               end);
    (js "returnStatus", VString (orElse (option_map ListInfo.returnStatus listInfo) []));
    (js "billPayer", VString (orElse (option_map ModalInfo.billPayer modalInfo) []));
    (js "formAmount", VString (orElse (option_map ModalInfo.amount modalInfo) []));
    (js "depositDate", VString (orElse (option_map ModalInfo.depositDate modalInfo) []));
    (js "note", VString (orElse (option_map ModalInfo.note modalInfo) []));
    (js "alreadyPaid",
      VBoolean match modalInfo with
               | Some m => ModalInfo.alreadyPaid m || false
               | None => false
               end);
    (js "extractedBy", VString (orElse (Details.extractedBy deposit) CONFIG.USER));
    (js "extractedAt", VString (orElse (Details.timestamp deposit) CONFIG.TIMESTAMPS_current));
    (js "errorMessage", VString (orElse (Details.error deposit) [])) ].

Definition formatForExport (deposits : list Details.t) : list jsobject :=
  map formatDeposit deposits.

(** [CONFIG.TIMESTAMPS.current.replace(/[: ]/g, '_')] in a file name. *)
Definition generateFilename (extension : jsstring) : jsstring :=
  let timestamp :=
    map (fun c => if (N.eqb c 58 || N.eqb c 32)%N then 95%N else c)
        CONFIG.TIMESTAMPS_current in
  CONFIG.FILE_PREFIX ++ timestamp ++ js "." ++ extension.

(** *** UIUtils and [downloadFile], as far as they can throw *)

(** [document.body] and [document.head]; [None] is [null]. The interface
    only appends to them, so their position is all that is kept. *)
Definition documentBody (doc : Document) : option ref := ReturnDetector.bodyRef doc.

Definition documentHead (doc : Document) : option ref :=
  let firstIndex := fix firstIndex (p : Node -> bool) (ns : list Node) (i : nat) :=
    match ns with
    | [] => None
    | n :: rest => if p n then Some (i, n) else firstIndex p rest (S i)
    end in
  match firstIndex isElementNode doc 0%nat with
  | Some (h, Element name _ cs) =>
      if str_eqb name (js "html") then
        match firstIndex (fun n => match n with
                                   | Element local _ _ => str_eqb local (js "head")
                                   | _ => false
                                   end) cs 0%nat with
        | Some (b, _) => Some [b; h]
        | None => None
        end
      else None
  | _ => None
  end.

(** The variable [loadingOverlay] when the export starts. *)
Inductive Overlay : Type :=
| NotCreated    (* [null]: [showLoading] has not run yet *)
| Complete      (* built by an earlier [showLoading], with its three [div]s *)
| Childless.    (* assigned by an earlier [showLoading] that threw at
                   [document.head.appendChild], before any [div] was added *)

(** [showLoading(message)] *)
Definition showLoading (live : Document) (overlay : Overlay) : outcome unit :=
  match overlay with
  | NotCreated =>
      _ <- deref (documentHead live) ;;     (* document.head.appendChild(style) *)
      _ <- deref (documentBody live) ;;     (* document.body.appendChild(loadingOverlay) *)
      Returned tt
  | Complete => Returned tt
  | Childless => Thrown typeError           (* querySelector('div:nth-child(2)') is null *)
  end.

(** [showAlert(message, type)]: [document.body.appendChild(alertBox)] *)
Definition showAlert (live : Document) : outcome unit :=
  _ <- deref (documentBody live) ;;
  Returned tt.

(** [downloadFile(content, fileName, contentType)]:
    [document.body.appendChild(a)]; building the [Blob] and its URL is
    taken to succeed. *)
Definition downloadFile (live : Document) : outcome unit :=
  _ <- deref (documentBody live) ;;
  Returned tt.

(** *** App *)

(** The [for] loop of [exportAllDepositData]: [i] is the loop index and
    [pages i] what the page does during that turn. [updateProgress]
    writes into the third [div] of the overlay, which is there once
    [showLoading] has returned. When [getDepositDetails] is rejected the
    rest of the [try] block, [closeModal] included, is skipped. [Thrown]
    is an error thrown inside the loop's own [catch], which leaves the
    loop. *)
Fixpoint processDeposits (deposits : list Deposit) (pages : nat -> Page) (i : nat)
    (depositDetails : list Details.t) : outcome (list Details.t) :=
  match deposits with
  | [] => Returned depositDetails
  | deposit :: rest =>
      match getDepositDetails deposit (pages i) with
      | Returned details =>
          let depositDetails := depositDetails ++ [details] in
          match closeModal (pages i) with
          | Returned _ => processDeposits rest pages (S i) depositDetails
          | Thrown error =>
              row <- partialDetails deposit error ;;
              processDeposits rest pages (S i) (depositDetails ++ [row])
          end
      | Thrown error =>
          row <- partialDetails deposit error ;;
          processDeposits rest pages (S i) (depositDetails ++ [row])
      end
  end.

(** What the promise of [exportAllDepositData] resolves to. *)
Inductive ExportResult : Type :=
| ExportDone (count : nat) (csvFilename jsonFilename : jsstring)
             (data : list jsobject)
             (csvContent : jsstring)         (* what is handed to [downloadFile] *)
| ExportFailed (error : option jsstring).

(** The outer [catch]: [hideLoading] only hides; the argument of
    [showAlert] reads [error.message]. *)
Definition exportFailure (live : Document) (error : JSThrown)
    : outcome ExportResult :=
  message <- messageOf error ;;
  _ <- showAlert live ;;
  Returned (ExportFailed message).

(** [exportAllDepositData()]. [doc] is the document when the export
    starts: nothing is awaited before the loop. [later] is the document
    when the loop is left, which the page may have changed meanwhile.
    [Thrown] is a rejected promise. *)
Definition exportAllDepositData (doc : Document) (overlay : Overlay)
    (pages : nat -> Page) (later : Document) : outcome ExportResult :=
  let start :=
    deposits <- findAllDeposits doc ;;
    match deposits with
    | [] =>
        _ <- showAlert doc ;;
        Returned (inl (ExportFailed (Some (js "No deposits found"))))
    | _ :: _ =>
        _ <- showLoading doc overlay ;;
        Returned (inr deposits)
    end in
  match start with
  | Thrown error => exportFailure doc error
  | Returned (inl result) => Returned result
  | Returned (inr deposits) =>
      let finish :=
        depositDetails <- processDeposits deposits pages 0 [] ;;
        let exportData := formatForExport depositDetails in
        let csvContent := toCSV exportData in
        let csvFilename := generateFilename (js "csv") in
        let jsonFilename := generateFilename (js "json") in
        _ <- downloadFile later ;;
        _ <- downloadFile later ;;
        _ <- showAlert later ;;
        Returned (ExportDone (List.length deposits) csvFilename jsonFilename
                             exportData csvContent) in
      match finish with
      | Thrown error => exportFailure later error
      | Returned result => Returned result
      end
  end.

End ScriptDemo.

(* ================================================================== *)
(** ** A reader for delimited text *)
(* ================================================================== *)

(** The reader against which the writer is checked, after RFC 4180:
    fields are separated by commas and records by line breaks; a field may
    be wrapped in double quotes, inside which a doubled quote stands for
    one quote and commas and line breaks are ordinary characters. *)
Module Csv.

Inductive state : Type :=
| FieldStart      (* nothing of the field read yet *)
| Bare            (* inside an unquoted field *)
| Quoted          (* inside a quoted field *)
| QuoteSeen.      (* a quote inside a quoted field: its end, or half of a doubled quote *)

(** [field] is the current field, reversed; [record] the fields of the
    current record, last first; [records] the finished records, last
    first. *)
Fixpoint read (st : state) (field : jsstring) (record : list jsstring)
    (records : list (list jsstring)) (input : jsstring)
    : option (list (list jsstring)) :=
  let endField := rev field :: record in
  let endRecord := rev endField :: records in
  match input with
  | [] =>
      match st, record with
      | Quoted, _ => None
      | FieldStart, [] => Some (rev records)
      | _, _ => Some (rev endRecord)
      end
  | c :: rest =>
      match st with
      | Quoted =>
          if N.eqb c Char.quote then read QuoteSeen field record records rest
          else read Quoted (c :: field) record records rest
      | QuoteSeen =>
          if N.eqb c Char.quote then read Quoted (c :: field) record records rest
          else if N.eqb c Char.comma then read FieldStart [] endField records rest
          else if N.eqb c Char.newline then read FieldStart [] [] endRecord rest
          else None
      | FieldStart =>
          if N.eqb c Char.quote then read Quoted [] record records rest
          else if N.eqb c Char.comma then read FieldStart [] endField records rest
          else if N.eqb c Char.newline then read FieldStart [] [] endRecord rest
          else read Bare (c :: field) record records rest
      | Bare =>
          if N.eqb c Char.quote then None
          else if N.eqb c Char.comma then read FieldStart [] endField records rest
          else if N.eqb c Char.newline then read FieldStart [] [] endRecord rest
          else read Bare (c :: field) record records rest
      end
  end.

Definition parse (text : jsstring) : option (list (list jsstring)) :=
  read FieldStart [] [] [] text.

End Csv.

(** The text a reader is expected to give back for a value. *)
Definition fieldText (value : jsvalue) : jsstring :=
  match value with
  | VUndefined | VNull => []
  | VBoolean b => if b then js "true" else js "false"
  | VString s => s
  | VNumber n => numberToString n
  | VObject json => json
  end.

(** A text that can stand unquoted in a field: no quote, comma or line
    break. *)
Definition bareSafe (text : jsstring) : bool :=
  forallb (fun c => negb (N.eqb c Char.quote) && negb (N.eqb c Char.comma)
                    && negb (N.eqb c Char.newline)) text.

(** Where the reader stands once a field with content [text] has been
    closed by the delimiter [d], a comma or a line break. *)
Definition afterField (d : N) (text : jsstring) (record : list jsstring)
    (records : list (list jsstring)) (rest : jsstring) : option (list (list jsstring)) :=
  if N.eqb d Char.comma
  then Csv.read Csv.FieldStart [] (text :: record) records rest
  else Csv.read Csv.FieldStart [] [] (rev (text :: record) :: records) rest.

(** The written form of a field is read back as [text], whatever comes
    before and after it. *)
Definition readsAs (written text : jsstring) : Prop :=
  forall d record records rest,
    d = Char.comma \/ d = Char.newline ->
    Csv.read Csv.FieldStart [] record records (written ++ d :: rest) =
    afterField d text record records rest.

(** The fixed schema of an export row. *)
Definition exportSchema : list jsstring :=
  [js "index"; js "amount"; js "currency"; js "depositStatus"; js "hasBeenReturned";
   js "returnStatus"; js "billPayer"; js "formAmount"; js "depositDate"; js "note";
   js "alreadyPaid"; js "extractedBy"; js "extractedAt"; js "errorMessage"].

(* ================================================================== *)
(** ** Sample pages *)
(* ================================================================== *)

Module Sample.

Definition el (name : string) (children : list Node) : Node :=
  Element (js name) [] children.
Definition txt (s : string) : Node := TextNode (js s).
Definition p (s : string) : Node := el "p" [txt s].
Definition page (body : list Node) : Document :=
  [el "html" [el "head" []; el "body" body]].

(** The element of [doc] at [r], as an element object. *)
Definition at_ (doc : Document) (r : ref) : Elem :=
  match nodeAt doc r with
  | Some n => mkElem r n
  | None => mkElem r (TextNode [])
  end.

(** A deposit of € 1,250.00 whose return is still pending:
<<
<div>
  <div><p>Deposit</p><small> Paid </small></div>
  <p>€</p><p>1,250.00</p>
  <div><p>Return</p><small>Pending invoice</small></div>
</div>
>> *)
Definition pendingReturn : Document :=
  page [el "div" [
          el "div" [p "Deposit"; el "small" [txt " Paid "]];
          el "p" [TextNode [Char.euro]]; p "1,250.00";
          el "div" [p "Return"; el "small" [txt "Pending invoice"]]]].
Definition pendingReturnContainer : Elem := at_ pendingReturn [0; 1; 0]%nat.

(** A deposit without a "Return" label whose text still has the word:
<<
<div><p>Deposit</p><p>$300</p><p>Returnable on request</p></div>
>> *)
Definition returnable : Document :=
  page [el "div" [p "Deposit"; p "$300"; p "Returnable on request"]].
Definition returnableContainer : Elem := at_ returnable [0; 1; 0]%nat.

(** A "Deposit" paragraph whose third ancestor holds a number and no
    currency symbol:
<<
<section>
  <div><div><p>Deposit</p></div></div>
  <p>1,250.00</p>
</section>
>> *)
Definition numberOnly : Document :=
  page [el "section" [el "div" [el "div" [p "Deposit"]]; p "1,250.00"]].
Definition numberOnlyParagraph : Elem := at_ numberOnly [0; 0; 0; 0; 1; 0]%nat.
Definition numberOnlyAncestor : Elem := at_ numberOnly [0; 1; 0]%nat.

(** A first "€" that is not followed by an amount, and a second one
    that is:
<<
<div><p>Deposit</p><p>€</p><p>n/a</p><p>€</p><p>1,250.00</p></div>
>> *)
Definition repeatedSymbol : Document :=
  page [el "div" [p "Deposit"; el "p" [TextNode [Char.euro]]; p "n/a";
                  el "p" [TextNode [Char.euro]]; p "1,250.00"]].
Definition repeatedSymbolContainer : Elem := at_ repeatedSymbol [0; 1; 0]%nat.

(** Amounts written in one paragraph:
<<
<div><p>Deposit</p><p>$300</p></div>
<div><p>Deposit</p><p>450</p><p>12.50</p></div>
>> *)
Definition combined : Document :=
  page [el "div" [p "Deposit"; p "$300"];
        el "div" [p "Deposit"; p "450"; p "12.50"]].
Definition combinedFirst : Elem := at_ combined [0; 1; 0]%nat.
Definition combinedSecond : Elem := at_ combined [1; 1; 0]%nat.

(** Three deposits on one page. *)
Definition three : Document :=
  page [el "div" [p "Deposit"; p "$300"];
        el "div" [p "Deposit"; el "p" [TextNode [Char.euro]]; p "1,250.00"];
        el "div" [p "Deposit"; p "12.50"]].

Definition details : ScriptDemo.ModalInfo.t := {|
  ScriptDemo.ModalInfo.billPayer := js "A. Payer";
  ScriptDemo.ModalInfo.amount := js "300";
  ScriptDemo.ModalInfo.depositDate := js "28/04/2025";
  ScriptDemo.ModalInfo.note := [];
  ScriptDemo.ModalInfo.alreadyPaid := true
|}.

(** The page answers every step. *)
Definition calm : ScriptDemo.Page := {|
  ScriptDemo.click := Returned tt;
  ScriptDemo.modalWait := Returned tt;
  ScriptDemo.modalDetails := Returned details;
  ScriptDemo.closeModal := Returned true
|}.

(** The detail read throws [error]. *)
Definition failingRead (error : JSThrown) : ScriptDemo.Page := {|
  ScriptDemo.click := Returned tt;
  ScriptDemo.modalWait := Returned tt;
  ScriptDemo.modalDetails := Thrown error;
  ScriptDemo.closeModal := Returned true
|}.

(** The detail read of the second record (loop index 1) throws. *)
Definition secondFails (error : JSThrown) (i : nat) : ScriptDemo.Page :=
  if Nat.eqb i 1 then failingRead error else calm.

End Sample.

(* ================================================================== *)
(** ** Vocabulary of the statements *)
(* ================================================================== *)

(** The shape of a text split by the capture groups of
    [/^([€$£]?)\s*([0-9,.]+)$/]. *)
Definition splitsAs (text symbol digits : jsstring) : Prop :=
  exists space,
    text = symbol ++ space ++ digits /\
    (symbol = [] \/ exists c, symbol = [c] /\ Patterns.isCurrencySymbol c = true) /\
    forallb isWhiteSpace space = true /\
    digits <> [] /\ forallb Patterns.isAmountChar digits = true.

Definition attachedRoot (doc : Document) (root : Root) : Prop :=
  match root with
  | DocumentRoot => True
  | ElementRoot e => attached doc e
  end.

(** The paragraphs of a container, as [extractDepositInfo] lists them. *)
Definition paragraphsOf (doc : Document) (container : Elem) : list Elem :=
  DOMUtils.querySelectorAll doc sel_p (ElementRoot container).

(** The trimmed text of the paragraph passes [/[0-9,.]+/.test]. *)
Definition amountLike (p : Elem) : bool :=
  Regex.testAnywhere Patterns.amountChars (trim (textContent p)).

(** The trimmed text of the paragraph passes [/^[€$£]?\s*[0-9,.]+$/.test]. *)
Definition combinedLike (p : Elem) : bool :=
  Regex.testWhole Patterns.combinedAmount (trim (textContent p)).

(** The trimmed text of the paragraph begins with a currency symbol. *)
Definition startsWithCurrency (p : Elem) : bool :=
  match trim (textContent p) with
  | c :: _ => Patterns.isCurrencySymbol c
  | [] => false
  end.

(** [next] is the paragraph right after the first paragraph whose trimmed
    text is [symbol]. *)
Definition followsFirst (paragraphs : list Elem) (symbol : jsstring) (next : Elem) : Prop :=
  exists front p back,
    paragraphs = front ++ p :: next :: back /\
    Fields.hasText symbol p = true /\
    forall x, In x front -> Fields.hasText symbol x = false.

(** The same, computed: the element after the first one that passes [test]. *)
Fixpoint nextAfterFirst (test : Elem -> bool) (paragraphs : list Elem) : option Elem :=
  match paragraphs with
  | [] => None
  | p :: rest => if test p then hd_error rest else nextAfterFirst test rest
  end.

(** The first paragraph that reads [symbol] is followed by an amount. *)
Definition suppliesAmount (paragraphs : list Elem) (symbol : jsstring) : Prop :=
  exists next, followsFirst paragraphs symbol next /\ amountLike next = true.

(** [p] is the first element of the list that passes [test]. *)
Definition firstWhere (test : Elem -> bool) (paragraphs : list Elem) (p : Elem) : Prop :=
  exists front back,
    paragraphs = front ++ p :: back /\
    test p = true /\
    forall x, In x front -> test x = false.

(** The [n]-th ancestor element of [e]; [e] itself for [0]. *)
Fixpoint ancestor (doc : Document) (e : Elem) (n : nat) : option Elem :=
  match n with
  | O => Some e
  | S k =>
      match parentElement doc e with
      | Some parent => ancestor doc parent k
      | None => None
      end
  end.

(** Nothing in the container can give the status that goes with [label]:
    no paragraph reads [label], or it has no parent element, or that
    parent holds no [small]. *)
Definition statusSourceMissing (doc : Document) (paragraphs : list Elem)
    (label : jsstring) : Prop :=
  match find (Fields.hasText label) paragraphs with
  | None => True
  | Some labelParagraph =>
      match parentElement doc labelParagraph with
      | None => True
      | Some parent =>
          forall e, In e (descendantElements doc (ElementRoot parent)) ->
                    Selector.matchesElement sel_small (e_node e) = false
      end
  end.

(** What the row of a record holds as its error when the detail read of
    the record throws [error]: the message of an [Error]; nothing for
    another value with properties; and for [null] or [undefined], whose
    [message] cannot be read, the message of the [TypeError] that the
    read throws. *)
Definition recordedMessage (error : JSThrown) : jsstring :=
  match error with
  | ErrorObject message => message
  | OtherValue => []
  | NullOrUndefined => typeErrorMessage
  end.

(* ================================================================== *)
(** ** return-detector.js: the body of the script *)
(* ================================================================== *)

Module Extractor.

(** The [debug] object of a successful run. *)
Record Debug : Type := {
  title : jsstring;
  url : jsstring;
  depositTextCount : nat;
  totalParagraphs : nat
}.

(** The value of [extractorResult]. *)
Inductive Result : Type :=
| Success (deposits : list ReturnDetector.Deposit) (debug : Debug)
| Failure (error : jsstring).

(** [document.body] as an element object; [None] is [null]. *)
Definition documentBody (doc : Document) : option Elem :=
  match ReturnDetector.bodyRef doc with
  | Some r => option_map (mkElem r) (nodeAt doc r)
  | None => None
  end.

Section Run.

Variable toLowerCase : jsstring -> jsstring.
Variable serialize : Elem -> jsstring.
Variable errorToString : JSThrown -> jsstring.    (* [error.toString()] *)
Variable documentTitle : jsstring.                (* [document.title] *)
Variable locationHref : jsstring.                 (* [window.location.href] *)

(** "Run the deposit finder": the [try] block and its [catch]. *)
Definition extractorResult (doc : Document) : Result :=
  let attempt :=
    let pageTitle := documentTitle in
    let url := locationHref in
    body <- deref (documentBody doc) ;;
    let pageContent := textContent body in
    depositParas <- nativeQuerySelectorAll doc sel_p DocumentRoot ;;
    let depositTextCount :=
      List.length (filter (fun p => includes (textContent p) (js "Deposit"))
                          depositParas) in
    deposits <- ReturnDetector.findAllDeposits toLowerCase serialize doc ;;
    Returned (Success deposits {|
      title := pageTitle;
      url := url;
      depositTextCount := depositTextCount;
      totalParagraphs := List.length depositParas
    |}) in
  match attempt with
  | Returned result => result
  | Thrown error => Failure (errorToString error)
  end.

End Run.

End Extractor.

(* ================================================================== *)
(** ** script-demo.js: the click target and the modal *)
(* ================================================================== *)

(** What the script reads from the live page besides its tree: properties
    of element objects that are not attributes, and what a click does. *)
Module Browser.
Record t : Type := {
  onclick : Elem -> bool;                                (* [element.onclick] is set *)
  computedStyle : Elem -> jsstring -> option jsstring;   (* [window.getComputedStyle(element)[property]] *)
  value : Elem -> jsstring;                              (* [input.value], [textarea.value] *)
  checked : Elem -> bool;                                (* [input.checked] *)
  clickOn : Elem -> outcome unit                         (* [element.click()] *)
}.
End Browser.

(** The functions of [DOMUtils] that only script-demo.js has. *)
Module DOMUtilsDemo.

Definition sel_button : Selector.selector :=
  [[Selector.TypeSel (js "button")]].                             (* 'button' *)
Definition sel_roleButton : Selector.selector :=
  [[Selector.AttrEquals (js "role") (js "button")]].              (* '[role="button"]' *)
Definition sel_any : Selector.selector := [[Selector.Universal]]. (* '*' *)

(** [element.classList.contains(token)] *)
Definition classListContains (n : Node) (token : jsstring) : bool :=
  match getAttribute n (js "class") with
  | Some v => existsb (str_eqb token) (Selector.tokens [] v)
  | None => false
  end.

Section WithBrowser.

Variable B : Browser.t.

Definition hasStyle (element : Elem) (property_ value : jsstring) : bool :=
  match Browser.computedStyle B element property_ with
  | Some style => str_eqb style value
  | None => false
  end.

(** "Check if container itself is clickable" *)
Definition isClickable (container : Elem) : bool :=
  Browser.onclick B container
  || match getAttribute (e_node container) (js "role") with
     | Some role => str_eqb role (js "button")
     | None => false
     end
  || str_eqb (tagName (e_node container)) (js "BUTTON")
  || classListContains (e_node container) (js "clickable").

Definition findClickableElement (doc : Document) (container : Elem) : Elem :=
  if isClickable container then container
  else
    match DOMUtils.querySelectorAll doc sel_button (ElementRoot container) with
    | button :: _ => button
    | [] =>
        match DOMUtils.querySelectorAll doc sel_roleButton (ElementRoot container) with
        | roleButton :: _ => roleButton
        | [] =>
            match find (fun element => hasStyle element (js "cursor") (js "pointer"))
                       (DOMUtils.querySelectorAll doc sel_any (ElementRoot container)) with
            | Some element => element
            | None => container
            end
        end
    end.

End WithBrowser.

End DOMUtilsDemo.

Module ModalHandler.

(** [CONFIG.SELECTORS.MODAL], the form controls. *)
Module CONFIG.
Definition BILL_PAYER : Selector.selector :=
  [[Selector.ClassSel (js "Select-value-label")]].                 (* '.Select-value-label' *)
Definition AMOUNT : Selector.selector :=
  [[Selector.TypeSel (js "input");
    Selector.AttrEquals (js "name") (js "amount")]].               (* 'input[name="amount"]' *)
Definition DATE : Selector.selector :=
  [[Selector.TypeSel (js "input");
    Selector.AttrContains (js "value") (js "/")]].                 (* 'input[value*="/"]' *)
Definition NOTE : Selector.selector :=
  [[Selector.TypeSel (js "textarea");
    Selector.AttrEquals (js "name") (js "note")]].                 (* 'textarea[name="note"]' *)
Definition ALREADY_PAID : Selector.selector :=
  [[Selector.TypeSel (js "input");
    Selector.AttrEquals (js "name") (js "alreadyPaid")]].          (* 'input[name="alreadyPaid"]' *)
End CONFIG.

(** What [closeModal] did and what it returned. *)
Record Closing : Type := {
  clicked : list Elem;     (* the buttons on which [click()] was called, in order *)
  escapeSent : bool;       (* the [keydown] event for Escape was dispatched *)
  closed : bool            (* the return value *)
}.

Section WithBrowser.

Variable B : Browser.t.

(** The body of the timer callback in [extractModalDetails]; every read is
    guarded, so the promise is resolved with the details. *)
Definition extractModalDetails (doc : Document) : ScriptDemo.ModalInfo.t :=
  let billPayerElement := DOMUtils.querySelector doc CONFIG.BILL_PAYER DocumentRoot in
  let billPayer :=
    match billPayerElement with
    | Some e => trim (textContent e)
    | None => []
    end in
  let amountInput := DOMUtils.querySelector doc CONFIG.AMOUNT DocumentRoot in
  let amount :=
    match amountInput with
    | Some e => Browser.value B e
    | None => []
    end in
  let dateInput := DOMUtils.querySelector doc CONFIG.DATE DocumentRoot in
  let depositDate :=
    match dateInput with
    | Some e => Browser.value B e
    | None => []
    end in
  let noteTextarea := DOMUtils.querySelector doc CONFIG.NOTE DocumentRoot in
  let note :=
    match noteTextarea with
    | Some e => Browser.value B e
    | None => []
    end in
  let alreadyPaidCheckbox := DOMUtils.querySelector doc CONFIG.ALREADY_PAID DocumentRoot in
  let alreadyPaid :=
    match alreadyPaidCheckbox with
    | Some e => Browser.checked B e
    | None => false
    end in
  {| ScriptDemo.ModalInfo.billPayer := billPayer;
     ScriptDemo.ModalInfo.amount := amount;
     ScriptDemo.ModalInfo.depositDate := depositDate;
     ScriptDemo.ModalInfo.note := note;
     ScriptDemo.ModalInfo.alreadyPaid := alreadyPaid |}.

(** The loop of [closeModal] over the close-button selectors; a throw
    inside the [try] is dropped and the loop goes on. *)
Fixpoint closeModalLoop (doc : Document) (selectors : list Selector.selector)
    (clicked : list Elem) : Closing :=
  match selectors with
  | [] =>
      (* "Fallback: Try ESC key" *)
      {| clicked := clicked; escapeSent := true; closed := false |}
  | selector :: rest =>
      match DOMUtils.querySelector doc selector DocumentRoot with
      | Some button =>
          match Browser.clickOn B button with
          | Returned _ =>
              {| clicked := clicked ++ [button]; escapeSent := false; closed := true |}
          | Thrown _ => closeModalLoop doc rest (clicked ++ [button])
          end
      | None => closeModalLoop doc rest clicked
      end
  end.

Definition closeModal (doc : Document) : Closing :=
  closeModalLoop doc ScriptDemo.CONFIG.CLOSE_BUTTON [].

(** One turn of the loop of [exportAllDepositData] against the page:
    [atClick] is the document when [getDepositDetails] is called, [atRead]
    the document when the form is read, [atClose] the document when
    [closeModal] runs; [wait] tells whether the wait for the modal was
    rejected. *)
Definition turn (atClick atRead atClose : Document) (wait : outcome unit)
    (deposit : ScriptDemo.Deposit) : ScriptDemo.Page := {|
  ScriptDemo.click :=
    Browser.clickOn B
      (DOMUtilsDemo.findClickableElement B atClick (ScriptDemo.element deposit));
  ScriptDemo.modalWait := wait;
  ScriptDemo.modalDetails := Returned (extractModalDetails atRead);
  ScriptDemo.closeModal := Returned (closed (closeModal atClose))
|}.

End WithBrowser.

End ModalHandler.

(* ================================================================== *)
(** ** More sample pages *)
(* ================================================================== *)

Module Fixture.

Local Open Scope string_scope.

Definition tag (name : string) (attrs : list (string * string)) (children : list Node)
    : Node :=
  Element (js name) (map (fun a => (js (fst a), js (snd a))) attrs) children.

(** [String.prototype.toLowerCase] on ASCII text. *)
Definition lower (s : jsstring) : jsstring :=
  map (fun c => if ((65 <=? c) && (c <=? 90))%N then (c + 32)%N else c) s.

(** A list entry with its detail form open:
<<
<div id="list"><div class="entry"><p>Deposit</p><p>$300</p><button>Edit</button></div></div>
<div role="dialog">
  <span class="Select-value-label"> A. Payer </span>
  <input name="amount" value="300"><input name="date" value="28/04/2025">
  <textarea name="note"></textarea><input name="alreadyPaid" type="checkbox">
  <button class="LEGACY_MODAL_closeButton">x</button>
</div>
>> *)
Definition openModal : Document :=
  Sample.page [
    tag "div" [("id", "list")] [
      tag "div" [("class", "entry")] [Sample.p "Deposit"; Sample.p "$300";
                                      tag "button" [] [Sample.txt "Edit"]]];
    tag "div" [("role", "dialog")] [
      tag "span" [("class", "Select-value-label")] [Sample.txt " A. Payer "];
      tag "input" [("name", "amount"); ("value", "300")] [];
      tag "input" [("name", "date"); ("value", "28/04/2025")] [];
      tag "textarea" [("name", "note")] [];
      tag "input" [("name", "alreadyPaid"); ("type", "checkbox")] [];
      tag "button" [("class", "LEGACY_MODAL_closeButton")] [Sample.txt "x"]]].

Definition entry : Elem := Sample.at_ openModal [0; 0; 1; 0]%nat.

(** A browser in which a control's value is its [value] attribute, nothing
    is checked, no handler is set and every click returns. *)
Definition quiet : Browser.t := {|
  Browser.onclick := fun _ => false;
  Browser.computedStyle := fun _ _ => Some (js "auto");
  Browser.value := fun e =>
    match getAttribute (e_node e) (js "value") with
    | Some v => v
    | None => []
    end;
  Browser.checked := fun _ => false;
  Browser.clickOn := fun _ => Returned tt
|}.

(** The same, except that clicking a [button] throws. *)
Definition stubborn : Browser.t := {|
  Browser.onclick := fun _ => false;
  Browser.computedStyle := fun _ _ => Some (js "auto");
  Browser.value := Browser.value quiet;
  Browser.checked := fun _ => false;
  Browser.clickOn := fun e =>
    if str_eqb (tagName (e_node e)) (js "BUTTON")
    then Thrown (ErrorObject (js "detached"))
    else Returned tt
|}.

(** A page in which closing the modal throws during the second turn. *)
Definition secondCloseFails (i : nat) : ScriptDemo.Page :=
  if Nat.eqb i 1
  then {| ScriptDemo.click := Returned tt;
          ScriptDemo.modalWait := Returned tt;
          ScriptDemo.modalDetails := Returned Sample.details;
          ScriptDemo.closeModal := Thrown (ErrorObject (js "gone")) |}
  else Sample.calm.

(** A page in which closing the modal throws [null] during the second
    turn. *)
Definition secondCloseThrowsNull (i : nat) : ScriptDemo.Page :=
  if Nat.eqb i 1
  then {| ScriptDemo.click := Returned tt;
          ScriptDemo.modalWait := Returned tt;
          ScriptDemo.modalDetails := Returned Sample.details;
          ScriptDemo.closeModal := Thrown NullOrUndefined |}
  else Sample.calm.

(** A document whose root element is not [html], so that it has neither
    head nor body: [<div><p>Deposit</p><p>$300</p></div>]. *)
Definition bare : Document :=
  [Sample.el "div" [Sample.p "Deposit"; Sample.p "$300"]].

(** The same without any deposit. *)
Definition bareEmpty : Document := [Sample.el "div" []].

(** The record script-demo.js extracts from [Sample.returnable]. *)
Definition returnableDeposit : ScriptDemo.Deposit := {|
  ScriptDemo.index := 1;
  ScriptDemo.type := js "Deposit";
  ScriptDemo.amount := js "300";
  ScriptDemo.currency := js "$";
  ScriptDemo.depositStatus := [];
  ScriptDemo.hasBeenReturned := true;
  ScriptDemo.returnStatus := [];
  ScriptDemo.element := Sample.returnableContainer
|}.


(** An element nested three levels below one with an [id]:
<<
<div id="list"><ul><li>one</li><li><p>Deposit</p></li></ul></div>
>> *)
Definition nested : Document :=
  Sample.page [
    tag "div" [("id", "list")] [
      Sample.el "ul" [Sample.el "li" [Sample.txt "one"];
                      Sample.el "li" [Sample.p "Deposit"]]];
    Sample.el "ul" [Sample.el "li" []; Sample.txt " "; Sample.el "p" [];
                    Sample.el "li" [Sample.p "Deposit"; Sample.p "$5"]]].

End Fixture.

(* ================================================================== *)
(** ** More vocabulary *)
(* ================================================================== *)

(** The text is empty or begins and ends with something else than white
    space. *)
Definition noOuterSpace (s : jsstring) : bool :=
  match s with
  | [] => true
  | c :: _ => negb (isWhiteSpace c) && negb (isWhiteSpace (last s c))
  end.

(** One of the configured currency symbols, or the empty string. *)
Definition knownCurrency (c : jsstring) : Prop :=
  c = [] \/ c = [Char.euro] \/ c = [Char.dollar] \/ c = [Char.pound].

(** The number of element siblings before index [position] that have the
    tag name of [element]. *)
Definition precedingSameTag (siblings : list Node) (position : nat) (element : Node) : nat :=
  List.length
    (filter (fun sibling => isElementNode sibling
                            && str_eqb (tagName sibling) (tagName element))
            (firstn position siblings)).

(** In the turn for [deposit], [getDepositDetails] is fulfilled and the
    step that closes the modal throws. *)
Definition closeThrows (deposit : ScriptDemo.Deposit) (page : ScriptDemo.Page) : bool :=
  match ScriptDemo.getDepositDetails deposit page, ScriptDemo.closeModal page with
  | Returned _, Thrown _ => true
  | _, _ => false
  end.

(** ... and what it throws is [null] or [undefined], so that the loop's
    [catch] throws in its turn and the loop is left. *)
Definition leavesLoop (deposit : ScriptDemo.Deposit) (page : ScriptDemo.Page) : bool :=
  match ScriptDemo.getDepositDetails deposit page, ScriptDemo.closeModal page with
  | Returned _, Thrown NullOrUndefined => true
  | _, _ => false
  end.

(** The first row of the turn for [deposit]: the object
    [getDepositDetails] is fulfilled with or, when it is rejected, the
    partial object the loop's [catch] builds from the rejection. *)
Definition ownRow (deposit : ScriptDemo.Deposit) (page : ScriptDemo.Page)
    (row : ScriptDemo.Details.t) : Prop :=
  ScriptDemo.getDepositDetails deposit page = Returned row \/
  exists error,
    ScriptDemo.getDepositDetails deposit page = Thrown error /\
    ScriptDemo.partialDetails deposit error = Returned row.

(** The second row of such a turn: the partial object the loop's [catch]
    builds when [getDepositDetails] was fulfilled and closing the modal
    throws. *)
Definition secondRow (deposit : ScriptDemo.Deposit) (page : ScriptDemo.Page)
    (row : ScriptDemo.Details.t) : Prop :=
  exists details error,
    ScriptDemo.getDepositDetails deposit page = Returned details /\
    ScriptDemo.closeModal page = Thrown error /\
    ScriptDemo.partialDetails deposit error = Returned row.

(** The selector finds a button whose click returns. *)
Definition closesWith (B : Browser.t) (doc : Document) (selector : Selector.selector)
    : bool :=
  match DOMUtils.querySelector doc selector DocumentRoot with
  | Some button =>
      match Browser.clickOn B button with
      | Returned _ => true
      | Thrown _ => false
      end
  | None => false
  end.

(** [e] is [root] or lies below it. *)
Definition within (doc : Document) (root e : Elem) : Prop :=
  e = root \/ In e (descendantElements doc (ElementRoot root)).

(** A digit, a period or comma, and a digit in a row. *)
Definition hasDecimal (s : jsstring) : Prop :=
  exists a d1 sep d2 b,
    s = a ++ [d1; sep; d2] ++ b /\
    Regex.isDigit d1 = true /\ Regex.isDigit d2 = true /\
    (sep = Char.period \/ sep = Char.comma).

(** The text of [inner] occurs in the text of [outer]. *)
Definition textIn (inner outer : Elem) : Prop :=
  exists pre post, textContent outer = pre ++ textContent inner ++ post.

(** [row] is pushed by the loop of [exportAllDepositData] that starts at
    index [i], in the turn of one of the deposits. *)
Definition rowOf (pages : nat -> ScriptDemo.Page) (deposits : list ScriptDemo.Deposit)
    (i : nat) (row : ScriptDemo.Details.t) : Prop :=
  exists k deposit,
    nth_error deposits k = Some deposit /\
    (ownRow deposit (pages (i + k)%nat) row \/ secondRow deposit (pages (i + k)%nat) row).

(** The click on [button] throws. *)
Definition refuses (B : Browser.t) (button : Elem) : Prop :=
  exists error, Browser.clickOn B button = Thrown error.

(** [button] is the first match in the document of a selector of the
    list. *)
Definition foundBy (doc : Document) (selectors : list Selector.selector)
    (button : Elem) : Prop :=
  exists selector,
    In selector selectors /\ Selector.valid selector = true /\
    DOMUtils.querySelector doc selector DocumentRoot = Some button.

(** [getXPath] goes on from the node at [r] to its parent: the node is an
    element whose [id] is the empty string, and it is not the body. *)
Definition walksOn (doc : Document) (r : ref) : Prop :=
  exists element,
    nodeAt doc r = Some element /\
    ReturnDetector.elementId element = Some [] /\
    ReturnDetector.isBody doc r = false.

(** [getXPath] stops at [r] and starts the path with [base]: [r] is the
    document node or a text or comment node, whose [id] is [undefined];
    or an element with an [id] that is not empty; or the body. *)
Definition endsWith (doc : Document) (r : ref) (base : jsstring) : Prop :=
  match r with
  | [] => base = ReturnDetector.idPath (js "undefined")
  | _ :: _ =>
      exists node,
        nodeAt doc r = Some node /\
        match ReturnDetector.elementId node with
        | None => base = ReturnDetector.idPath (js "undefined")
        | Some [] => ReturnDetector.isBody doc r = true /\ base = js "/html/body"
        | Some id => base = ReturnDetector.idPath id
        end
  end.

(** The step [/tag[k]] of the node at [r] among the children of its
    parent. *)
Definition xpathStep (toLowerCase : jsstring -> jsstring) (doc : Document) (r : ref)
    : jsstring :=
  match r, nodeAt doc r with
  | position :: parentNode, Some element =>
      js "/" ++ toLowerCase (tagName element) ++ js "["
      ++ numberToString
           (Z.of_nat (precedingSameTag (childNodesAt doc parentNode) position element) + 1)
      ++ js "]"
  | _, _ => []
  end.




(* ================================================================== *)
(** * Properties *)
(* ================================================================== *)

(** ** Strings and positions *)

Lemma str_eqb_eq (a b : jsstring) : str_eqb a b = true <-> a = b.
Proof.
  revert b; induction a as [|x a IH]; intros [|y b]; simpl; split; intros H;
    try discriminate; try reflexivity.
  - apply andb_true_iff in H as [Hx Hab].
    apply N.eqb_eq in Hx. apply IH in Hab. congruence.
  - injection H as -> ->. rewrite N.eqb_refl. apply IH. reflexivity.
Qed.

Lemma str_eqb_refl (a : jsstring) : str_eqb a a = true.
Proof. apply str_eqb_eq. reflexivity. Qed.

Lemma str_eqb_neq (a b : jsstring) : str_eqb a b = false <-> a <> b.
Proof.
  split.
  - intros H E. apply str_eqb_eq in E. congruence.
  - intros H. destruct (str_eqb a b) eqn:E; [|reflexivity].
    apply str_eqb_eq in E. contradiction.
Qed.

Lemma ref_eqb_eq (a b : ref) : ref_eqb a b = true <-> a = b.
Proof.
  revert b; induction a as [|x a IH]; intros [|y b]; simpl; split; intros H;
    try discriminate; try reflexivity.
  - apply andb_true_iff in H as [Hx Hab].
    apply Nat.eqb_eq in Hx. apply IH in Hab. congruence.
  - injection H as -> ->. rewrite Nat.eqb_refl. apply IH. reflexivity.
Qed.

Lemma orElse_some_nonempty (s d : jsstring) : s <> [] -> orElse (Some s) d = s.
Proof. destruct s; [congruence | reflexivity]. Qed.

Lemma orElse_same (s : jsstring) : orElse (Some s) [] = s.
Proof. destruct s; reflexivity. Qed.

(** ** Regular expressions: the matcher decides the language *)

Module RegexFacts.
Import Regex.

Lemma Matches_never_inv (s : jsstring) : Matches Never s -> False.
Proof. intros H. inversion H. Qed.

Lemma Matches_eps_inv (s : jsstring) : Matches Eps s -> s = [].
Proof. intros H. inversion H. reflexivity. Qed.

Lemma Matches_class_inv (p : N -> bool) (s : jsstring) :
  Matches (Class p) s -> exists c, s = [c] /\ p c = true.
Proof. intros H. inversion H; subst. eauto. Qed.

Lemma Matches_seq_inv (r1 r2 : regex) (s : jsstring) :
  Matches (Seq r1 r2) s ->
  exists s1 s2, s = s1 ++ s2 /\ Matches r1 s1 /\ Matches r2 s2.
Proof. intros H. inversion H; subst. eauto. Qed.

Lemma Matches_alt_inv (r1 r2 : regex) (s : jsstring) :
  Matches (Alt r1 r2) s -> Matches r1 s \/ Matches r2 s.
Proof. intros H. inversion H; subst; auto. Qed.

Lemma Matches_cons (r1 r2 : regex) (c : N) (s1 s2 : jsstring) :
  Matches r1 (c :: s1) -> Matches r2 s2 -> Matches (Seq r1 r2) (c :: s1 ++ s2).
Proof. intros H1 H2. change (c :: s1 ++ s2) with ((c :: s1) ++ s2). constructor; assumption. Qed.

Lemma nullable_Matches (r : regex) : nullable r = true <-> Matches r [].
Proof.
  induction r; simpl; split; intros H.
  - discriminate.
  - inversion H.
  - constructor.
  - reflexivity.
  - discriminate.
  - inversion H.
  - apply andb_true_iff in H as [H1 H2].
    change (@nil N) with (@nil N ++ []).
    constructor; [apply IHr1 | apply IHr2]; assumption.
  - apply Matches_seq_inv in H as (s1 & s2 & E & H1 & H2).
    symmetry in E. apply app_eq_nil in E as [-> ->].
    apply andb_true_iff. split; [apply IHr1 | apply IHr2]; assumption.
  - apply orb_true_iff in H as [H|H].
    + apply MAltL, IHr1. assumption.
    + apply MAltR, IHr2. assumption.
  - apply orb_true_iff. apply Matches_alt_inv in H as [H|H].
    + left. apply IHr1. assumption.
    + right. apply IHr2. assumption.
  - constructor.
  - reflexivity.
Qed.

Lemma Matches_star_cons (r : regex) (c : N) (s : jsstring) :
  Matches (Star r) (c :: s) ->
  exists s1 s2, s = s1 ++ s2 /\ Matches r (c :: s1) /\ Matches (Star r) s2.
Proof.
  intros H. remember (Star r) as sr eqn:Er. remember (c :: s) as cs eqn:Es.
  revert c s Es. induction H; intros c0 s0 Es; try discriminate.
  injection Er as ->.
  destruct s1 as [|x s1].
  - simpl in Es. apply IHMatches2; [reflexivity | assumption].
  - simpl in Es. injection Es as -> <-.
    exists s1, s2. repeat split; assumption.
Qed.

Lemma deriv_Matches (r : regex) : forall c s, Matches (deriv c r) s <-> Matches r (c :: s).
Proof.
  induction r; intros c s; simpl.
  - split; intros H; inversion H.
  - split; intros H; inversion H.
  - destruct (p c) eqn:E; split; intros H.
    + apply Matches_eps_inv in H as ->. constructor. assumption.
    + apply Matches_class_inv in H as (x & Ex & Hp). injection Ex as -> ->. constructor.
    + inversion H.
    + apply Matches_class_inv in H as (x & Ex & Hp). injection Ex as -> ->. congruence.
  - destruct (nullable r1) eqn:En.
    + split; intros H.
      * apply Matches_alt_inv in H as [H|H].
        -- apply Matches_seq_inv in H as (s1 & s2 & -> & H1 & H2).
           apply IHr1 in H1. apply Matches_cons; assumption.
        -- apply IHr2 in H. apply nullable_Matches in En.
           change (c :: s) with ([] ++ c :: s). constructor; assumption.
      * apply Matches_seq_inv in H as (s1 & s2 & E & H1 & H2).
        destruct s1 as [|x s1].
        -- simpl in E; subst. apply MAltR, IHr2. assumption.
        -- simpl in E. injection E as <- ->.
           apply MAltL. constructor; [apply IHr1|]; assumption.
    + split; intros H.
      * apply Matches_seq_inv in H as (s1 & s2 & -> & H1 & H2).
        apply IHr1 in H1. apply Matches_cons; assumption.
      * apply Matches_seq_inv in H as (s1 & s2 & E & H1 & H2).
        destruct s1 as [|x s1].
        -- apply nullable_Matches in H1. congruence.
        -- simpl in E. injection E as <- ->.
           constructor; [apply IHr1|]; assumption.
  - split; intros H; apply Matches_alt_inv in H as [H|H].
    + apply MAltL, IHr1; assumption.
    + apply MAltR, IHr2; assumption.
    + apply MAltL, IHr1; assumption.
    + apply MAltR, IHr2; assumption.
  - split; intros H.
    + apply Matches_seq_inv in H as (s1 & s2 & -> & H1 & H2).
      apply IHr in H1. change (c :: s1 ++ s2) with ((c :: s1) ++ s2).
      apply MStarCons; assumption.
    + apply Matches_star_cons in H as (s1 & s2 & -> & H1 & H2).
      constructor; [apply IHr|]; assumption.
Qed.

Lemma matches_Matches (s : jsstring) : forall r, matches r s = true <-> Matches r s.
Proof.
  induction s as [|c s IH]; intros r; simpl.
  - apply nullable_Matches.
  - rewrite IH. apply deriv_Matches.
Qed.

Lemma Matches_any_star (s : jsstring) : Matches (Star AnyUnit) s.
Proof.
  induction s as [|c s IH]; [constructor|].
  change (c :: s) with ([c] ++ s). constructor; [constructor; reflexivity | assumption].
Qed.

(** An unanchored test succeeds exactly when some substring matches. *)
Lemma testAnywhere_iff (r : regex) (s : jsstring) :
  testAnywhere r s = true <->
  exists a m b, s = a ++ m ++ b /\ Matches r m.
Proof.
  unfold testAnywhere. rewrite matches_Matches. split.
  - intros H.
    apply Matches_seq_inv in H as (a & s' & -> & _ & H).
    apply Matches_seq_inv in H as (m & b & -> & H & _).
    exists a, m, b. split; [reflexivity | assumption].
  - intros (a & m & b & -> & H).
    constructor; [apply Matches_any_star|].
    constructor; [assumption | apply Matches_any_star].
Qed.

Lemma Matches_class_star (p : N -> bool) (s : jsstring) :
  Matches (Star (Class p)) s <-> forallb p s = true.
Proof.
  split.
  - intros H. remember (Star (Class p)) as sr eqn:E.
    induction H; try discriminate; [reflexivity|].
    injection E as ->. apply Matches_class_inv in H as (c & -> & Hc). simpl.
    rewrite Hc. apply IHMatches2. reflexivity.
  - induction s as [|c s IH]; simpl; intros H; [constructor|].
    apply andb_true_iff in H as [Hc Hs].
    change (c :: s) with ([c] ++ s). constructor; [constructor; assumption | auto].
Qed.

Lemma Matches_class_plus (p : N -> bool) (s : jsstring) :
  Matches (Plus (Class p)) s <-> s <> [] /\ forallb p s = true.
Proof.
  unfold Plus. split.
  - intros H. apply Matches_seq_inv in H as (s1 & s2 & -> & H1 & H2).
    apply Matches_class_inv in H1 as (c & -> & Hc).
    apply Matches_class_star in H2. simpl. rewrite Hc, H2.
    split; [discriminate | reflexivity].
  - intros [Hne H]. destruct s as [|c s]; [congruence|]. simpl in H.
    apply andb_true_iff in H as [Hc Hs].
    change (c :: s) with ([c] ++ s).
    constructor; [constructor; assumption | apply Matches_class_star; assumption].
Qed.

Lemma Matches_lit (c : N) (s : jsstring) : Matches (Lit c) s <-> s = [c].
Proof.
  unfold Lit. split.
  - intros H. apply Matches_class_inv in H as (x & -> & Hx).
    apply N.eqb_eq in Hx. congruence.
  - intros ->. constructor. apply N.eqb_refl.
Qed.

End RegexFacts.

(** ** The patterns of the scripts *)

Module PatternFacts.
Import Regex RegexFacts Patterns.

Lemma currency_cases (c : N) :
  isCurrencySymbol c = true -> c = Char.euro \/ c = Char.dollar \/ c = Char.pound.
Proof.
  unfold isCurrencySymbol. intros H.
  apply orb_true_iff in H as [H|H]; [apply orb_true_iff in H as [H|H]|];
    apply N.eqb_eq in H; auto.
Qed.

Lemma currency_not_space (c : N) : isCurrencySymbol c = true -> isWhiteSpace c = false.
Proof. intros H. destruct (currency_cases c H) as [->|[->| ->]]; reflexivity. Qed.

Lemma currency_not_amount (c : N) : isCurrencySymbol c = true -> isAmountChar c = false.
Proof. intros H. destruct (currency_cases c H) as [->|[->| ->]]; reflexivity. Qed.

Lemma amount_cases (c : N) :
  isAmountChar c = true -> (48 <= c <= 57)%N \/ c = Char.comma \/ c = Char.period.
Proof.
  unfold isAmountChar, isDigit. intros H.
  apply orb_true_iff in H as [H|H]; [apply orb_true_iff in H as [H|H]|].
  - apply andb_true_iff in H as [H1 H2]. apply N.leb_le in H1, H2. left. lia.
  - apply N.eqb_eq in H. auto.
  - apply N.eqb_eq in H. auto.
Qed.

Lemma amount_not_space (c : N) : isAmountChar c = true -> isWhiteSpace c = false.
Proof.
  intros H. apply amount_cases in H as [H|[->| ->]]; [|reflexivity|reflexivity].
  unfold isWhiteSpace.
  repeat (apply orb_false_iff; split);
    try (apply N.eqb_neq; lia);
    apply andb_false_iff; ((left; apply N.leb_gt; lia) || (right; apply N.leb_gt; lia)).
Qed.

Lemma amount_not_currency (c : N) : isAmountChar c = true -> isCurrencySymbol c = false.
Proof.
  intros H. destruct (isCurrencySymbol c) eqn:E; [|reflexivity].
  apply currency_not_amount in E. congruence.
Qed.

Lemma dropWhile_split (p : N -> bool) (s : jsstring) :
  exists w, s = w ++ dropWhile p s /\ forallb p w = true.
Proof.
  induction s as [|c s (w & E & Hw)]; simpl.
  - exists []. split; reflexivity.
  - destruct (p c) eqn:Hc.
    + exists (c :: w). simpl. rewrite Hc, Hw. split; [congruence | reflexivity].
    + exists []. split; reflexivity.
Qed.

Lemma dropWhile_app (p : N -> bool) (w : jsstring) (c : N) (s : jsstring) :
  forallb p w = true -> p c = false -> dropWhile p (w ++ c :: s) = c :: s.
Proof.
  induction w as [|x w IH]; simpl; intros Hw Hc.
  - rewrite Hc. reflexivity.
  - apply andb_true_iff in Hw as [Hx Hw]. rewrite Hx. auto.
Qed.

(** Whatever way a text splits into symbol, white space and amount, the
    capture groups are that symbol and that amount. *)
Lemma matchCombinedAmount_complete (text symbol digits : jsstring) :
  splitsAs text symbol digits -> matchCombinedAmount text = Some (symbol, digits).
Proof.
  intros (space & -> & Hsym & Hsp & Hne & Hd).
  destruct digits as [|d digits]; [congruence|]. clear Hne.
  assert (Hd0 : isAmountChar d = true) by (simpl in Hd; apply andb_true_iff in Hd; tauto).
  assert (Hrest : dropWhile isWhiteSpace (space ++ d :: digits) = d :: digits)
    by (apply dropWhile_app; [assumption | apply amount_not_space; assumption]).
  destruct Hsym as [->|(c & -> & Hc)].
  - destruct space as [|x space].
    + simpl app in *. unfold matchCombinedAmount.
      rewrite (amount_not_currency _ Hd0), Hrest, Hd. reflexivity.
    + simpl app in *.
      assert (Hx : isWhiteSpace x = true) by (simpl in Hsp; apply andb_true_iff in Hsp; tauto).
      unfold matchCombinedAmount.
      destruct (isCurrencySymbol x) eqn:E.
      * apply currency_not_space in E. congruence.
      * rewrite Hrest, Hd. reflexivity.
  - simpl app. unfold matchCombinedAmount. rewrite Hc, Hrest, Hd. reflexivity.
Qed.

Lemma matchCombinedAmount_sound (text symbol digits : jsstring) :
  matchCombinedAmount text = Some (symbol, digits) -> splitsAs text symbol digits.
Proof.
  unfold matchCombinedAmount, splitsAs. intros H.
  destruct text as [|c rest].
  - simpl in H. discriminate.
  - destruct (isCurrencySymbol c) eqn:Hc.
    + destruct (dropWhile_split isWhiteSpace rest) as (w & E & Hw).
      destruct (dropWhile isWhiteSpace rest) as [|d ds] eqn:Ed; [discriminate|].
      destruct (forallb isAmountChar (d :: ds)) eqn:Hd; [|discriminate].
      injection H as <- <-. exists w. repeat split.
      * simpl. congruence.
      * right. eauto.
      * assumption.
      * discriminate.
      * assumption.
    + destruct (dropWhile_split isWhiteSpace (c :: rest)) as (w & E & Hw).
      destruct (dropWhile isWhiteSpace (c :: rest)) as [|d ds] eqn:Ed; [discriminate|].
      destruct (forallb isAmountChar (d :: ds)) eqn:Hd; [|discriminate].
      injection H as <- <-. exists w. repeat split.
      * simpl. congruence.
      * left. reflexivity.
      * assumption.
      * discriminate.
      * assumption.
Qed.

Lemma Matches_combinedAmount (text : jsstring) :
  Matches combinedAmount text <-> exists symbol digits, splitsAs text symbol digits.
Proof.
  unfold combinedAmount, Opt. split.
  - intros H.
    apply Matches_seq_inv in H as (g1 & rest & -> & H1 & H).
    apply Matches_seq_inv in H as (w & g2 & -> & Hw & H2).
    apply Matches_class_star in Hw. apply Matches_class_plus in H2 as [Hne H2].
    exists g1, g2, w. repeat split; try assumption.
    apply Matches_alt_inv in H1 as [H1|H1].
    + apply Matches_class_inv in H1 as (c & -> & Hc). right. eauto.
    + apply Matches_eps_inv in H1. left. assumption.
  - intros (g1 & g2 & w & -> & Hsym & Hw & Hne & H2).
    constructor.
    + destruct Hsym as [->|(c & -> & Hc)].
      * apply MAltR. constructor.
      * apply MAltL. constructor. assumption.
    + constructor.
      * apply Matches_class_star. assumption.
      * apply Matches_class_plus. split; assumption.
Qed.

(** [test] and [match] use the same pattern: when the test of
    [amountParagraph] succeeds, [match] is not [null], and its groups
    are the only way of splitting the text. *)
Lemma combinedAmount_test_match (text : jsstring) :
  testWhole combinedAmount text = true <->
  exists symbol digits, matchCombinedAmount text = Some (symbol, digits).
Proof.
  unfold testWhole. rewrite matches_Matches, Matches_combinedAmount.
  split; intros (g1 & g2 & H); exists g1, g2.
  - apply matchCombinedAmount_complete. assumption.
  - apply matchCombinedAmount_sound. assumption.
Qed.

(** [/[0-9,.]+/.test(s)] only asks for one digit, comma or period,
    anywhere in [s]. *)
Lemma amountChars_test (s : jsstring) :
  testAnywhere amountChars s = true <-> existsb isAmountChar s = true.
Proof.
  rewrite testAnywhere_iff. unfold amountChars. split.
  - intros (a & m & b & -> & H). apply Matches_class_plus in H as [Hne H].
    destruct m as [|c m]; [congruence|]. simpl in H.
    apply andb_true_iff in H as [Hc _].
    apply existsb_exists. exists c. split; [|assumption].
    apply in_or_app. right. left. reflexivity.
  - intros H. apply existsb_exists in H as (c & Hin & Hc).
    apply in_split in Hin as (a & b & ->).
    exists a, [c], b. split; [reflexivity|].
    apply Matches_class_plus. simpl. rewrite Hc. split; [discriminate | reflexivity].
Qed.

(** The pattern of line 106 of return-detector.js only matches texts
    that hold a backslash. *)
Lemma escapedDecimalNumber_backslash (s : jsstring) :
  testAnywhere escapedDecimalNumber s = true -> In Char.backslash s.
Proof.
  rewrite testAnywhere_iff. intros (a & m & b & -> & H).
  apply in_or_app. right. apply in_or_app. left.
  unfold escapedDecimalNumber in H.
  apply Matches_alt_inv in H as [H|H];
    apply Matches_seq_inv in H as (s1 & s2 & -> & H1 & _);
    apply Matches_lit in H1 as ->; left; reflexivity.
Qed.

(** The pattern of line 355 of script-demo.js matches digits around one
    period or comma. *)
Lemma decimalNumber_found (a b : jsstring) (d1 sep d2 : N) :
  isDigit d1 = true -> isDigit d2 = true ->
  sep = Char.period \/ sep = Char.comma ->
  testAnywhere decimalNumber (a ++ [d1; sep; d2] ++ b) = true.
Proof.
  intros H1 H2 Hsep. apply testAnywhere_iff.
  exists a, [d1; sep; d2], b. split; [reflexivity|].
  assert (P1 : Matches (Plus (Class isDigit)) [d1])
    by (apply Matches_class_plus; simpl; rewrite H1; split; [discriminate | reflexivity]).
  assert (P2 : Matches (Plus (Class isDigit)) [d2])
    by (apply Matches_class_plus; simpl; rewrite H2; split; [discriminate | reflexivity]).
  unfold decimalNumber. destruct Hsep as [-> | ->]; [apply MAltL | apply MAltR];
    change [d1; ?x; d2] with ([d1] ++ [x] ++ [d2]);
    (constructor; [assumption | constructor; [apply Matches_lit; reflexivity | assumption]]).
Qed.

End PatternFacts.

(** ** The DOM: element objects handed out by queries *)

Module DomFacts.

Lemma Node_induction (P : Node -> Prop) :
  (forall d, P (TextNode d)) ->
  (forall d, P (CommentNode d)) ->
  (forall name attrs cs, Forall P cs -> P (Element name attrs cs)) ->
  forall n, P n.
Proof.
  intros HT HC HE. fix IH 1. intros [d|d|name attrs cs].
  - apply HT.
  - apply HC.
  - apply HE. induction cs as [|c cs IHcs]; constructor; [apply IH | apply IHcs].
Qed.

Lemma subtree_element (r : ref) (name : jsstring) (attrs : list (jsstring * jsstring))
    (cs : list Node) :
  subtree r (Element name attrs cs) =
  mkElem r (Element name attrs cs) :: elementsBelow r 0 cs.
Proof.
  simpl. f_equal. generalize 0%nat.
  induction cs as [|c cs IH]; intros i; simpl; [reflexivity|].
  rewrite IH. reflexivity.
Qed.

Lemma childNodesAt_cons (doc : Document) (i : nat) (r : ref) (n : Node) :
  nodeAt doc (i :: r) = Some n -> childNodesAt doc (i :: r) = childNodes n.
Proof. simpl. intros ->. reflexivity. Qed.

(** Every element object found in a subtree of the document is the
    element of the document at its position. *)
Lemma subtree_attached (doc : Document) (n : Node) :
  forall r e, r <> [] -> nodeAt doc r = Some n -> In e (subtree r n) -> attached doc e.
Proof.
  induction n as [d|d|name attrs cs IH] using Node_induction; intros r e Hr Hn Hin.
  - destruct Hin.
  - destruct Hin.
  - rewrite subtree_element in Hin. destruct Hin as [<-|Hin].
    + split; [assumption | reflexivity].
    + destruct r as [|i0 r0]; [congruence|].
      pose proof (childNodesAt_cons doc i0 r0 _ Hn) as Hcs. simpl childNodes in Hcs.
      assert (G : forall k rest, (forall j c, nth_error rest j = Some c ->
                     nth_error cs (k + j) = Some c) ->
                   Forall (fun c => forall r e, r <> [] -> nodeAt doc r = Some c ->
                                      In e (subtree r c) -> attached doc e) rest ->
                   In e (elementsBelow (i0 :: r0) k rest) -> attached doc e).
      { intros k rest. revert k.
        induction rest as [|c rest IHrest]; intros k Hnth Hall Hin'; [destruct Hin'|].
        simpl in Hin'. apply in_app_or in Hin' as [Hin'|Hin'].
        - pose proof (Forall_inv Hall) as Hc. simpl in Hc.
          apply (Hc (k :: i0 :: r0) e); [discriminate| |assumption].
          change (nodeAt doc (k :: i0 :: r0))
            with (nth_error (childNodesAt doc (i0 :: r0)) k).
          rewrite Hcs. specialize (Hnth 0%nat c eq_refl).
          rewrite Nat.add_0_r in Hnth. assumption.
        - apply (IHrest (S k)); [|apply (Forall_inv_tail Hall)|assumption].
          intros j c' Hj. specialize (Hnth (S j) c' Hj).
          rewrite Nat.add_succ_r in Hnth. assumption. }
      apply (G 0%nat cs); [intros j c Hj; assumption | assumption | assumption].
Qed.

Lemma elementsBelow_attached (doc : Document) (r : ref) (e : Elem) :
  In e (elementsBelow r 0 (childNodesAt doc r)) -> attached doc e.
Proof.
  assert (G : forall k rest, (forall j c, nth_error rest j = Some c ->
                 nth_error (childNodesAt doc r) (k + j) = Some c) ->
               In e (elementsBelow r k rest) -> attached doc e).
  { intros k rest. revert k.
    induction rest as [|c rest IHrest]; intros k Hnth Hin; [destruct Hin|].
    simpl in Hin. apply in_app_or in Hin as [Hin|Hin].
    - apply (subtree_attached doc c (k :: r) e); [discriminate| |assumption].
      simpl. specialize (Hnth 0%nat c eq_refl).
      rewrite Nat.add_0_r in Hnth. assumption.
    - apply (IHrest (S k)); [|assumption].
      intros j c' Hj. specialize (Hnth (S j) c' Hj).
      rewrite Nat.add_succ_r in Hnth. assumption. }
  apply (G 0%nat). intros j c Hj. assumption.
Qed.

Lemma descendantElements_attached (doc : Document) (root : Root) (e : Elem) :
  attachedRoot doc root -> In e (descendantElements doc root) -> attached doc e.
Proof.
  destruct root as [|c]; simpl; intros Hroot Hin.
  - apply (elementsBelow_attached doc []). assumption.
  - destruct Hroot as [Hc _]. destruct c as [[|i r] n]; simpl in *; [discriminate|].
    apply (elementsBelow_attached doc (i :: r)).
    rewrite (childNodesAt_cons doc i r _ Hc). assumption.
Qed.

Lemma querySelectorAll_subset (doc : Document) (sel : Selector.selector) (root : Root)
    (e : Elem) :
  In e (DOMUtils.querySelectorAll doc sel root) -> In e (descendantElements doc root).
Proof.
  unfold DOMUtils.querySelectorAll, nativeQuerySelectorAll.
  destruct (Selector.valid sel); [|intros []].
  intros H. apply filter_In in H. tauto.
Qed.

Lemma querySelectorAll_attached (doc : Document) (sel : Selector.selector) (root : Root)
    (e : Elem) :
  attachedRoot doc root -> In e (DOMUtils.querySelectorAll doc sel root) -> attached doc e.
Proof.
  intros Hroot Hin. apply (descendantElements_attached doc root); [assumption|].
  apply (querySelectorAll_subset _ _ _ _ Hin).
Qed.

(** Two element objects of one document at the same position are the
    same object. *)
Lemma sameElem_attached (doc : Document) (a b : Elem) :
  attached doc a -> attached doc b -> sameElem a b = true -> a = b.
Proof.
  intros [Ha _] [Hb _] H. apply ref_eqb_eq in H.
  destruct a as [ra na], b as [rb nb]; simpl in *. subst rb.
  rewrite Ha in Hb. injection Hb as ->. reflexivity.
Qed.

Lemma sameElem_refl (a : Elem) : sameElem a a = true.
Proof. apply ref_eqb_eq. reflexivity. Qed.

End DomFacts.

(** ** Record extraction *)

Module FieldFacts.
Import DomFacts.

Lemma find_firstWhere (test : Elem -> bool) (l : list Elem) (p : Elem) :
  find test l = Some p <-> firstWhere test l p.
Proof.
  unfold firstWhere. split.
  - induction l as [|x l IH]; simpl; [discriminate|].
    destruct (test x) eqn:Ex.
    + intros [= ->]. exists [], l. repeat split; [assumption | intros ? []].
    + intros H. destruct (IH H) as (front & back & -> & Hp & Hfront).
      exists (x :: front), back. repeat split; [assumption|].
      intros y [<-|Hy]; auto.
  - intros (front & back & -> & Hp & Hfront).
    induction front as [|x front IH]; simpl.
    + rewrite Hp. reflexivity.
    + rewrite (Hfront x (or_introl eq_refl)). apply IH.
      intros y Hy. apply Hfront. right. assumption.
Qed.

Lemma find_none (test : Elem -> bool) (l : list Elem) :
  find test l = None <-> forall x, In x l -> test x = false.
Proof.
  split.
  - intros H x Hx. apply (find_none _ _ H x Hx).
  - induction l as [|x l IH]; simpl; intros H; [reflexivity|].
    rewrite (H x (or_introl eq_refl)). apply IH. intros y Hy. apply H. right. assumption.
Qed.

Lemma followsFirst_iff (paragraphs : list Elem) (symbol : jsstring) (next : Elem) :
  followsFirst paragraphs symbol next <->
  nextAfterFirst (Fields.hasText symbol) paragraphs = Some next.
Proof.
unfold followsFirst. split.
- intros (front & p & back & -> & Hp & Hfront).
  induction front as [|x front IH]; simpl.
  + rewrite Hp. reflexivity.
  + rewrite (Hfront x (or_introl eq_refl)). apply IH.
    intros y Hy. apply Hfront. right. assumption.
- induction paragraphs as [|x l IH]; simpl; [discriminate|].
  destruct (Fields.hasText symbol x) eqn:Ex.
  + destruct l as [|n back]; simpl; [discriminate|]. intros [= ->].
    exists [], x, back. split; [reflexivity|]. split; [assumption | intros ? []].
  + intros H. destruct (IH H) as (front & p & back & -> & Hp & Hfront).
    exists (x :: front), p, back. split; [reflexivity|]. split; [assumption|].
    intros y [<-|Hy]; auto.
Qed.

Lemma suppliesAmount_iff (paragraphs : list Elem) (symbol : jsstring) :
  suppliesAmount paragraphs symbol <->
  match nextAfterFirst (Fields.hasText symbol) paragraphs with
  | Some next => amountLike next = true
  | None => False
  end.
Proof.
unfold suppliesAmount. split.
- intros (next & FF & A). apply followsFirst_iff in FF. rewrite FF. assumption.
- destruct (nextAfterFirst _ _) as [next|] eqn:E; [|intros []].
  intros A. exists next. split; [apply followsFirst_iff|]; assumption.
Qed.

Lemma indexOfFrom_split (front back : list Elem) (p : Elem) (i : Z) :
  (forall x, In x front -> sameElem x p = false) ->
  Fields.indexOfFrom (front ++ p :: back) p i = (i + Z.of_nat (List.length front))%Z.
Proof.
  revert i. induction front as [|x front IH]; intros i H; simpl Fields.indexOfFrom.
  - rewrite sameElem_refl. simpl. lia.
  - simpl app. simpl Fields.indexOfFrom. rewrite (H x (or_introl eq_refl)).
    rewrite IH; [|intros y Hy; apply H; right; assumption].
    simpl List.length. lia.
Qed.

Lemma indexOfFrom_range (l : list Elem) (p : Elem) (i : Z) :
  (Fields.indexOfFrom l p i = -1 \/
   i <= Fields.indexOfFrom l p i < i + Z.of_nat (List.length l))%Z.
Proof.
  revert i. induction l as [|x l IH]; intros i; simpl; [left; reflexivity|].
  destruct (sameElem x p).
  - right. lia.
  - destruct (IH (i + 1)%Z) as [H|H]; [left; assumption | right; lia].
Qed.

(** The element read at [paragraphs[currencyIndex + 1]] exists whenever
    the guard before it holds. *)
Lemma guarded_next_exists (paragraphs : list Elem) (i : Z) :
  ((0 <=? i) && (i <? Z.of_nat (List.length paragraphs) - 1))%Z = true ->
  exists next, nth_error paragraphs (Z.to_nat (i + 1)) = Some next.
Proof.
  intros H. apply andb_true_iff in H as [H0 H1].
  apply Z.leb_le in H0. apply Z.ltb_lt in H1.
  destruct (nth_error paragraphs (Z.to_nat (i + 1))) as [next|] eqn:E; [eauto|].
  apply nth_error_None in E. lia.
Qed.

(** The loop over the currency symbols never throws. *)
Lemma standaloneCurrency_returns (symbols : list jsstring) (paragraphs : list Elem) :
  forall currency amount,
  exists currency' amount',
    Fields.standaloneCurrency symbols paragraphs currency amount =
    Returned (currency', amount').
Proof.
  induction symbols as [|symbol rest IH]; intros currency amount; simpl.
  - eauto.
  - destruct (find (Fields.hasText symbol) paragraphs) as [cp|]; [|apply IH].
    destruct ((0 <=? Fields.indexOf paragraphs cp) &&
              (Fields.indexOf paragraphs cp <? Z.of_nat (List.length paragraphs) - 1))%Z
      eqn:G; [|apply IH].
    destruct (guarded_next_exists _ _ G) as (next & ->). simpl.
    destruct (Regex.testAnywhere Patterns.amountChars (trim (textContent next)));
      [eauto | apply IH].
Qed.

Section Attached.
Variable doc : Document.
Variable paragraphs : list Elem.
Hypothesis paragraphs_attached : forall x, In x paragraphs -> attached doc x.

Lemma first_index (test : Elem -> bool) (front back : list Elem) (p : Elem) :
  paragraphs = front ++ p :: back ->
  test p = true -> (forall x, In x front -> test x = false) ->
  Fields.indexOf paragraphs p = Z.of_nat (List.length front).
Proof.
  intros E Hp Hfront. unfold Fields.indexOf. rewrite E.
  rewrite indexOfFrom_split; [lia|].
  intros x Hx. destruct (sameElem x p) eqn:S; [|reflexivity].
  assert (x = p).
  { apply (sameElem_attached doc); try assumption;
      apply paragraphs_attached; rewrite E; apply in_or_app;
      [left; assumption | right; left; reflexivity]. }
  subst x. rewrite (Hfront p Hx) in Hp. discriminate.
Qed.

(** One turn of the loop, when the first paragraph that reads
    [symbol] is followed by [next]. *)
Lemma turn_followed (symbol : jsstring) (rest : list jsstring) (next : Elem)
    (currency amount : jsstring) :
  followsFirst paragraphs symbol next ->
  Fields.standaloneCurrency (symbol :: rest) paragraphs currency amount =
  if amountLike next then Returned (symbol, trim (textContent next))
  else Fields.standaloneCurrency rest paragraphs symbol amount.
Proof.
  intros (front & p & back & E & Hp & Hfront). simpl.
  assert (F : find (Fields.hasText symbol) paragraphs = Some p)
    by (apply find_firstWhere; exists front, (next :: back); auto).
  rewrite F.
  rewrite (first_index (Fields.hasText symbol) front (next :: back) p E Hp Hfront).
  assert (L : List.length paragraphs = (List.length front + 2 + List.length back)%nat)
    by (rewrite E, length_app; simpl; lia).
  assert (G : ((0 <=? Z.of_nat (List.length front)) &&
               (Z.of_nat (List.length front) <? Z.of_nat (List.length paragraphs) - 1))%Z
              = true).
  { apply andb_true_iff. split; [apply Z.leb_le | apply Z.ltb_lt]; lia. }
  rewrite G.
  assert (Nx : nth_error paragraphs (Z.to_nat (Z.of_nat (List.length front) + 1))
               = Some next).
  { replace (Z.to_nat (Z.of_nat (List.length front) + 1)) with (S (List.length front)) by lia.
    rewrite E. rewrite nth_error_app2 by lia.
    replace (S (List.length front) - List.length front)%nat with 1%nat by lia.
    reflexivity. }
  rewrite Nx. reflexivity.
Qed.

(** One turn of the loop, when no paragraph follows the first one that
    reads [symbol], or when no paragraph reads it. *)
Lemma turn_not_followed (symbol : jsstring) (rest : list jsstring)
    (currency amount : jsstring) :
  (forall next, ~ followsFirst paragraphs symbol next) ->
  exists currency',
    Fields.standaloneCurrency (symbol :: rest) paragraphs currency amount =
    Fields.standaloneCurrency rest paragraphs currency' amount.
Proof.
  intros H. simpl.
  destruct (find (Fields.hasText symbol) paragraphs) as [p|] eqn:F; [|eauto].
  apply find_firstWhere in F as (front & back & E & Hp & Hfront).
  destruct back as [|next back].
  - rewrite (first_index (Fields.hasText symbol) front [] p E Hp Hfront).
    assert (L : List.length paragraphs = (List.length front + 1)%nat)
      by (rewrite E, length_app; simpl; lia).
    assert (G : ((0 <=? Z.of_nat (List.length front)) &&
                 (Z.of_nat (List.length front) <? Z.of_nat (List.length paragraphs) - 1))%Z
                = false).
    { apply andb_false_iff. right. apply Z.ltb_ge. lia. }
    rewrite G. eauto.
  - exfalso. apply (H next). exists front, p, back. auto.
Qed.

Lemma followsFirst_cases (symbol : jsstring) :
  (exists next, followsFirst paragraphs symbol next) \/
  (forall next, ~ followsFirst paragraphs symbol next).
Proof.
  destruct (find (Fields.hasText symbol) paragraphs) as [p|] eqn:F.
  - apply find_firstWhere in F as (front & back & E & Hp & Hfront).
    destruct back as [|next back].
    + right. intros next (f' & p' & b' & E' & Hp' & Hf').
      assert (F1 : find (Fields.hasText symbol) paragraphs = Some p)
        by (apply find_firstWhere; exists front, []; auto).
      assert (F2 : find (Fields.hasText symbol) paragraphs = Some p')
        by (apply find_firstWhere; exists f', (next :: b'); auto).
      rewrite F1 in F2. injection F2 as <-.
      pose proof (first_index (Fields.hasText symbol) front [] p E Hp Hfront) as I1.
      pose proof (first_index (Fields.hasText symbol) f' (next :: b') p E' Hp' Hf') as I2.
      assert (L : List.length (front ++ [p]) = List.length (f' ++ p :: next :: b'))
        by congruence.
      rewrite !length_app in L. simpl in L. lia.
    + left. exists next, front, p, back. auto.
  - right. intros next (f' & p' & b' & E' & Hp' & Hf').
    assert (F2 : find (Fields.hasText symbol) paragraphs = Some p')
      by (apply find_firstWhere; exists f', (next :: b'); auto).
    congruence.
Qed.

(** When no symbol supplies an amount the loop leaves [amount] alone. *)
Lemma standaloneCurrency_no_supply (symbols : list jsstring) :
  (forall s, In s symbols -> ~ suppliesAmount paragraphs s) ->
  forall currency amount,
  exists currency',
    Fields.standaloneCurrency symbols paragraphs currency amount =
    Returned (currency', amount).
Proof.
  induction symbols as [|s rest IH]; intros Hno currency amount.
  - simpl. eauto.
  - assert (Hrest : forall s', In s' rest -> ~ suppliesAmount paragraphs s')
      by (intros s' Hs'; apply Hno; right; assumption).
    destruct (followsFirst_cases s) as [(next & FF)|None].
    + rewrite (turn_followed s rest next currency amount FF).
      destruct (amountLike next) eqn:A; [|apply IH; assumption].
      exfalso. apply (Hno s (or_introl eq_refl)). exists next. auto.
    + destruct (turn_not_followed s rest currency amount None) as (c' & ->).
      apply IH. assumption.
Qed.

(** The first listed symbol that supplies an amount wins. *)
Lemma standaloneCurrency_supply (before after : list jsstring) (symbol : jsstring)
    (next : Elem) :
  (forall s, In s before -> ~ suppliesAmount paragraphs s) ->
  followsFirst paragraphs symbol next -> amountLike next = true ->
  forall currency amount,
    Fields.standaloneCurrency (before ++ symbol :: after) paragraphs currency amount =
    Returned (symbol, trim (textContent next)).
Proof.
  induction before as [|s before IH]; intros Hno FF A currency amount.
  - simpl app. rewrite (turn_followed symbol after next currency amount FF), A.
    reflexivity.
  - assert (Hrest : forall s', In s' before -> ~ suppliesAmount paragraphs s')
      by (intros s' Hs'; apply Hno; right; assumption).
    simpl app.
    destruct (followsFirst_cases s) as [(nx & FF')|None].
    + rewrite (turn_followed s (before ++ symbol :: after) nx currency amount FF').
      destruct (amountLike nx) eqn:A'; [|apply IH; assumption].
      exfalso. apply (Hno s (or_introl eq_refl)). exists nx. auto.
    + destruct (turn_not_followed s (before ++ symbol :: after) currency amount None)
        as (c' & ->).
      apply IH; assumption.
Qed.

End Attached.

End FieldFacts.

Module RecordFacts.
Import DomFacts FieldFacts.

Lemma combinedLike_amountLike (p : Elem) : combinedLike p = true -> amountLike p = true.
Proof.
unfold combinedLike, amountLike, Regex.testWhole. intros H.
apply RegexFacts.matches_Matches in H.
apply PatternFacts.Matches_combinedAmount in H
  as (symbol & digits & space & E & _ & _ & Hne & Hd).
apply PatternFacts.amountChars_test. rewrite E.
destruct digits as [|d digits]; [congruence|].
apply existsb_exists. exists d. split.
- apply in_or_app. right. apply in_or_app. right. left. reflexivity.
- simpl in Hd. apply andb_true_iff in Hd. tauto.
Qed.

Lemma amountLike_nonempty (p : Elem) : amountLike p = true -> trim (textContent p) <> [].
Proof. unfold amountLike. intros H E. rewrite E in H. discriminate. Qed.

(** No paragraph reads a currency symbol: the loop changes nothing. *)
Lemma standaloneCurrency_no_symbol (symbols : list jsstring) (paragraphs : list Elem) :
  (forall s p, In s symbols -> In p paragraphs -> Fields.hasText s p = false) ->
  forall currency amount,
    Fields.standaloneCurrency symbols paragraphs currency amount =
    Returned (currency, amount).
Proof.
induction symbols as [|s rest IH]; intros H currency amount; simpl; [reflexivity|].
assert (F : find (Fields.hasText s) paragraphs = None).
{ apply FieldFacts.find_none. intros p Hp. apply H; [left; reflexivity | assumption]. }
rewrite F. apply IH. intros s' p Hs' Hp. apply H; [right|]; assumption.
Qed.

Lemma combinedFormat_kept (paragraphs : list Elem) (currency amount : jsstring) :
  amount <> [] -> Fields.combinedFormat paragraphs currency amount = (currency, amount).
Proof. destruct amount; [congruence | reflexivity]. Qed.

Lemma combinedFormat_none (paragraphs : list Elem) (currency : jsstring) :
  (forall p, In p paragraphs -> combinedLike p = false) ->
  Fields.combinedFormat paragraphs currency [] = (currency, []).
Proof.
intros H. unfold Fields.combinedFormat.
assert (F : find (fun p => Regex.testWhole Patterns.combinedAmount (trim (textContent p)))
                 paragraphs = None) by (apply FieldFacts.find_none; exact H).
rewrite F. reflexivity.
Qed.

Lemma combinedFormat_split (paragraphs : list Elem) (currency : jsstring) (p : Elem)
    (symbol digits : jsstring) :
  firstWhere combinedLike paragraphs p ->
  splitsAs (trim (textContent p)) symbol digits ->
  Fields.combinedFormat paragraphs currency [] = (symbol, digits).
Proof.
intros Hfirst Hsplit. unfold Fields.combinedFormat.
apply find_firstWhere in Hfirst. unfold combinedLike in Hfirst. rewrite Hfirst.
rewrite (PatternFacts.matchCombinedAmount_complete _ _ _ Hsplit).
destruct Hsplit as (_ & _ & _ & _ & Hne & _).
rewrite orElse_same, (orElse_some_nonempty _ _ Hne). reflexivity.
Qed.

Lemma no_currency_no_symbol (p : Elem) (s : jsstring) :
  startsWithCurrency p = false ->
  In s [[Char.euro]; [Char.dollar]; [Char.pound]] ->
  Fields.hasText s p = false.
Proof.
unfold startsWithCurrency, Fields.hasText. intros H Hs.
destruct (str_eqb (trim (textContent p)) s) eqn:E; [|reflexivity].
apply str_eqb_eq in E. rewrite E in H.
destruct Hs as [<-|[<-|[<-|[]]]]; discriminate H.
Qed.

(** Without a currency symbol at the head of any paragraph the combined
    format leaves the currency empty. *)
Lemma combinedFormat_no_currency (paragraphs : list Elem) :
  (forall p, In p paragraphs -> startsWithCurrency p = false) ->
  fst (Fields.combinedFormat paragraphs [] []) = [].
Proof.
intros H. unfold Fields.combinedFormat.
destruct (find _ paragraphs) as [p|] eqn:F; [|reflexivity].
apply find_some in F as [Hin _]. specialize (H p Hin).
unfold startsWithCurrency in H. unfold Patterns.matchCombinedAmount.
destruct (trim (textContent p)) as [|c rest]; [reflexivity|].
rewrite H.
destruct (dropWhile isWhiteSpace (c :: rest)) as [|d digits]; [reflexivity|].
destruct (forallb Patterns.isAmountChar (d :: digits)); reflexivity.
Qed.

Lemma labelStatus_missing (doc : Document) (paragraphs : list Elem) (label : jsstring) :
  statusSourceMissing doc paragraphs label -> Fields.labelStatus doc paragraphs label = [].
Proof.
unfold statusSourceMissing, Fields.labelStatus.
destruct (find (Fields.hasText label) paragraphs) as [lp|]; [|reflexivity].
destruct (parentElement doc lp) as [parent|]; [|reflexivity].
intros H. unfold DOMUtils.querySelector, nativeQuerySelector. simpl Selector.valid.
cbv iota.
destruct (find _ _) as [e|] eqn:F; [|reflexivity].
apply find_some in F as [Hin Hm]. rewrite (H e Hin) in Hm. discriminate.
Qed.

(** The return detection of return-detector.js never throws, says
    "returned" for the status "Invoiced" only, and gives the defaults when
    the label, its parent or the [small] is missing. *)
Lemma returnDetection_spec (doc : Document) (paragraphs : list Elem) :
  exists returned status,
    ReturnDetector.returnDetection doc paragraphs = Returned (returned, status) /\
    (returned = true <-> status = js "Invoiced") /\
    (statusSourceMissing doc paragraphs (js "Return") -> returned = false /\ status = []).
Proof.
unfold ReturnDetector.returnDetection, statusSourceMissing.
assert (D : exists returned status,
          Returned (false, @nil N) = Returned (returned, status) /\
          (returned = true <-> status = js "Invoiced") /\
          (True -> returned = false /\ status = [])).
{ exists false, []. split; [reflexivity|]. split; [split; discriminate | auto]. }
destruct (find (Fields.hasText (js "Return")) paragraphs) as [rp|]; [|exact D].
destruct (parentElement doc rp) as [parent|]; [|exact D].
unfold nativeQuerySelector. simpl Selector.valid. cbv iota. cbn [bind].
destruct (find _ _) as [small|] eqn:F.
- assert (M : (forall e, In e (descendantElements doc (ElementRoot parent)) ->
                 Selector.matchesElement sel_small (e_node e) = false) -> False).
  { intros H. apply find_some in F as [Hin Hm].
    change (Selector.matchesElement sel_small (e_node small) = true) in Hm.
    rewrite (H small Hin) in Hm. discriminate. }
  destruct (str_eqb (trim (textContent small)) (js "Invoiced")) eqn:E.
  + exists true, (trim (textContent small)).
    split; [reflexivity|]. split; [|intros H; destruct (M H)].
    split; [intros _; apply str_eqb_eq; assumption | reflexivity].
  + exists false, (trim (textContent small)).
    split; [destruct (str_eqb _ (js "Pending invoice")); reflexivity|].
    split; [|intros H; destruct (M H)].
    split; [discriminate|]. intros H. apply str_eqb_eq in H. congruence.
- exists false, []. split; [reflexivity|]. split; [|auto].
  split; discriminate.
Qed.

Section XPath.
Variable toLowerCase : jsstring -> jsstring.
Variable doc : Document.

Lemma siblingScan_returns (element : Node) (position : nat) (parent : option jsstring)
    (siblings : list Node) :
  forall i ix, (i <= position)%nat -> nth_error siblings (position - i) <> None ->
  exists path,
    ReturnDetector.siblingScan toLowerCase siblings i ix position element (Returned parent)
    = Returned (Some path).
Proof.
induction siblings as [|sibling rest IH]; intros i ix Hle Hnth.
- destruct (position - i)%nat; simpl in Hnth; congruence.
- simpl. destruct (Nat.eqb i position) eqn:E.
  + simpl. eauto.
  + apply Nat.eqb_neq in E.
    assert (Hn : nth_error rest (position - S i) <> None).
    { replace (position - i)%nat with (S (position - S i)) in Hnth by lia. exact Hnth. }
    destruct (isElementNode sibling && str_eqb (tagName sibling) (tagName element));
      apply IH; (lia || assumption).
Qed.

(** [getXPath] returns a string for every node of the document. *)
Lemma getXPath_returns (r : ref) :
  r = [] \/ nodeAt doc r <> None ->
  exists path, ReturnDetector.getXPath toLowerCase doc r = Returned (Some path).
Proof.
induction r as [|position parentNode IH]; intros H.
- simpl. eauto.
- destruct H as [H|H]; [discriminate|].
  destruct (nodeAt doc (position :: parentNode)) as [element|] eqn:E; [|congruence].
  cbn [ReturnDetector.getXPath]. rewrite E. simpl deref. cbn [bind].
  destruct (ReturnDetector.elementId element) as [[|c id]|]; [|eauto|eauto].
  destruct (ReturnDetector.isBody doc (position :: parentNode)); [eauto|].
  assert (Hp : parentNode = [] \/ nodeAt doc parentNode <> None).
  { destruct parentNode as [|j g]; [left; reflexivity | right].
    simpl in E. simpl. destruct (nth_error (childNodesAt doc g) j); [discriminate|].
    destruct position; discriminate. }
  destruct (IH Hp) as (pp & ->).
  apply siblingScan_returns; [lia|].
  rewrite Nat.sub_0_r. simpl in E. rewrite E. discriminate.
Qed.

End XPath.

(** What [extractDepositInfo] of return-detector.js returns for a container
    of the document: it does not throw, and each field is the value of its
    block. *)
Lemma ReturnDetector_extract (toLowerCase : jsstring -> jsstring) (serialize : Elem -> jsstring)
    (doc : Document) (container : Elem) (index : Z) :
  attached doc container ->
  exists d currency0 amount0,
    ReturnDetector.extractDepositInfo toLowerCase serialize doc container index = Returned d /\
    Fields.standaloneCurrency (CURRENCY_SYMBOLS ReturnDetector.CONFIG)
      (paragraphsOf doc container) [] [] = Returned (currency0, amount0) /\
    (ReturnDetector.currency d, ReturnDetector.amount d) =
      Fields.combinedFormat (paragraphsOf doc container) currency0 amount0 /\
    ReturnDetector.depositStatus d =
      Fields.labelStatus doc (paragraphsOf doc container) (js "Deposit") /\
    ReturnDetector.returnDetection doc (paragraphsOf doc container) =
      Returned (ReturnDetector.hasBeenReturned d, ReturnDetector.returnStatus d) /\
    ReturnDetector.index d = index.
Proof.
intros [Hat _]. unfold ReturnDetector.extractDepositInfo. fold (paragraphsOf doc container).
destruct (standaloneCurrency_returns (CURRENCY_SYMBOLS ReturnDetector.CONFIG)
            (paragraphsOf doc container) [] []) as (c0 & a0 & S0).
destruct (returnDetection_spec doc (paragraphsOf doc container)) as (b & s & R0 & _).
destruct (getXPath_returns toLowerCase doc (e_ref container)) as (xp & X0).
{ right. rewrite Hat. discriminate. }
rewrite S0. cbn [bind fst snd].
destruct (Fields.combinedFormat (paragraphsOf doc container) c0 a0) as [c a] eqn:CF.
rewrite R0. cbn [bind fst snd]. rewrite X0. cbn [bind].
eexists _, c0, a0. split; [reflexivity|]. simpl. auto.
Qed.

(** The same for script-demo.js. *)
Lemma ScriptDemo_extract (doc : Document) (container : Elem) (index : Z) :
  exists d currency0 amount0,
    ScriptDemo.extractDepositInfo doc container index = Returned d /\
    Fields.standaloneCurrency (CURRENCY_SYMBOLS ScriptDemo.CONFIG.DEPOSITS)
      (paragraphsOf doc container) [] [] = Returned (currency0, amount0) /\
    (ScriptDemo.currency d, ScriptDemo.amount d) =
      Fields.combinedFormat (paragraphsOf doc container) currency0 amount0 /\
    ScriptDemo.depositStatus d =
      Fields.labelStatus doc (paragraphsOf doc container) (js "Deposit") /\
    ScriptDemo.hasBeenReturned d =
      (existsb (Fields.hasText (js "Return")) (paragraphsOf doc container) ||
       DOMUtils.elementContainsText container (js "Return")) /\
    ScriptDemo.returnStatus d =
      (if ScriptDemo.hasBeenReturned d
       then Fields.labelStatus doc (paragraphsOf doc container) (js "Return") else []) /\
    ScriptDemo.index d = index.
Proof.
unfold ScriptDemo.extractDepositInfo. fold (paragraphsOf doc container).
destruct (standaloneCurrency_returns (CURRENCY_SYMBOLS ScriptDemo.CONFIG.DEPOSITS)
            (paragraphsOf doc container) [] []) as (c0 & a0 & S0).
rewrite S0. cbn [bind fst snd].
destruct (Fields.combinedFormat (paragraphsOf doc container) c0 a0) as [c a] eqn:CF.
eexists _, c0, a0. split; [reflexivity|]. simpl. auto 10.
Qed.

End RecordFacts.

(* ================================================================== *)
(** * The claims about record extraction *)
(* ================================================================== *)

Import DomFacts FieldFacts RecordFacts.

Lemma paragraphs_attached (doc : Document) (container : Elem) :
  attached doc container ->
  forall p, In p (paragraphsOf doc container) -> attached doc p.
Proof.
intros H p Hp. apply (querySelectorAll_attached doc sel_p (ElementRoot container)); assumption.
Qed.

(** In return-detector.js the flag follows the status: for every container
    of the document, [hasBeenReturned] is [true] exactly when
    [returnStatus] is ["Invoiced"]. *)
Lemma ReturnDetector_returned_iff_invoiced (toLowerCase : jsstring -> jsstring)
    (serialize : Elem -> jsstring) (doc : Document) (container : Elem) (index : Z) :
  attached doc container ->
  exists d,
    ReturnDetector.extractDepositInfo toLowerCase serialize doc container index = Returned d /\
    (ReturnDetector.hasBeenReturned d = true <-> ReturnDetector.returnStatus d = js "Invoiced").
Proof.
intros H.
destruct (ReturnDetector_extract toLowerCase serialize doc container index H)
  as (d & c0 & a0 & E & _ & _ & _ & R & _).
exists d. split; [assumption|].
destruct (returnDetection_spec doc (paragraphsOf doc container)) as (b & s & R' & Hiff & _).
rewrite R in R'. injection R' as <- <-. assumption.
Qed.

(** C1, on the page [Sample.pendingReturn], whose "Return" label carries
    the status "Pending invoice": script-demo.js extracts
    [returnStatus = "Pending invoice"] together with
    [hasBeenReturned = true], because it sets the flag from the presence of
    the word "Return"; return-detector.js extracts the same status with
    [hasBeenReturned = false]. The claim asks for [false]. *)
Theorem pending_invoice_flag :
  (exists d,
     ScriptDemo.extractDepositInfo Sample.pendingReturn Sample.pendingReturnContainer 1
       = Returned d /\
     ScriptDemo.returnStatus d = js "Pending invoice" /\
     ScriptDemo.hasBeenReturned d = true) /\
  (forall toLowerCase serialize, exists d,
     ReturnDetector.extractDepositInfo toLowerCase serialize
       Sample.pendingReturn Sample.pendingReturnContainer 1 = Returned d /\
     ReturnDetector.returnStatus d = js "Pending invoice" /\
     ReturnDetector.hasBeenReturned d = false).
Proof.
split.
- eexists. split; [vm_compute; reflexivity|]. split; reflexivity.
- intros toLowerCase serialize.
  assert (A : attached Sample.pendingReturn Sample.pendingReturnContainer)
    by (split; reflexivity).
  destruct (ReturnDetector_extract toLowerCase serialize _ _ 1 A)
    as (d & c0 & a0 & E & _ & _ & _ & R & _).
  exists d. split; [assumption|].
  assert (R' : ReturnDetector.returnDetection Sample.pendingReturn
                 (paragraphsOf Sample.pendingReturn Sample.pendingReturnContainer)
               = Returned (false, js "Pending invoice")) by (vm_compute; reflexivity).
  rewrite R' in R. injection R as H1 H2. rewrite <- H1, <- H2. split; reflexivity.
Qed.

(** For every container of the document, [extractDepositInfo] returns a
    record and does not throw, in return-detector.js and in
    script-demo.js. In that record [amount] is empty when no paragraph
    looks like an amount; [currency] is empty when no paragraph begins
    with a currency symbol; [depositStatus] and [returnStatus] are empty
    when the "Deposit" or "Return" paragraph, its parent element or the
    [small] inside it is missing. [hasBeenReturned] is then [false] in
    return-detector.js; in script-demo.js it is [false] only when the
    container's text does not hold "Return" either. *)
Lemma extractDepositInfo_never_raises :
  forall (toLowerCase : jsstring -> jsstring) (serialize : Elem -> jsstring)
         (doc : Document) (container : Elem) (index : Z),
    attached doc container ->
    let paragraphs := paragraphsOf doc container in
    let noAmount := forall p, In p paragraphs -> amountLike p = false in
    let noCurrency := forall p, In p paragraphs -> startsWithCurrency p = false in
    (exists d,
       ReturnDetector.extractDepositInfo toLowerCase serialize doc container index
         = Returned d /\
       (noAmount -> ReturnDetector.amount d = []) /\
       (noCurrency -> ReturnDetector.currency d = []) /\
       (statusSourceMissing doc paragraphs (js "Deposit") ->
          ReturnDetector.depositStatus d = []) /\
       (statusSourceMissing doc paragraphs (js "Return") ->
          ReturnDetector.returnStatus d = [] /\ ReturnDetector.hasBeenReturned d = false)) /\
    (exists d,
       ScriptDemo.extractDepositInfo doc container index = Returned d /\
       (noAmount -> ScriptDemo.amount d = []) /\
       (noCurrency -> ScriptDemo.currency d = []) /\
       (statusSourceMissing doc paragraphs (js "Deposit") ->
          ScriptDemo.depositStatus d = []) /\
       (statusSourceMissing doc paragraphs (js "Return") ->
          ScriptDemo.returnStatus d = []) /\
       ((forall p, In p paragraphs -> Fields.hasText (js "Return") p = false) ->
        DOMUtils.elementContainsText container (js "Return") = false ->
          ScriptDemo.hasBeenReturned d = false /\ ScriptDemo.returnStatus d = [])).
Proof.
intros toLowerCase serialize doc container index A paragraphs noAmount noCurrency.
pose proof (paragraphs_attached doc container A) as PA. fold paragraphs in PA.
assert (NS : noAmount -> forall s, In s [[Char.euro]; [Char.dollar]; [Char.pound]] ->
               ~ suppliesAmount paragraphs s).
{ intros Hno s _ (next & (front & p & back & E & _) & Hn).
  rewrite (Hno next) in Hn; [discriminate|].
  rewrite E. apply in_or_app. right. right. left. reflexivity. }
assert (NC : noAmount -> forall p, In p paragraphs -> combinedLike p = false).
{ intros Hno p Hp. destruct (combinedLike p) eqn:E; [|reflexivity].
  apply combinedLike_amountLike in E. rewrite (Hno p Hp) in E. discriminate. }
assert (SY : noCurrency ->
             Fields.standaloneCurrency [[Char.euro]; [Char.dollar]; [Char.pound]]
               paragraphs [] [] = Returned ([], [])).
{ intros Hno. apply standaloneCurrency_no_symbol. intros s p Hs Hp.
  apply no_currency_no_symbol; [apply Hno|]; assumption. }
split.
- destruct (ReturnDetector_extract toLowerCase serialize doc container index A)
    as (d & c0 & a0 & E & S0 & CF & DS & R & _).
  fold paragraphs in S0, CF, DS, R.
  change (CURRENCY_SYMBOLS ReturnDetector.CONFIG)
    with [[Char.euro]; [Char.dollar]; [Char.pound]] in S0.
  exists d. split; [assumption|]. repeat apply conj.
  + intros Hno.
    destruct (standaloneCurrency_no_supply doc paragraphs PA _ (NS Hno) [] []) as (c' & S1).
    rewrite S0 in S1. injection S1 as -> ->.
    rewrite (combinedFormat_none paragraphs c' (NC Hno)) in CF. congruence.
  + intros Hno. rewrite (SY Hno) in S0. injection S0 as <- <-.
    pose proof (combinedFormat_no_currency paragraphs Hno) as K.
    rewrite <- CF in K. exact K.
  + intros H. rewrite DS. apply labelStatus_missing. assumption.
  + intros H. destruct (returnDetection_spec doc paragraphs) as (b & s & R' & _ & Hm).
    rewrite R in R'. injection R' as <- <-. destruct (Hm H) as [-> ->]. split; reflexivity.
- destruct (ScriptDemo_extract doc container index)
    as (d & c0 & a0 & E & S0 & CF & DS & HR & RS & _).
  fold paragraphs in S0, CF, DS, HR, RS.
  change (CURRENCY_SYMBOLS ScriptDemo.CONFIG.DEPOSITS)
    with [[Char.euro]; [Char.dollar]; [Char.pound]] in S0.
  exists d. split; [assumption|]. repeat apply conj.
  + intros Hno.
    destruct (standaloneCurrency_no_supply doc paragraphs PA _ (NS Hno) [] []) as (c' & S1).
    rewrite S0 in S1. injection S1 as -> ->.
    rewrite (combinedFormat_none paragraphs c' (NC Hno)) in CF. congruence.
  + intros Hno. rewrite (SY Hno) in S0. injection S0 as <- <-.
    pose proof (combinedFormat_no_currency paragraphs Hno) as K.
    rewrite <- CF in K. exact K.
  + intros H. rewrite DS. apply labelStatus_missing. assumption.
  + intros H. rewrite RS. destruct (ScriptDemo.hasBeenReturned d); [|reflexivity].
    apply labelStatus_missing. assumption.
  + intros Hp Hc.
    assert (Ex : existsb (Fields.hasText (js "Return")) paragraphs = false).
    { destruct (existsb _ paragraphs) eqn:Ex; [|reflexivity].
      apply existsb_exists in Ex as (p & Hin & Ht). rewrite (Hp p Hin) in Ht. discriminate. }
    rewrite Ex, Hc in HR. simpl in HR. rewrite HR in RS. split; assumption.
Qed.

(** The lemma at the container of [Sample.returnable], which has no
    "Return" label, no [small] and no standalone currency symbol. *)
Lemma extractDepositInfo_never_raises_witness :
  attached Sample.returnable Sample.returnableContainer /\
  (exists d,
     ReturnDetector.extractDepositInfo (fun s => s) (fun _ => [])
       Sample.returnable Sample.returnableContainer 1 = Returned d /\
     ReturnDetector.depositStatus d = [] /\
     ReturnDetector.returnStatus d = [] /\ ReturnDetector.hasBeenReturned d = false) /\
  (exists d,
     ScriptDemo.extractDepositInfo Sample.returnable Sample.returnableContainer 1
       = Returned d /\
     ScriptDemo.depositStatus d = [] /\ ScriptDemo.returnStatus d = []).
Proof.
assert (A : attached Sample.returnable Sample.returnableContainer) by (split; reflexivity).
split; [exact A|].
destruct (extractDepositInfo_never_raises (fun s => s) (fun _ => [])
            Sample.returnable Sample.returnableContainer 1 A)
  as [(d1 & E1 & _ & _ & D1 & R1) (d2 & E2 & _ & _ & D2 & R2 & _)].
assert (MD : statusSourceMissing Sample.returnable
               (paragraphsOf Sample.returnable Sample.returnableContainer) (js "Deposit")).
{ vm_compute. intros e [<-|[<-|[<-|[]]]]; reflexivity. }
assert (MR : statusSourceMissing Sample.returnable
               (paragraphsOf Sample.returnable Sample.returnableContainer) (js "Return")).
{ vm_compute. exact I. }
split.
- exists d1. split; [exact E1|]. split; [exact (D1 MD) | exact (R1 MR)].
- exists d2. split; [exact E2|]. split; [exact (D2 MD) | exact (R2 MR)].
Defined.

(** C4, on the page [Sample.returnable], whose one container
    [<div><p>Deposit</p><p>$300</p><p>Returnable on request</p></div>] is
    discovered by script-demo.js and has no paragraph that reads
    "Return", hence no parent of one and no [small] inside it. Neither
    script throws on it, and both leave [returnStatus] empty; but for the absent
    "Return" paragraph script-demo.js returns [hasBeenReturned = true],
    not the [false] the claim asks for, because it takes the flag from
    the word "Return" in the text of the container. return-detector.js
    returns [false]. *)
Theorem absent_return_label_flag :
  In Sample.returnableContainer (ScriptDemo.findDepositContainers Sample.returnable) /\
  attached Sample.returnable Sample.returnableContainer /\
  (forall p, In p (paragraphsOf Sample.returnable Sample.returnableContainer) ->
             Fields.hasText (js "Return") p = false) /\
  statusSourceMissing Sample.returnable
    (paragraphsOf Sample.returnable Sample.returnableContainer) (js "Return") /\
  (exists d,
     ScriptDemo.extractDepositInfo Sample.returnable Sample.returnableContainer 1
       = Returned d /\
     ScriptDemo.returnStatus d = [] /\
     ScriptDemo.hasBeenReturned d = true) /\
  (forall toLowerCase serialize, exists d,
     ReturnDetector.extractDepositInfo toLowerCase serialize
       Sample.returnable Sample.returnableContainer 1 = Returned d /\
     ReturnDetector.returnStatus d = [] /\
     ReturnDetector.hasBeenReturned d = false).
Proof.
split; [vm_compute; left; reflexivity|].
split; [split; reflexivity|].
split; [intros p H; vm_compute in H; destruct H as [<-|[<-|[<-|[]]]]; reflexivity|].
split; [vm_compute; exact I|].
split.
- eexists. split; [vm_compute; reflexivity|]. split; reflexivity.
- intros toLowerCase serialize.
  assert (A : attached Sample.returnable Sample.returnableContainer)
    by (split; reflexivity).
  destruct (ReturnDetector_extract toLowerCase serialize _ _ 1 A)
    as (d & c0 & a0 & E & _ & _ & _ & R & _).
  exists d. split; [assumption|].
  assert (R' : ReturnDetector.returnDetection Sample.returnable
                 (paragraphsOf Sample.returnable Sample.returnableContainer)
               = Returned (false, [])) by (vm_compute; reflexivity).
  rewrite R' in R. injection R as H1 H2. rewrite <- H1, <- H2. split; reflexivity.
Qed.

(** C7 as it is worded asks, for any paragraph that reads a currency
    symbol and is followed by an amount, that the symbol and the amount be
    returned. On [Sample.repeatedSymbol] the second "€" is followed by
    "1,250.00", but the script looks at the first "€" only, which is
    followed by "n/a"; the amount is then found by the combined format,
    which overwrites the currency with the empty string. *)
Lemma repeated_symbol_counterexample :
  exists front p next back d,
    paragraphsOf Sample.repeatedSymbol Sample.repeatedSymbolContainer
      = front ++ p :: next :: back /\
    trim (textContent p) = [Char.euro] /\
    trim (textContent next) = js "1,250.00" /\
    amountLike next = true /\
    ScriptDemo.extractDepositInfo Sample.repeatedSymbol Sample.repeatedSymbolContainer 1
      = Returned d /\
    ScriptDemo.amount d = js "1,250.00" /\
    ScriptDemo.currency d = [] /\
    ScriptDemo.currency d <> [Char.euro].
Proof.
exists [Sample.at_ Sample.repeatedSymbol [0; 0; 1; 0]%nat;
        Sample.at_ Sample.repeatedSymbol [1; 0; 1; 0]%nat;
        Sample.at_ Sample.repeatedSymbol [2; 0; 1; 0]%nat],
       (Sample.at_ Sample.repeatedSymbol [3; 0; 1; 0]%nat),
       (Sample.at_ Sample.repeatedSymbol [4; 0; 1; 0]%nat),
       [].
eexists. split; [vm_compute; reflexivity|].
split; [vm_compute; reflexivity|].
split; [vm_compute; reflexivity|].
split; [vm_compute; reflexivity|].
split; [vm_compute; reflexivity|].
split; [reflexivity|]. split; [reflexivity | discriminate].
Qed.

(** C7, amended: let [symbol] be one of the configured currency symbols
    and [next] the paragraph right after the first paragraph whose trimmed
    text is [symbol]. If the trimmed text of [next] passes [/[0-9,.]+/] and
    no symbol listed before [symbol] supplies an amount in the same way,
    both scripts return [symbol] as currency and the trimmed text of
    [next], unchanged, as amount. *)
Theorem first_symbol_paragraph_supplies_amount :
  forall (toLowerCase : jsstring -> jsstring) (serialize : Elem -> jsstring)
         (doc : Document) (container : Elem) (index : Z)
         (before after : list jsstring) (symbol : jsstring) (next : Elem),
    attached doc container ->
    [[Char.euro]; [Char.dollar]; [Char.pound]] = before ++ symbol :: after ->
    followsFirst (paragraphsOf doc container) symbol next ->
    amountLike next = true ->
    (forall s, In s before -> ~ suppliesAmount (paragraphsOf doc container) s) ->
    (exists d,
       ReturnDetector.extractDepositInfo toLowerCase serialize doc container index
         = Returned d /\
       ReturnDetector.currency d = symbol /\
       ReturnDetector.amount d = trim (textContent next)) /\
    (exists d,
       ScriptDemo.extractDepositInfo doc container index = Returned d /\
       ScriptDemo.currency d = symbol /\
       ScriptDemo.amount d = trim (textContent next)).
Proof.
intros toLowerCase serialize doc container index before after symbol next
       A Hsym FF Hnext Hbefore.
pose proof (paragraphs_attached doc container A) as PA.
pose proof (standaloneCurrency_supply doc _ PA before after symbol next Hbefore FF Hnext [] [])
  as S1.
rewrite <- Hsym in S1.
pose proof (combinedFormat_kept (paragraphsOf doc container) symbol _
              (amountLike_nonempty next Hnext)) as K.
split.
- destruct (ReturnDetector_extract toLowerCase serialize doc container index A)
    as (d & c0 & a0 & E & S0 & CF & _).
  change (CURRENCY_SYMBOLS ReturnDetector.CONFIG)
    with [[Char.euro]; [Char.dollar]; [Char.pound]] in S0.
  rewrite S1 in S0. injection S0 as <- <-. rewrite K in CF. injection CF as H1 H2.
  exists d. auto.
- destruct (ScriptDemo_extract doc container index)
    as (d & c0 & a0 & E & S0 & CF & _).
  change (CURRENCY_SYMBOLS ScriptDemo.CONFIG.DEPOSITS)
    with [[Char.euro]; [Char.dollar]; [Char.pound]] in S0.
  rewrite S1 in S0. injection S0 as <- <-. rewrite K in CF. injection CF as H1 H2.
  exists d. auto.
Qed.

(** The theorem on [Sample.pendingReturn]: a standalone "€" followed by
    "1,250.00" gives currency "€" and amount "1,250.00". *)
Lemma first_symbol_paragraph_witness :
  attached Sample.pendingReturn Sample.pendingReturnContainer /\
  followsFirst (paragraphsOf Sample.pendingReturn Sample.pendingReturnContainer)
    [Char.euro] (Sample.at_ Sample.pendingReturn [2; 0; 1; 0]%nat) /\
  (exists d,
     ReturnDetector.extractDepositInfo (fun s => s) (fun _ => [])
       Sample.pendingReturn Sample.pendingReturnContainer 1 = Returned d /\
     ReturnDetector.currency d = [Char.euro] /\
     ReturnDetector.amount d = js "1,250.00") /\
  (exists d,
     ScriptDemo.extractDepositInfo Sample.pendingReturn Sample.pendingReturnContainer 1
       = Returned d /\
     ScriptDemo.currency d = [Char.euro] /\
     ScriptDemo.amount d = js "1,250.00").
Proof.
assert (A : attached Sample.pendingReturn Sample.pendingReturnContainer)
  by (split; reflexivity).
assert (FF : followsFirst (paragraphsOf Sample.pendingReturn Sample.pendingReturnContainer)
               [Char.euro] (Sample.at_ Sample.pendingReturn [2; 0; 1; 0]%nat))
  by (apply followsFirst_iff; vm_compute; reflexivity).
split; [exact A|]. split; [exact FF|].
apply (first_symbol_paragraph_supplies_amount (fun s => s) (fun _ => [])
         Sample.pendingReturn Sample.pendingReturnContainer 1
         [] [[Char.dollar]; [Char.pound]] [Char.euro]
         (Sample.at_ Sample.pendingReturn [2; 0; 1; 0]%nat) A eq_refl FF).
- vm_compute. reflexivity.
- intros s [].
Defined.

(** C8: when no standalone currency symbol supplies an amount, the first
    paragraph whose trimmed text passes [/^[€$£]?\s*[0-9,.]+$/] is split:
    whatever way its text is made of an optional symbol, white space and a
    non-empty run of digits, commas and periods, both scripts return that
    symbol (possibly empty) as currency and that run as amount. *)
Theorem combined_paragraph_is_split :
  forall (toLowerCase : jsstring -> jsstring) (serialize : Elem -> jsstring)
         (doc : Document) (container : Elem) (index : Z)
         (p : Elem) (symbol digits : jsstring),
    attached doc container ->
    (forall s, In s [[Char.euro]; [Char.dollar]; [Char.pound]] ->
               ~ suppliesAmount (paragraphsOf doc container) s) ->
    firstWhere combinedLike (paragraphsOf doc container) p ->
    splitsAs (trim (textContent p)) symbol digits ->
    (exists d,
       ReturnDetector.extractDepositInfo toLowerCase serialize doc container index
         = Returned d /\
       ReturnDetector.currency d = symbol /\ ReturnDetector.amount d = digits) /\
    (exists d,
       ScriptDemo.extractDepositInfo doc container index = Returned d /\
       ScriptDemo.currency d = symbol /\ ScriptDemo.amount d = digits).
Proof.
intros toLowerCase serialize doc container index p symbol digits A Hno Hfirst Hsplit.
pose proof (paragraphs_attached doc container A) as PA.
destruct (standaloneCurrency_no_supply doc _ PA _ Hno [] []) as (c' & S1).
pose proof (combinedFormat_split (paragraphsOf doc container) c' p symbol digits
              Hfirst Hsplit) as K.
split.
- destruct (ReturnDetector_extract toLowerCase serialize doc container index A)
    as (d & c0 & a0 & E & S0 & CF & _).
  change (CURRENCY_SYMBOLS ReturnDetector.CONFIG)
    with [[Char.euro]; [Char.dollar]; [Char.pound]] in S0.
  rewrite S1 in S0. injection S0 as <- <-. rewrite K in CF. injection CF as H1 H2.
  exists d. auto.
- destruct (ScriptDemo_extract doc container index)
    as (d & c0 & a0 & E & S0 & CF & _).
  change (CURRENCY_SYMBOLS ScriptDemo.CONFIG.DEPOSITS)
    with [[Char.euro]; [Char.dollar]; [Char.pound]] in S0.
  rewrite S1 in S0. injection S0 as <- <-. rewrite K in CF. injection CF as H1 H2.
  exists d. auto.
Qed.

(** A paragraph that passes the test always splits in this way, so the
    theorem applies to every first paragraph of the combined format. *)
Lemma combinedLike_splits (p : Elem) :
  combinedLike p = true <-> exists symbol digits, splitsAs (trim (textContent p)) symbol digits.
Proof.
unfold combinedLike, Regex.testWhole.
rewrite RegexFacts.matches_Matches. apply PatternFacts.Matches_combinedAmount.
Qed.

Lemma no_symbol_no_supply (paragraphs : list Elem) (s : jsstring) :
  nextAfterFirst (Fields.hasText s) paragraphs = None -> ~ suppliesAmount paragraphs s.
Proof. intros H S. apply suppliesAmount_iff in S. rewrite H in S. exact S. Qed.

(** The theorem on [Sample.combined]: "$300" gives currency "$" and
    amount "300"; "450" gives an empty currency and amount "450". *)
Lemma combined_paragraph_witness :
  (attached Sample.combined Sample.combinedFirst /\
   (exists d,
      ReturnDetector.extractDepositInfo (fun s => s) (fun _ => [])
        Sample.combined Sample.combinedFirst 1 = Returned d /\
      ReturnDetector.currency d = js "$" /\ ReturnDetector.amount d = js "300") /\
   (exists d,
      ScriptDemo.extractDepositInfo Sample.combined Sample.combinedFirst 1 = Returned d /\
      ScriptDemo.currency d = js "$" /\ ScriptDemo.amount d = js "300")) /\
  (attached Sample.combined Sample.combinedSecond /\
   (exists d,
      ReturnDetector.extractDepositInfo (fun s => s) (fun _ => [])
        Sample.combined Sample.combinedSecond 2 = Returned d /\
      ReturnDetector.currency d = [] /\ ReturnDetector.amount d = js "450") /\
   (exists d,
      ScriptDemo.extractDepositInfo Sample.combined Sample.combinedSecond 2 = Returned d /\
      ScriptDemo.currency d = [] /\ ScriptDemo.amount d = js "450")).
Proof.
split.
- assert (A : attached Sample.combined Sample.combinedFirst) by (split; reflexivity).
  split; [exact A|].
  apply (combined_paragraph_is_split (fun s => s) (fun _ => [])
           Sample.combined Sample.combinedFirst 1
           (Sample.at_ Sample.combined [1; 0; 1; 0]%nat) (js "$") (js "300") A).
  + intros s [<-|[<-|[<-|[]]]]; apply no_symbol_no_supply; vm_compute; reflexivity.
  + apply find_firstWhere. vm_compute. reflexivity.
  + exists []. vm_compute. repeat split; try reflexivity.
    * right. exists Char.dollar. split; reflexivity.
    * discriminate.
- assert (A : attached Sample.combined Sample.combinedSecond) by (split; reflexivity).
  split; [exact A|].
  apply (combined_paragraph_is_split (fun s => s) (fun _ => [])
           Sample.combined Sample.combinedSecond 2
           (Sample.at_ Sample.combined [1; 1; 1; 0]%nat) [] (js "450") A).
  + intros s [<-|[<-|[<-|[]]]]; apply no_symbol_no_supply; vm_compute; reflexivity.
  + apply find_firstWhere. vm_compute. reflexivity.
  + exists []. vm_compute. repeat split; try reflexivity.
    * left. reflexivity.
    * discriminate.
Defined.

(* ================================================================== *)
(** * The claims about container discovery and selectors *)
(* ================================================================== *)

Module DiscoveryFacts.

(** [findAncestor] returns the nearest of the element and its ancestors,
    fewer than [maxDepth] steps up, that passes the predicate. *)
Lemma findAncestor_nearest (doc : Document) (predicate : Elem -> bool) (maxDepth : nat) :
  forall element found,
    DOMUtils.findAncestor doc element predicate maxDepth = Some found <->
    exists depth,
      (depth < maxDepth)%nat /\
      ancestor doc element depth = Some found /\
      predicate found = true /\
      forall nearer e, (nearer < depth)%nat -> ancestor doc element nearer = Some e ->
                       predicate e = false.
Proof.
unfold DOMUtils.findAncestor.
induction maxDepth as [|k IH]; intros element found.
- simpl. split; [discriminate | intros (d & Hd & _); lia].
- simpl. destruct (predicate element) eqn:P.
  + split.
    * intros [= <-]. exists 0%nat. repeat split; [lia | assumption | intros; lia].
    * intros (d & Hd & Ha & Hp & Hn). destruct d as [|d].
      -- simpl in Ha. assumption.
      -- specialize (Hn 0%nat element). simpl in Hn.
         rewrite Hn in P; [discriminate | lia | reflexivity].
  + destruct (parentElement doc element) as [parent|] eqn:E.
    * rewrite IH. split.
      -- intros (d & Hd & Ha & Hp & Hn). exists (S d). simpl. rewrite E.
         repeat split; [lia | assumption | assumption|].
         intros [|n] e Hlt He.
         ++ simpl in He. injection He as <-. assumption.
         ++ simpl in He. rewrite E in He. apply (Hn n); [lia | assumption].
      -- intros (d & Hd & Ha & Hp & Hn). destruct d as [|d].
         ++ simpl in Ha. injection Ha as <-. congruence.
         ++ simpl in Ha. rewrite E in Ha. exists d.
            repeat split; [lia | assumption | assumption|].
            intros n e Hlt He. apply (Hn (S n)); [lia|]. simpl. rewrite E. assumption.
    * split.
      -- destruct k; discriminate.
      -- intros (d & Hd & Ha & Hp & Hn). destruct d as [|d].
         ++ simpl in Ha. injection Ha as <-. congruence.
         ++ simpl in Ha. rewrite E in Ha. discriminate.
Qed.

Section Collect.
Variable CONFIG : DepositSelectors.
Variable numberPattern : Regex.regex.
Variable doc : Document.

Let predicate := Discovery.containerPredicate CONFIG numberPattern.

(** Every container of the generic path is already collected or is what
    [findAncestor] found for one of the "Deposit" paragraphs. *)
Lemma collectContainers_found (depositTexts : list Elem) :
  forall containers c,
    In c (Discovery.collectContainers CONFIG numberPattern doc depositTexts containers) ->
    In c containers \/
    exists depositText,
      In depositText depositTexts /\
      DOMUtils.findAncestor doc depositText predicate 8 = Some c.
Proof.
induction depositTexts as [|t rest IH]; intros containers c H; simpl in H; [auto|].
fold predicate in H.
destruct (DOMUtils.findAncestor doc t predicate 8) as [a|] eqn:F.
- destruct (existsb (sameElem a) containers).
  + destruct (IH _ _ H) as [Hc|(t' & Ht' & Hf)]; [auto|].
    right. exists t'. split; [right|]; assumption.
  + destruct (IH _ _ H) as [Hc|(t' & Ht' & Hf)].
    * apply in_app_or in Hc as [Hc|[<-|[]]]; [auto|].
      right. exists t. split; [left; reflexivity | assumption].
    * right. exists t'. split; [right|]; assumption.
- destruct (IH _ _ H) as [Hc|(t' & Ht' & Hf)]; [auto|].
  right. exists t'. split; [right|]; assumption.
Qed.

(** No element is collected twice. *)
Lemma collectContainers_distinct (depositTexts : list Elem) :
  forall containers,
    NoDup (map e_ref containers) ->
    NoDup (map e_ref (Discovery.collectContainers CONFIG numberPattern doc
                        depositTexts containers)).
Proof.
induction depositTexts as [|t rest IH]; intros containers H; simpl; [assumption|].
destruct (DOMUtils.findAncestor doc t _ 8) as [a|]; [|apply IH; assumption].
destruct (existsb (sameElem a) containers) eqn:Ex; [apply IH; assumption|].
apply IH. rewrite map_app. simpl.
apply NoDup_app.
- assumption.
- constructor; [intros [] | constructor].
- intros r Hr [<-|[]].
  apply in_map_iff in Hr as (x & Hx & Hin).
  assert (existsb (sameElem a) containers = true); [|congruence].
  apply existsb_exists. exists x. split; [assumption|].
  apply ref_eqb_eq. symmetry. assumption.
Qed.

(** The generic path for a page with one "Deposit" paragraph: if
    [findAncestor] stops at [found], that element is the only container. *)
Lemma generic_one_paragraph (depositText found : Elem) :
  DOMUtils.findElementsByText doc sel_p (js "Deposit") DocumentRoot = [depositText] ->
  DOMUtils.findAncestor doc depositText predicate 8 = Some found ->
  Discovery.findDepositContainersGeneric CONFIG numberPattern doc = [found].
Proof.
intros Ht Hf. unfold Discovery.findDepositContainersGeneric. rewrite Ht. simpl.
fold predicate. rewrite Hf. reflexivity.
Qed.

End Collect.

(** In return-detector.js [hasNumbers] is [false] for every element whose
    text holds no backslash. *)
Lemma ReturnDetector_hasNumbers_needs_backslash (el : Elem) :
  ~ In Char.backslash (textContent el) ->
  Regex.testAnywhere ReturnDetector.hasNumbersPattern (textContent el) = false.
Proof.
intros H. destruct (Regex.testAnywhere _ _) eqn:E; [|reflexivity].
apply PatternFacts.escapedDecimalNumber_backslash in E. contradiction.
Qed.

(** script-demo.js, the generic path for the case the claim singles out:
    the page has one paragraph that reads "Deposit"; its third ancestor
    holds "Deposit" and a number with a period or a comma; the two nearer
    ancestors do not pass the predicate. Then that ancestor is the only
    container found, also through [findDepositContainers] when the fixed
    selectors match nothing with "Deposit" in it. *)
Lemma ScriptDemo_third_ancestor (doc : Document) (depositText found : Elem) :
  DOMUtils.findElementsByText doc sel_p (js "Deposit") DocumentRoot = [depositText] ->
  ancestor doc depositText 3 = Some found ->
  DOMUtils.elementContainsText found (js "Deposit") = true ->
  Regex.testAnywhere Patterns.decimalNumber (textContent found) = true ->
  (forall nearer e, (nearer < 3)%nat -> ancestor doc depositText nearer = Some e ->
     Discovery.containerPredicate ScriptDemo.CONFIG.DEPOSITS ScriptDemo.hasNumbersPattern e
       = false) ->
  ScriptDemo.findDepositContainersGeneric doc = [found] /\
  (filter (fun c => DOMUtils.elementContainsText c (js "Deposit"))
     (DOMUtils.querySelectorAll doc
        (Selector.joinSelectors (CONTAINERS ScriptDemo.CONFIG.DEPOSITS)) DocumentRoot) = [] ->
   ScriptDemo.findDepositContainers doc = [found]).
Proof.
intros Ht Ha Hd Hn Hnear.
assert (G : ScriptDemo.findDepositContainersGeneric doc = [found]).
{ apply (generic_one_paragraph _ _ doc depositText found Ht).
  apply findAncestor_nearest. exists 3%nat.
  repeat split; [lia | assumption | | assumption].
  unfold Discovery.containerPredicate. rewrite Hd.
  unfold ScriptDemo.hasNumbersPattern. rewrite Hn. rewrite orb_true_r. reflexivity. }
split; [assumption|].
intros Hsel. unfold ScriptDemo.findDepositContainers, Discovery.findDepositContainers.
rewrite Hsel. assumption.
Qed.

End DiscoveryFacts.

(** ** Every discovered container is extracted *)

Module BatchFacts.
Import DomFacts RecordFacts DiscoveryFacts.

Lemma parentElement_attached (doc : Document) (e parent : Elem) :
  parentElement doc e = Some parent -> attached doc parent.
Proof.
unfold parentElement. destruct (e_ref e) as [|i [|j grand]]; try discriminate.
destruct (nodeAt doc (j :: grand)) as [[d|d|name attrs cs]|] eqn:E; try discriminate.
intros [= <-]. split; [exact E | reflexivity].
Qed.

Lemma findAncestor_attached (doc : Document) (predicate : Elem -> bool) (maxDepth : nat) :
  forall element found,
    attached doc element ->
    DOMUtils.findAncestor doc element predicate maxDepth = Some found ->
    attached doc found.
Proof.
unfold DOMUtils.findAncestor.
induction maxDepth as [|k IH]; intros element found A H; simpl in H; [discriminate|].
destruct (predicate element); [injection H as <-; assumption|].
destruct (parentElement doc element) as [parent|] eqn:E.
- apply (IH parent found); [apply (parentElement_attached doc element parent E) | assumption].
- destruct k; discriminate.
Qed.

(** What discovery returns are elements of the document. *)
Lemma findDepositContainers_attached (CONFIG : DepositSelectors)
    (numberPattern : Regex.regex) (doc : Document) (container : Elem) :
  In container (Discovery.findDepositContainers CONFIG numberPattern doc) ->
  attached doc container.
Proof.
unfold Discovery.findDepositContainers.
destruct (filter _ _) as [|c0 cs] eqn:F.
- intros H. unfold Discovery.findDepositContainersGeneric in H.
  apply collectContainers_found in H as [[]|(t & Ht & Hf)].
  apply (findAncestor_attached doc (Discovery.containerPredicate CONFIG numberPattern)
           8 t container); [|exact Hf].
  unfold DOMUtils.findElementsByText in Ht. apply filter_In in Ht as [Ht _].
  apply (querySelectorAll_attached doc sel_p DocumentRoot); [exact I | assumption].
- intros H. rewrite <- F in H. apply filter_In in H as [H _].
  apply (querySelectorAll_attached doc _ DocumentRoot container I H).
Qed.

Lemma mapIndexed_returns {A B : Type} (f : A -> Z -> outcome B) (items : list A) :
  (forall item i, In item items -> exists b, f item i = Returned b) ->
  forall i, exists bs,
    mapIndexed f items i = Returned bs /\ List.length bs = List.length items.
Proof.
induction items as [|item rest IH]; intros H i; simpl.
- exists []. split; reflexivity.
- destruct (H item (i + 1)%Z (or_introl eq_refl)) as (b & ->).
  destruct (IH (fun x j Hx => H x j (or_intror Hx)) (i + 1)%Z) as (bs & -> & L).
  exists (b :: bs). simpl. split; [reflexivity | congruence].
Qed.

(** [findAllDeposits] does not throw, and returns one record for each
    container discovery found. *)
Lemma findAllDeposits_returns (toLowerCase : jsstring -> jsstring)
    (serialize : Elem -> jsstring) (doc : Document) :
  (exists deposits,
     ReturnDetector.findAllDeposits toLowerCase serialize doc = Returned deposits /\
     List.length deposits = List.length (ReturnDetector.findDepositContainers doc)) /\
  (exists deposits,
     ScriptDemo.findAllDeposits doc = Returned deposits /\
     List.length deposits = List.length (ScriptDemo.findDepositContainers doc)).
Proof.
split.
- apply mapIndexed_returns. intros container i H.
  apply findDepositContainers_attached in H.
  destruct (ReturnDetector_extract toLowerCase serialize doc container i H) as (d & _ & _ & E & _).
  eauto.
- apply mapIndexed_returns. intros container i _.
  destruct (ScriptDemo_extract doc container i) as (d & _ & _ & E & _).
  eauto.
Qed.

End BatchFacts.

(** C2, on the page [Sample.numberOnly]: the fixed selectors match
    nothing, one paragraph reads "Deposit", and its third ancestor holds
    "Deposit" and the number "1,250.00" (and is the nearest ancestor to do
    so). script-demo.js returns that ancestor as the only container.
    return-detector.js returns no container: its pattern for numbers is
    written with doubled backslashes and matches no number. *)
Theorem generic_discovery_number_only :
  DOMUtils.querySelectorAll Sample.numberOnly
    (Selector.joinSelectors (CONTAINERS ReturnDetector.CONFIG)) DocumentRoot = [] /\
  DOMUtils.findElementsByText Sample.numberOnly sel_p (js "Deposit") DocumentRoot
    = [Sample.numberOnlyParagraph] /\
  ancestor Sample.numberOnly Sample.numberOnlyParagraph 3 = Some Sample.numberOnlyAncestor /\
  DOMUtils.elementContainsText Sample.numberOnlyAncestor (js "Deposit") = true /\
  Regex.testAnywhere Patterns.decimalNumber (textContent Sample.numberOnlyAncestor) = true /\
  ScriptDemo.findDepositContainers Sample.numberOnly = [Sample.numberOnlyAncestor] /\
  ReturnDetector.findDepositContainersGeneric Sample.numberOnly = [] /\
  ReturnDetector.findDepositContainers Sample.numberOnly = [].
Proof. repeat split; vm_compute; reflexivity. Qed.

(** C10: when the browser's query throws for a selector, the two wrappers
    of [DOMUtils] do not: [querySelectorAll] returns the empty list and
    [querySelector] returns [null]. Discovery then goes on as if the
    selector had matched nothing: with such a selector as the joined
    container selector, [findDepositContainers] is the generic path. The
    queries the modelled code makes without the wrappers,
    [parent.querySelector('small')] and [document.querySelectorAll('p')],
    never throw. *)
Theorem invalid_selector_is_not_fatal :
  forall (doc : Document) (selector : Selector.selector) (root : Root) (error : JSThrown),
    nativeQuerySelectorAll doc selector root = Thrown error ->
    nativeQuerySelector doc selector root = Thrown error /\
    DOMUtils.querySelectorAll doc selector root = [] /\
    DOMUtils.querySelector doc selector root = None /\
    (forall CONFIG numberPattern,
       Selector.joinSelectors (CONTAINERS CONFIG) = selector ->
       root = DocumentRoot ->
       Discovery.findDepositContainers CONFIG numberPattern doc =
       Discovery.findDepositContainersGeneric CONFIG numberPattern doc) /\
    (forall anyRoot, exists small, nativeQuerySelector doc sel_small anyRoot = Returned small) /\
    (forall anyRoot, exists ps, nativeQuerySelectorAll doc sel_p anyRoot = Returned ps).
Proof.
intros doc selector root error H.
assert (V : Selector.valid selector = false /\ error = syntaxError).
{ unfold nativeQuerySelectorAll in H. destruct (Selector.valid selector); [discriminate|].
  injection H as <-. split; reflexivity. }
destruct V as [V ->].
assert (Q : nativeQuerySelector doc selector root = Thrown syntaxError)
  by (unfold nativeQuerySelector; rewrite V; reflexivity).
split; [assumption|].
split; [unfold DOMUtils.querySelectorAll; rewrite H; reflexivity|].
split; [unfold DOMUtils.querySelector; rewrite Q; reflexivity|].
split.
- intros CONFIG numberPattern Hsel ->. unfold Discovery.findDepositContainers.
  rewrite Hsel. unfold DOMUtils.querySelectorAll at 1. rewrite H. reflexivity.
- split; intros anyRoot.
  + unfold nativeQuerySelector. simpl. eauto.
  + unfold nativeQuerySelectorAll. simpl. eauto.
Qed.

(** The theorem for ['button:contains("Close")'], one of the configured
    close-button selectors, which no browser parses. *)
Lemma invalid_selector_witness :
  nativeQuerySelectorAll Sample.numberOnly
    [[Selector.TypeSel (js "button"); Selector.PseudoContains (js "Close")]]
    DocumentRoot = Thrown syntaxError /\
  In [[Selector.TypeSel (js "button"); Selector.PseudoContains (js "Close")]]
     ScriptDemo.CONFIG.CLOSE_BUTTON /\
  DOMUtils.querySelectorAll Sample.numberOnly
    [[Selector.TypeSel (js "button"); Selector.PseudoContains (js "Close")]]
    DocumentRoot = [] /\
  DOMUtils.querySelector Sample.numberOnly
    [[Selector.TypeSel (js "button"); Selector.PseudoContains (js "Close")]]
    DocumentRoot = None.
Proof.
assert (H : nativeQuerySelectorAll Sample.numberOnly
              [[Selector.TypeSel (js "button"); Selector.PseudoContains (js "Close")]]
              DocumentRoot = Thrown syntaxError) by (vm_compute; reflexivity).
split; [exact H|].
split; [right; right; right; left; reflexivity|].
destruct (invalid_selector_is_not_fatal Sample.numberOnly _ DocumentRoot syntaxError H)
  as (_ & A & B & _).
split; [exact A | exact B].
Defined.

(* ================================================================== *)
(** * The claims about the export *)
(* ================================================================== *)

Module ExportFacts.

Lemma replaceAllChar_removes (c : N) (s : jsstring) :
  replaceAllChar c [] s = filter (fun x => negb (N.eqb x c)) s.
Proof.
unfold replaceAllChar.
induction s as [|x s IH]; simpl; [reflexivity|].
rewrite IH. destruct (N.eqb x c); reflexivity.
Qed.

Lemma replaceAllChar_gone (c : N) (s : jsstring) : ~ In c (replaceAllChar c [] s).
Proof.
rewrite replaceAllChar_removes. intros H. apply filter_In in H as [_ H].
rewrite N.eqb_refl in H. discriminate.
Qed.

(** The rows [toCSV] writes after the header. *)
Lemma toCSV_lines (first : jsobject) (rest : list jsobject) :
  ScriptDemo.toCSV (first :: rest) =
  (join [Char.comma] (keys first) ++ [Char.newline]) ++
  flat_map (fun item => ScriptDemo.csvRow (keys first) item ++ [Char.newline]) (first :: rest).
Proof.
unfold ScriptDemo.toCSV.
generalize (first :: rest) as data.
generalize (join [Char.comma] (keys first) ++ [Char.newline]) as csv.
intros csv data. revert csv.
induction data as [|item data IH]; intros csv.
- simpl. rewrite app_nil_r. reflexivity.
- cbn [fold_left flat_map]. rewrite IH. rewrite <- !app_assoc. reflexivity.
Qed.

Lemma formatDeposit_keys (deposit : ScriptDemo.Details.t) :
  keys (ScriptDemo.formatDeposit deposit) = exportSchema.
Proof. reflexivity. Qed.


(** The body of an opened quoted field is read back as it was. *)
Lemma read_quoted (s : jsstring) :
  forall field record records rest,
    Csv.read Csv.Quoted field record records
      (replaceAllChar Char.quote [Char.quote; Char.quote] s ++ Char.quote :: rest) =
    Csv.read Csv.QuoteSeen (rev s ++ field) record records rest.
Proof.
induction s as [|c s IH]; intros field record records rest.
- simpl. reflexivity.
- unfold replaceAllChar. cbn [flat_map]. fold (replaceAllChar Char.quote [Char.quote; Char.quote] s).
  destruct (N.eqb c Char.quote) eqn:E.
  + apply N.eqb_eq in E. subst c.
    cbn [app Csv.read]. rewrite !N.eqb_refl.
    rewrite IH. cbn [rev]. rewrite <- app_assoc. reflexivity.
  + cbn [app Csv.read]. rewrite E. rewrite IH. cbn [rev]. rewrite <- app_assoc. reflexivity.
Qed.

(** What the [catch] blocks build. *)
Lemma partialDetails_row (deposit : ScriptDemo.Deposit) (error : JSThrown)
    (row : ScriptDemo.Details.t) :
  ScriptDemo.partialDetails deposit error = Returned row ->
  exists message,
    messageOf error = Returned message /\
    row = {| ScriptDemo.Details.index := ScriptDemo.index deposit;
             ScriptDemo.Details.listInfo := Some (ScriptDemo.listInfoOf deposit);
             ScriptDemo.Details.modalInfo := None;
             ScriptDemo.Details.error := message;
             ScriptDemo.Details.timestamp := Some ScriptDemo.CONFIG.TIMESTAMPS_current;
             ScriptDemo.Details.extractedBy := Some ScriptDemo.CONFIG.USER |}.
Proof.
unfold ScriptDemo.partialDetails.
destruct (messageOf error) as [message|e]; cbn [bind]; intros H; [|discriminate].
injection H as <-. exists message. split; reflexivity.
Qed.

(** Reading the message of a thrown value throws nothing but a
    [TypeError]. *)
Lemma partialDetails_thrown (deposit : ScriptDemo.Deposit) (error raised : JSThrown) :
  ScriptDemo.partialDetails deposit error = Thrown raised ->
  error = NullOrUndefined /\ raised = typeError.
Proof.
unfold ScriptDemo.partialDetails. destruct error; cbn [messageOf bind]; intros H;
  try discriminate.
injection H as <-. split; reflexivity.
Qed.

(** The promise of [getDepositDetails] is rejected only by its own
    [catch] block, hence with a [TypeError]. *)
Lemma getDepositDetails_rejected (deposit : ScriptDemo.Deposit) (page : ScriptDemo.Page)
    (error : JSThrown) :
  ScriptDemo.getDepositDetails deposit page = Thrown error -> error = typeError.
Proof.
unfold ScriptDemo.getDepositDetails.
destruct (ScriptDemo.click page) as [[]|e]; cbn [bind].
- destruct (ScriptDemo.modalDetails page) as [m|e]; cbn [bind]; [discriminate|].
  intros H. exact (proj2 (partialDetails_thrown _ _ _ H)).
- intros H. exact (proj2 (partialDetails_thrown _ _ _ H)).
Qed.

(** The loop's [catch] on a [TypeError]. *)
Lemma partialDetails_typeError (deposit : ScriptDemo.Deposit) :
  exists row, ScriptDemo.partialDetails deposit typeError = Returned row.
Proof. eexists. reflexivity. Qed.

Lemma getDepositDetails_row (deposit : ScriptDemo.Deposit) (page : ScriptDemo.Page)
    (details : ScriptDemo.Details.t) :
  ScriptDemo.getDepositDetails deposit page = Returned details ->
  ScriptDemo.Details.index details = ScriptDemo.index deposit /\
  ScriptDemo.Details.listInfo details = Some (ScriptDemo.listInfoOf deposit) /\
  ScriptDemo.Details.timestamp details = Some ScriptDemo.CONFIG.TIMESTAMPS_current /\
  ScriptDemo.Details.extractedBy details = Some ScriptDemo.CONFIG.USER.
Proof.
assert (P : forall error,
          ScriptDemo.partialDetails deposit error = Returned details ->
          ScriptDemo.Details.index details = ScriptDemo.index deposit /\
          ScriptDemo.Details.listInfo details = Some (ScriptDemo.listInfoOf deposit) /\
          ScriptDemo.Details.timestamp details = Some ScriptDemo.CONFIG.TIMESTAMPS_current /\
          ScriptDemo.Details.extractedBy details = Some ScriptDemo.CONFIG.USER).
{ intros error H. destruct (partialDetails_row _ _ _ H) as (message & _ & ->).
  repeat split. }
unfold ScriptDemo.getDepositDetails.
destruct (ScriptDemo.click page) as [[]|e]; cbn [bind]; [|apply P].
destruct (ScriptDemo.modalDetails page) as [m|e]; cbn [bind]; [|apply P].
intros H. injection H as <-. repeat split.
Qed.

(** While closing the modal does not throw, the loop is not left and it
    pushes one object per deposit, in order: the object
    [getDepositDetails] is fulfilled with, or the partial object built
    from its rejection. *)
Lemma processDeposits_one_each (pages : nat -> ScriptDemo.Page)
    (deposits : list ScriptDemo.Deposit) :
  forall i depositDetails,
    (forall j, (i <= j < i + List.length deposits)%nat ->
               exists closed, ScriptDemo.closeModal (pages j) = Returned closed) ->
    exists rows,
      ScriptDemo.processDeposits deposits pages i depositDetails
        = Returned (depositDetails ++ rows) /\
      Forall2 (fun dj row =>
                 match ScriptDemo.getDepositDetails (fst dj) (pages (snd dj)) with
                 | Returned details => row = details
                 | Thrown error => ScriptDemo.partialDetails (fst dj) error = Returned row
                 end)
              (combine deposits (seq i (List.length deposits))) rows.
Proof.
induction deposits as [|d rest IH]; intros i acc H.
- exists []. simpl. rewrite app_nil_r. split; [reflexivity | constructor].
- cbn [ScriptDemo.processDeposits].
  assert (Hrest : forall row,
            exists rows,
              ScriptDemo.processDeposits rest pages (S i) (acc ++ [row])
                = Returned (acc ++ row :: rows) /\
              Forall2 (fun dj row =>
                 match ScriptDemo.getDepositDetails (fst dj) (pages (snd dj)) with
                 | Returned details => row = details
                 | Thrown error => ScriptDemo.partialDetails (fst dj) error = Returned row
                 end)
              (combine rest (seq (S i) (List.length rest))) rows).
  { intros row. destruct (IH (S i) (acc ++ [row])) as (rows & E & F).
    - intros j Hj. apply H. simpl. lia.
    - exists rows. rewrite <- app_assoc in E. split; [exact E | exact F]. }
  destruct (ScriptDemo.getDepositDetails d (pages i)) as [details|error] eqn:G.
  + destruct (H i) as (closed & ->); [simpl; lia|].
    destruct (Hrest details) as (rows & E & F).
    exists (details :: rows). split; [exact E|].
    cbn [List.length seq combine]. constructor; [|exact F].
    cbn [fst snd]. rewrite G. reflexivity.
  + pose proof (getDepositDetails_rejected _ _ _ G) as ->.
    destruct (partialDetails_typeError d) as (row & P). rewrite P. cbn [bind].
    destruct (Hrest row) as (rows & E & F).
    exists (row :: rows). split; [exact E|].
    cbn [List.length seq combine]. constructor; [|exact F].
    cbn [fst snd]. rewrite G. exact P.
Qed.

(** A relation between the numbered items of a list and a second list,
    read at one index. *)
Lemma Forall2_numbered {A B : Type} (P : A -> nat -> B -> Prop) (l : list A) :
  forall start rows,
    Forall2 (fun dj row => P (fst dj) (snd dj) row)
            (combine l (seq start (List.length l))) rows ->
    List.length rows = List.length l /\
    forall i x, nth_error l i = Some x ->
                exists row, nth_error rows i = Some row /\ P x (start + i)%nat row.
Proof.
induction l as [|y l IH]; intros start rows F.
- simpl in F. inversion F. split; [reflexivity|]. intros [|i] x H; discriminate.
- cbn [List.length seq combine] in F. inversion F as [|dj row djs rows' Hhead Htail]; subst.
  destruct (IH _ _ Htail) as (L & N). split; [simpl; rewrite L; reflexivity|].
  intros [|i] x Hx; simpl in Hx.
  + injection Hx as <-. exists row. rewrite Nat.add_0_r. split; [reflexivity | exact Hhead].
  + destruct (N i x Hx) as (row' & Hrow & HP). exists row'. split; [exact Hrow|].
    replace (start + S i)%nat with (S start + i)%nat by lia. exact HP.
Qed.

End ExportFacts.

(** ** The writer read back *)

Module RoundTrip.
Import ExportFacts.

Lemma read_bare_tail (t : jsstring) :
  forall d field record records rest,
    bareSafe t = true -> d = Char.comma \/ d = Char.newline ->
    Csv.read Csv.Bare field record records (t ++ d :: rest) =
    afterField d (rev field ++ t) record records rest.
Proof.
induction t as [|c t IH]; intros d field record records rest Hs Hd.
- rewrite app_nil_r. destruct Hd as [-> | ->]; reflexivity.
- simpl in Hs. apply andb_true_iff in Hs as [Hc Hs].
  apply andb_true_iff in Hc as [Hc Hn]. apply andb_true_iff in Hc as [Hq Hc].
  apply negb_true_iff in Hq, Hc, Hn.
  cbn [app Csv.read]. rewrite Hq, Hc, Hn. rewrite IH by assumption.
  cbn [rev]. rewrite <- app_assoc. reflexivity.
Qed.

Lemma bare_readsAs (t : jsstring) : bareSafe t = true -> readsAs t t.
Proof.
intros Hs d record records rest Hd. destruct t as [|c t].
- destruct Hd as [-> | ->]; reflexivity.
- simpl in Hs. apply andb_true_iff in Hs as [Hc Hs].
  apply andb_true_iff in Hc as [Hc Hn]. apply andb_true_iff in Hc as [Hq Hc].
  apply negb_true_iff in Hq, Hc, Hn.
  cbn [app Csv.read]. rewrite Hq, Hc, Hn.
  rewrite read_bare_tail by assumption. reflexivity.
Qed.

Lemma quoted_readsAs (s : jsstring) :
  readsAs ([Char.quote] ++ replaceAllChar Char.quote [Char.quote; Char.quote] s
           ++ [Char.quote]) s.
Proof.
intros d record records rest Hd.
rewrite <- !app_assoc. cbn [app Csv.read]. rewrite N.eqb_refl.
rewrite read_quoted, app_nil_r.
destruct Hd as [-> | ->]; cbn [Csv.read]; rewrite rev_involutive; reflexivity.
Qed.

Lemma replaceAllChar_absent (c : N) (by_ s : jsstring) :
  ~ In c s -> replaceAllChar c by_ s = s.
Proof.
unfold replaceAllChar. induction s as [|x s IH]; intros H; simpl; [reflexivity|].
destruct (N.eqb x c) eqn:E.
- apply N.eqb_eq in E. exfalso. apply H. left. assumption.
- rewrite IH; [reflexivity|]. intros Hin. apply H. right. assumption.
Qed.

Lemma digits_no_quote (d : Decimal.uint) :
  ~ In Char.quote (js (NilEmpty.string_of_uint d)).
Proof.
induction d; simpl; intros H;
  try (destruct H as [H|H]; [discriminate H | exact (IHd H)]); exact H.
Qed.

Lemma numberToString_no_quote (n : Z) : ~ In Char.quote (numberToString n).
Proof.
unfold numberToString, NilZero.string_of_int.
destruct (Z.to_int n) as [d|d]; unfold NilZero.string_of_uint.
- destruct d; try apply digits_no_quote. simpl. intros [H|[]]. discriminate H.
- cbn [js list_ascii_of_string map]. intros [H|H]; [discriminate H|].
  revert H. change (map N_of_ascii (list_ascii_of_string ?s)) with (js s).
  destruct d; try apply digits_no_quote. simpl. intros [H|[]]. discriminate H.
Qed.

(** Every value is written in a form that is read back as its text. *)
Lemma csvField_readsAs (value : jsvalue) :
  readsAs (ScriptDemo.csvField value) (fieldText value).
Proof.
destruct value as [| |b|s|n|json]; cbn [ScriptDemo.csvField fieldText].
- apply bare_readsAs. reflexivity.
- apply bare_readsAs. reflexivity.
- destruct b; apply bare_readsAs; reflexivity.
- apply quoted_readsAs.
- rewrite <- (replaceAllChar_absent Char.quote [Char.quote; Char.quote] (numberToString n))
    at 1 by apply numberToString_no_quote.
  apply quoted_readsAs.
- apply quoted_readsAs.
Qed.

(** A line of fields is read back as one record. *)
Lemma read_line (cells : list (jsstring * jsstring)) :
  cells <> [] ->
  Forall (fun cell => readsAs (fst cell) (snd cell)) cells ->
  forall record records rest,
    Csv.read Csv.FieldStart [] record records
      (join [Char.comma] (map fst cells) ++ Char.newline :: rest) =
    Csv.read Csv.FieldStart [] [] (rev (rev (map snd cells) ++ record) :: records) rest.
Proof.
induction cells as [|cell cells IH]; intros Hne Hall record records rest; [congruence|].
pose proof (Forall_inv Hall) as Hcell. pose proof (Forall_inv_tail Hall) as Hrest.
destruct cells as [|cell2 cells].
- cbn [map join]. rewrite (Hcell Char.newline) by (right; reflexivity).
  reflexivity.
- change (join [Char.comma] (map fst (cell :: cell2 :: cells)))
    with (fst cell ++ [Char.comma] ++ join [Char.comma] (map fst (cell2 :: cells))).
  rewrite <- !app_assoc. cbn [app].
  rewrite (Hcell Char.comma) by (left; reflexivity).
  unfold afterField. rewrite N.eqb_refl.
  rewrite IH by (assumption || discriminate).
  cbn [map rev]. rewrite <- !app_assoc. reflexivity.
Qed.

(** A text of lines is read back as their records. *)
Lemma read_lines (lines : list (list (jsstring * jsstring))) :
  Forall (fun cells => cells <> [] /\
                       Forall (fun cell => readsAs (fst cell) (snd cell)) cells) lines ->
  forall records,
    Csv.read Csv.FieldStart [] [] records
      (flat_map (fun cells => join [Char.comma] (map fst cells) ++ [Char.newline]) lines) =
    Some (rev records ++ map (map snd) lines).
Proof.
induction lines as [|cells lines IH]; intros Hall records.
- simpl. rewrite app_nil_r. reflexivity.
- destruct (Forall_inv Hall) as [Hne Hcells].
  cbn [flat_map]. rewrite <- app_assoc. cbn [app].
  rewrite read_line by assumption.
  rewrite IH by (apply (Forall_inv_tail Hall)).
  cbn [rev map]. rewrite app_nil_r, rev_involutive, <- app_assoc. reflexivity.
Qed.

(** [toCSV] read back: the header names, then for every object the texts
    of its values under those names. The names have to be plain enough to
    stand unquoted, as [toCSV] writes them as they are. *)
Lemma toCSV_parse (first : jsobject) (rest : list jsobject) :
  keys first <> [] ->
  Forall (fun name => bareSafe name = true) (keys first) ->
  Csv.parse (ScriptDemo.toCSV (first :: rest)) =
  Some (keys first ::
        map (fun item => map (fun header => fieldText (property item header)) (keys first))
            (first :: rest)).
Proof.
intros Hne Hsafe. rewrite toCSV_lines. unfold Csv.parse.
set (headers := keys first) in *.
set (cellsOf := fun item : jsobject =>
       map (fun header => (ScriptDemo.csvField (property item header),
                           fieldText (property item header))) headers).
assert (D : forall data : list jsobject,
            flat_map (fun item => ScriptDemo.csvRow headers item ++ [Char.newline]) data =
            flat_map (fun cells => join [Char.comma] (map fst cells) ++ [Char.newline])
                     (map cellsOf data)).
{ induction data as [|item data IH]; [reflexivity|].
  cbn [flat_map map]. rewrite IH. f_equal. unfold ScriptDemo.csvRow, cellsOf.
  rewrite map_map. reflexivity. }
assert (E : (join [Char.comma] headers ++ [Char.newline]) ++
            flat_map (fun item => ScriptDemo.csvRow headers item ++ [Char.newline])
                     (first :: rest) =
            flat_map (fun cells => join [Char.comma] (map fst cells) ++ [Char.newline])
                     (map (fun h => (h, h)) headers :: map cellsOf (first :: rest))).
{ rewrite D. generalize (map cellsOf (first :: rest)) as lines. intros lines.
  cbn [flat_map]. f_equal. rewrite map_map. cbn [fst]. rewrite map_id. reflexivity. }
rewrite E. rewrite read_lines.
- assert (R1 : map snd (map (fun h : jsstring => (h, h)) headers) = headers)
    by (rewrite map_map; apply map_id).
  assert (R2 : forall data : list jsobject,
            map (map snd) (map cellsOf data) =
            map (fun item => map (fun header => fieldText (property item header)) headers)
                data).
  { intros data. rewrite map_map. apply map_ext. intros item. unfold cellsOf.
    rewrite map_map. reflexivity. }
  change (Some (map snd (map (fun h : jsstring => (h, h)) headers)
                :: map (map snd) (map cellsOf (first :: rest))) =
          Some (headers ::
                map (fun item => map (fun header => fieldText (property item header)) headers)
                    (first :: rest))).
  rewrite R1, R2. reflexivity.
- constructor.
  + split.
    * destruct headers; [congruence | discriminate].
    * apply Forall_forall. intros cell Hin. apply in_map_iff in Hin as (h & <- & Hh).
      apply bare_readsAs. rewrite Forall_forall in Hsafe. apply Hsafe. assumption.
  + apply Forall_forall. intros cells Hin. apply in_map_iff in Hin as (item & <- & _).
    split.
    * unfold cellsOf. destruct headers; [congruence | discriminate].
    * apply Forall_forall. intros cell Hin. unfold cellsOf in Hin.
      apply in_map_iff in Hin as (h & <- & _). apply csvField_readsAs.
Qed.

End RoundTrip.

Import ExportFacts RoundTrip.

(** C6: [formatForExport] gives one row per object, in order, and the
    [amount] of each row is the [amount] of the object's [listInfo] with
    every comma removed (the empty string without [listInfo]). For the
    objects [getDepositDetails] is fulfilled with and for the objects of
    the [catch] blocks that is the extracted amount without its commas,
    while the extracted record keeps the text it read. "1,250.00" is
    exported as "1250.00". *)
Theorem exported_amount_has_no_commas :
  (forall deposits : list ScriptDemo.Details.t,
     List.length (ScriptDemo.formatForExport deposits) = List.length deposits /\
     map (fun row => property row (js "amount")) (ScriptDemo.formatForExport deposits) =
     map (fun deposit =>
            VString match ScriptDemo.Details.listInfo deposit with
                    | Some listInfo =>
                        replaceAllChar Char.comma [] (ScriptDemo.ListInfo.amount listInfo)
                    | None => []
                    end)
         deposits) /\
  (forall (deposit : ScriptDemo.Deposit) (page : ScriptDemo.Page)
          (details : ScriptDemo.Details.t),
     ScriptDemo.getDepositDetails deposit page = Returned details ->
     map (fun row => property row (js "amount")) (ScriptDemo.formatForExport [details])
     = [VString (replaceAllChar Char.comma [] (ScriptDemo.amount deposit))]) /\
  (forall (deposit : ScriptDemo.Deposit) (error : JSThrown)
          (details : ScriptDemo.Details.t),
     ScriptDemo.partialDetails deposit error = Returned details ->
     map (fun row => property row (js "amount")) (ScriptDemo.formatForExport [details])
     = [VString (replaceAllChar Char.comma [] (ScriptDemo.amount deposit))]) /\
  (forall s : jsstring,
     replaceAllChar Char.comma [] s = filter (fun c => negb (N.eqb c Char.comma)) s /\
     ~ In Char.comma (replaceAllChar Char.comma [] s)) /\
  (exists deposit details,
     ScriptDemo.extractDepositInfo Sample.pendingReturn Sample.pendingReturnContainer 1
       = Returned deposit /\
     ScriptDemo.amount deposit = js "1,250.00" /\
     ScriptDemo.getDepositDetails deposit Sample.calm = Returned details /\
     map (fun row => property row (js "amount")) (ScriptDemo.formatForExport [details])
     = [VString (js "1250.00")]).
Proof.
assert (G : forall details : ScriptDemo.Details.t,
     property (ScriptDemo.formatDeposit details) (js "amount")
     = VString match ScriptDemo.Details.listInfo details with
               | Some listInfo =>
                   replaceAllChar Char.comma [] (ScriptDemo.ListInfo.amount listInfo)
               | None => []
               end).
{ intros details.
  change (property _ (js "amount")) with
    (VString match option_map ScriptDemo.ListInfo.amount
                     (ScriptDemo.Details.listInfo details) with
             | Some (c :: s) => replaceAllChar Char.comma [] (c :: s)
             | _ => []
             end).
  destruct (ScriptDemo.Details.listInfo details) as [listInfo|]; [|reflexivity].
  cbn [option_map]. destruct (ScriptDemo.ListInfo.amount listInfo); reflexivity. }
assert (One : forall (deposit : ScriptDemo.Deposit) (details : ScriptDemo.Details.t),
     ScriptDemo.Details.listInfo details = Some (ScriptDemo.listInfoOf deposit) ->
     map (fun row => property row (js "amount")) (ScriptDemo.formatForExport [details])
     = [VString (replaceAllChar Char.comma [] (ScriptDemo.amount deposit))]).
{ intros deposit details H. cbn [ScriptDemo.formatForExport map].
  rewrite G, H. reflexivity. }
split; [|split; [|split; [|split]]].
- intros deposits. unfold ScriptDemo.formatForExport. split; [apply length_map|].
  rewrite map_map. apply map_ext. exact G.
- intros deposit page details H. apply One.
  exact (proj1 (proj2 (getDepositDetails_row deposit page details H))).
- intros deposit error details H. apply One.
  destruct (partialDetails_row _ _ _ H) as (message & _ & ->). reflexivity.
- intros s. split; [apply replaceAllChar_removes | apply replaceAllChar_gone].
- eexists. eexists. split; [vm_compute; reflexivity|].
  split; [vm_compute; reflexivity|]. split; vm_compute; reflexivity.
Qed.


(** The string [He said "hi"]. *)
Example heSaidHi_csv :
  ScriptDemo.csvField (VString (js "He said " ++ [Char.quote] ++ js "hi" ++ [Char.quote]))
  = [Char.quote] ++ js "He said " ++ [Char.quote; Char.quote] ++ js "hi"
    ++ [Char.quote; Char.quote] ++ [Char.quote].
Proof. reflexivity. Qed.

(** C5: a string value is written between quotes with every quote inside
    it doubled, and the reader gives the string back, when the field is
    the whole text and when it stands in the middle of a file. A whole
    export is read back as the schema followed, for every row, by the
    texts of its fourteen values; in particular a note is recovered
    exactly, whatever characters it holds. The text [He said "hi"] is
    written between quotes with the two quotes inside it doubled. *)
Theorem quoted_field_round_trip :
  (forall s : jsstring,
     ScriptDemo.csvField (VString s) =
       [Char.quote] ++ replaceAllChar Char.quote [Char.quote; Char.quote] s ++ [Char.quote] /\
     Csv.parse (ScriptDemo.csvField (VString s)) = Some [[s]] /\
     readsAs (ScriptDemo.csvField (VString s)) s) /\
  (forall (first : ScriptDemo.Details.t) (rest : list ScriptDemo.Details.t),
     Csv.parse (ScriptDemo.toCSV (ScriptDemo.formatForExport (first :: rest))) =
     Some (exportSchema ::
           map (fun row => map (fun kv => fieldText (snd kv)) row)
               (ScriptDemo.formatForExport (first :: rest)))) /\
  (forall (deposit : ScriptDemo.Deposit) (modalInfo : ScriptDemo.ModalInfo.t),
     let page := {| ScriptDemo.click := Returned tt;
                    ScriptDemo.modalWait := Returned tt;
                    ScriptDemo.modalDetails := Returned modalInfo;
                    ScriptDemo.closeModal := Returned true |} in
     exists details,
       ScriptDemo.getDepositDetails deposit page = Returned details /\
       option_map (map (fun fields => nth 9 fields []))
         (Csv.parse (ScriptDemo.toCSV (ScriptDemo.formatForExport [details])))
       = Some [js "note"; ScriptDemo.ModalInfo.note modalInfo]) /\
  ScriptDemo.csvField (VString (js "He said " ++ [Char.quote] ++ js "hi" ++ [Char.quote]))
  = [Char.quote] ++ js "He said " ++ [Char.quote; Char.quote] ++ js "hi"
    ++ [Char.quote; Char.quote] ++ [Char.quote].
Proof.
assert (W : forall (first : ScriptDemo.Details.t) (rest : list ScriptDemo.Details.t),
     Csv.parse (ScriptDemo.toCSV (ScriptDemo.formatForExport (first :: rest))) =
     Some (exportSchema ::
           map (fun row => map (fun kv => fieldText (snd kv)) row)
               (ScriptDemo.formatForExport (first :: rest)))).
{ intros first rest. unfold ScriptDemo.formatForExport.
  change (map ScriptDemo.formatDeposit (first :: rest))
    with (ScriptDemo.formatDeposit first :: map ScriptDemo.formatDeposit rest) at 1.
  rewrite toCSV_parse.
  - rewrite formatDeposit_keys. f_equal. f_equal.
    change (ScriptDemo.formatDeposit first :: map ScriptDemo.formatDeposit rest)
      with (map ScriptDemo.formatDeposit (first :: rest)).
    generalize (first :: rest) as deposits. intros deposits.
    induction deposits as [|d deposits IH]; [reflexivity|].
    cbn [map]. rewrite IH. reflexivity.
  - rewrite formatDeposit_keys. discriminate.
  - rewrite formatDeposit_keys. repeat constructor. }
split; [|split; [exact W|split]].
- intros s. split; [reflexivity|].
  pose proof (quoted_readsAs s) as Q.
  split; [|exact Q].
  unfold Csv.parse. change (ScriptDemo.csvField (VString s))
    with ([Char.quote] ++ replaceAllChar Char.quote [Char.quote; Char.quote] s ++ [Char.quote]).
  cbn [app Csv.read]. rewrite N.eqb_refl.
  rewrite read_quoted, app_nil_r. cbn [Csv.read]. rewrite rev_involutive. reflexivity.
- intros deposit modalInfo page.
  exists {| ScriptDemo.Details.index := ScriptDemo.index deposit;
            ScriptDemo.Details.listInfo := Some (ScriptDemo.listInfoOf deposit);
            ScriptDemo.Details.modalInfo := Some modalInfo;
            ScriptDemo.Details.error := None;
            ScriptDemo.Details.timestamp := Some ScriptDemo.CONFIG.TIMESTAMPS_current;
            ScriptDemo.Details.extractedBy := Some ScriptDemo.CONFIG.USER |}.
  split; [reflexivity|].
  rewrite W. cbn [option_map map ScriptDemo.formatForExport].
  change (nth 9 exportSchema []) with (js "note").
  change (nth 9 (map (fun kv : jsstring * jsvalue => fieldText (snd kv))
                     (ScriptDemo.formatDeposit _)) [])
    with (orElse (Some (ScriptDemo.ModalInfo.note modalInfo)) []).
  rewrite orElse_same. reflexivity.
- reflexivity.
Qed.

(** With deposits on the page, an overlay that can be shown, a loop that
    is not left and a body to append the links and the alert to, the
    export goes through to the end. *)
Lemma exportAllDepositData_done (doc : Document) (overlay : ScriptDemo.Overlay)
    (pages : nat -> ScriptDemo.Page) (later : Document)
    (deposits : list ScriptDemo.Deposit) (depositDetails : list ScriptDemo.Details.t) :
  ScriptDemo.findAllDeposits doc = Returned deposits ->
  deposits <> [] ->
  ScriptDemo.showLoading doc overlay = Returned tt ->
  ScriptDemo.processDeposits deposits pages 0 [] = Returned depositDetails ->
  ScriptDemo.documentBody later <> None ->
  ScriptDemo.exportAllDepositData doc overlay pages later =
  Returned
    (ScriptDemo.ExportDone (List.length deposits)
       (ScriptDemo.generateFilename (js "csv")) (ScriptDemo.generateFilename (js "json"))
       (ScriptDemo.formatForExport depositDetails)
       (ScriptDemo.toCSV (ScriptDemo.formatForExport depositDetails))).
Proof.
intros Hfound Hne Hshow Hloop Hbody. unfold ScriptDemo.exportAllDepositData.
rewrite Hfound. cbn [bind].
destruct deposits as [|d rest]; [congruence|].
rewrite Hshow. cbn [bind]. rewrite Hloop. cbn [bind].
unfold ScriptDemo.downloadFile, ScriptDemo.showAlert.
destruct (ScriptDemo.documentBody later); [reflexivity | congruence].
Qed.

(** C3 as it is worded asks for a non-empty [errorMessage] on the row of
    the record whose detail read throws. On [Sample.three], when the
    detail read of the second record throws an [Error] whose message is
    empty, the loop still pushes three rows and the export succeeds, and
    the second row's [errorMessage] is as empty as the others'. *)
Lemma empty_message_counterexample :
  ScriptDemo.modalDetails (Sample.secondFails (ErrorObject []) 1) = Thrown (ErrorObject []) /\
  exists deposits depositDetails,
    ScriptDemo.findAllDeposits Sample.three = Returned deposits /\
    List.length deposits = 3%nat /\
    ScriptDemo.processDeposits deposits (Sample.secondFails (ErrorObject [])) 0 []
      = Returned depositDetails /\
    map (fun row => property row (js "errorMessage"))
        (ScriptDemo.formatForExport depositDetails)
      = [VString []; VString []; VString []] /\
    ScriptDemo.exportAllDepositData Sample.three ScriptDemo.NotCreated
      (Sample.secondFails (ErrorObject [])) Sample.three
      = Returned (ScriptDemo.ExportDone 3
                    (ScriptDemo.generateFilename (js "csv"))
                    (ScriptDemo.generateFilename (js "json"))
                    (ScriptDemo.formatForExport depositDetails)
                    (ScriptDemo.toCSV (ScriptDemo.formatForExport depositDetails))).
Proof.
split; [reflexivity|].
eexists. eexists. split; [vm_compute; reflexivity|]. split; [reflexivity|].
split; [vm_compute; reflexivity|]. split; vm_compute; reflexivity.
Qed.

(** C3, amended: take the deposits found on a page, and let the detail
    read of record [k] throw [error] while every other step of every
    record returns. The loop is not left and pushes exactly one row per
    deposit, in order. The row of record [k] carries as [errorMessage] the
    message of the thrown [Error]: the empty string when that message is
    empty or when the thrown value has no message; and when [null] or
    [undefined] is thrown, the message of the [TypeError] that reading
    its message throws, which is not empty. Every other row carries the
    empty string. Once the overlay has been shown, and with a body in the
    document when the loop is over, the export succeeds with these rows. *)
Theorem failed_detail_read_keeps_batch :
  forall (doc : Document) (pages : nat -> ScriptDemo.Page)
         (deposits : list ScriptDemo.Deposit) (k : nat) (error : JSThrown),
    ScriptDemo.findAllDeposits doc = Returned deposits ->
    (k < List.length deposits)%nat ->
    (forall i, (i < List.length deposits)%nat ->
       ScriptDemo.click (pages i) = Returned tt /\
       exists closed, ScriptDemo.closeModal (pages i) = Returned closed) ->
    ScriptDemo.modalDetails (pages k) = Thrown error ->
    (forall i, (i < List.length deposits)%nat -> i <> k ->
       exists details, ScriptDemo.modalDetails (pages i) = Returned details) ->
    exists depositDetails,
      ScriptDemo.processDeposits deposits pages 0 [] = Returned depositDetails /\
      let rows := ScriptDemo.formatForExport depositDetails in
      List.length rows = List.length deposits /\
      (forall i deposit,
         nth_error deposits i = Some deposit ->
         exists row,
           nth_error rows i = Some row /\
           property row (js "index") = VNumber (ScriptDemo.index deposit) /\
           property row (js "errorMessage") =
             VString (if Nat.eqb i k then recordedMessage error else [])) /\
      (forall message, error = ErrorObject message -> message <> [] ->
         exists row,
           nth_error rows k = Some row /\
           property row (js "errorMessage") = VString message /\
           property row (js "errorMessage") <> VString []) /\
      (error = NullOrUndefined ->
         exists row,
           nth_error rows k = Some row /\
           property row (js "errorMessage") <> VString []) /\
      (forall (overlay : ScriptDemo.Overlay) (later : Document),
         ScriptDemo.showLoading doc overlay = Returned tt ->
         ScriptDemo.documentBody later <> None ->
         ScriptDemo.exportAllDepositData doc overlay pages later =
         Returned (ScriptDemo.ExportDone (List.length deposits)
                     (ScriptDemo.generateFilename (js "csv"))
                     (ScriptDemo.generateFilename (js "json"))
                     rows (ScriptDemo.toCSV rows))).
Proof.
intros doc pages deposits k error Hfound Hk Hcalm Hthrow Hothers.
destruct (processDeposits_one_each pages deposits 0 []) as (details & P & F).
{ intros j Hj. apply Hcalm. lia. }
cbn [app] in P.
destruct (Forall2_numbered
            (fun deposit i row =>
               match ScriptDemo.getDepositDetails deposit (pages i) with
               | Returned details => row = details
               | Thrown raised => ScriptDemo.partialDetails deposit raised = Returned row
               end) deposits 0 details F) as (L & N).
exists details. split; [exact P|]. intros rows.
assert (Row : forall i deposit,
          nth_error deposits i = Some deposit ->
          exists row,
            nth_error rows i = Some row /\
            property row (js "index") = VNumber (ScriptDemo.index deposit) /\
            property row (js "errorMessage") =
              VString (if Nat.eqb i k then recordedMessage error else [])).
{ intros i deposit Hi.
  assert (Hlt : (i < List.length deposits)%nat)
    by (apply nth_error_Some; rewrite Hi; discriminate).
  destruct (Hcalm i Hlt) as [Hclick _].
  destruct (N i deposit Hi) as (d & Hd & HP). cbn [Nat.add] in HP.
  exists (ScriptDemo.formatDeposit d). split.
  { unfold rows, ScriptDemo.formatForExport. rewrite nth_error_map, Hd. reflexivity. }
  change (property (ScriptDemo.formatDeposit d) (js "index"))
    with (VNumber (ScriptDemo.Details.index d)).
  change (property (ScriptDemo.formatDeposit d) (js "errorMessage"))
    with (VString (orElse (ScriptDemo.Details.error d) [])).
  unfold ScriptDemo.getDepositDetails in HP. rewrite Hclick in HP. cbn [bind] in HP.
  destruct (Nat.eqb i k) eqn:E.
  - apply Nat.eqb_eq in E. subst i. rewrite Hthrow in HP.
    destruct error as [message| |]; cbn in HP.
    + subst d. split; [reflexivity|]. cbn [ScriptDemo.Details.error recordedMessage].
      destruct message; reflexivity.
    + subst d. split; reflexivity.
    + injection HP as <-. split; reflexivity.
  - apply Nat.eqb_neq in E. destruct (Hothers i Hlt E) as (m & Hm).
    rewrite Hm in HP. cbn in HP. subst d. split; reflexivity. }
assert (Hne : deposits <> []) by (destruct deposits; [simpl in Hk; lia | discriminate]).
split; [|split; [exact Row|split; [|split]]].
- unfold rows, ScriptDemo.formatForExport. rewrite length_map. exact L.
- intros message -> Hmessage.
  destruct (nth_error deposits k) as [deposit|] eqn:Hd;
    [|apply nth_error_None in Hd; lia].
  destruct (Row k deposit Hd) as (row & Hrow & _ & Hmsg).
  rewrite Nat.eqb_refl in Hmsg. cbn [recordedMessage] in Hmsg.
  exists row. split; [assumption|]. split; [assumption|].
  rewrite Hmsg. intros [= H]. contradiction.
- intros ->.
  destruct (nth_error deposits k) as [deposit|] eqn:Hd;
    [|apply nth_error_None in Hd; lia].
  destruct (Row k deposit Hd) as (row & Hrow & _ & Hmsg).
  rewrite Nat.eqb_refl in Hmsg.
  exists row. split; [assumption|]. rewrite Hmsg. discriminate.
- intros overlay later Hshow Hbody.
  exact (exportAllDepositData_done doc overlay pages later deposits details
           Hfound Hne Hshow P Hbody).
Qed.

(** The theorem on [Sample.three], when the detail read of the second
    record throws an [Error] with the message "boom". *)
Lemma failed_detail_read_witness :
  exists deposits,
    ScriptDemo.findAllDeposits Sample.three = Returned deposits /\
    List.length deposits = 3%nat /\
    ScriptDemo.modalDetails (Sample.secondFails (ErrorObject (js "boom")) 1)
      = Thrown (ErrorObject (js "boom")) /\
    exists depositDetails,
      ScriptDemo.processDeposits deposits (Sample.secondFails (ErrorObject (js "boom"))) 0 []
        = Returned depositDetails /\
      List.length (ScriptDemo.formatForExport depositDetails) = 3%nat /\
      exists row,
        nth_error (ScriptDemo.formatForExport depositDetails) 1 = Some row /\
        property row (js "errorMessage") = VString (js "boom").
Proof.
destruct (ScriptDemo.findAllDeposits Sample.three) as [deposits|e] eqn:F;
  [|vm_compute in F; discriminate F].
assert (L : List.length deposits = 3%nat)
  by (vm_compute in F; injection F as <-; reflexivity).
exists deposits. split; [reflexivity|]. split; [exact L|]. split; [reflexivity|].
destruct (failed_detail_read_keeps_batch Sample.three
            (Sample.secondFails (ErrorObject (js "boom"))) deposits 1
            (ErrorObject (js "boom")) F)
  as (depositDetails & E & Hlen & _ & Hmsg & _).
- lia.
- intros i Hi. destruct i as [|[|i]]; split; try reflexivity; eexists; reflexivity.
- reflexivity.
- intros i Hi Hne. destruct i as [|[|i]]; [eexists; reflexivity | congruence | eexists; reflexivity].
- exists depositDetails.
  rewrite L in Hlen. split; [exact E|]. split; [exact Hlen|].
  destruct (Hmsg (js "boom") eq_refl) as (row & Hrow & Hm & _); [discriminate|].
  exists row. split; assumption.
Defined.

(** The same batch when the detail read of the second record throws
    [null]: [getDepositDetails] is rejected by its own [catch], the
    loop's [catch] records the [TypeError], and the export still has its
    three rows. *)
Example thrown_null_detail_read :
  (forall deposit : ScriptDemo.Deposit,
     ScriptDemo.getDepositDetails deposit (Sample.failingRead NullOrUndefined)
     = Thrown typeError) /\
  exists deposits depositDetails,
    ScriptDemo.findAllDeposits Sample.three = Returned deposits /\
    ScriptDemo.processDeposits deposits (Sample.secondFails NullOrUndefined) 0 []
      = Returned depositDetails /\
    map (fun row => property row (js "errorMessage"))
        (ScriptDemo.formatForExport depositDetails)
      = [VString []; VString typeErrorMessage; VString []].
Proof.
split; [intros deposit; reflexivity|].
eexists. eexists. split; [vm_compute; reflexivity|].
split; vm_compute; reflexivity.
Qed.

(* ================================================================== *)
(** * Further properties of the two scripts *)
(* ================================================================== *)

(** ** Trimming and searching in strings *)

Module TextFacts.
Import PatternFacts.

Lemma dropWhile_head (p : N -> bool) (s : jsstring) :
  match dropWhile p s with
  | [] => True
  | c :: _ => p c = false
  end.
Proof.
  induction s as [|c s IH]; simpl; [exact I|].
  destruct (p c) eqn:E; [exact IH | exact E].
Qed.

Lemma dropWhile_fixed (p : N -> bool) (s : jsstring) :
  match s with [] => True | c :: _ => p c = false end -> dropWhile p s = s.
Proof. destruct s as [|c s]; simpl; intros H; [reflexivity | rewrite H; reflexivity]. Qed.

Lemma dropWhile_keeps (p : N -> bool) (c : N) (rest : jsstring) :
  p c = false ->
  forall a, exists a2, dropWhile p (a ++ c :: rest) = a2 ++ c :: rest.
Proof.
  intros H a. induction a as [|x a IH]; simpl.
  - exists []. rewrite H. reflexivity.
  - destruct (p x); [exact IH | exists (x :: a); reflexivity].
Qed.

Lemma forallb_rev (p : N -> bool) (w : jsstring) :
  forallb p w = true -> forallb p (rev w) = true.
Proof.
  intros H. apply forallb_forall. intros x Hx. apply in_rev in Hx.
  rewrite forallb_forall in H. apply H. exact Hx.
Qed.

Lemma trimEnd_split (s : jsstring) :
  exists w, s = trimEnd s ++ w /\ forallb isWhiteSpace w = true.
Proof.
  unfold trimEnd. destruct (dropWhile_split isWhiteSpace (rev s)) as [w [E W]].
  exists (rev w). split; [|apply forallb_rev; exact W].
  rewrite <- rev_app_distr, <- E, rev_involutive. reflexivity.
Qed.

(** What [trim] removes is white space on both sides. *)
Lemma trim_split (s : jsstring) :
  exists a b, s = a ++ trim s ++ b /\
              forallb isWhiteSpace a = true /\ forallb isWhiteSpace b = true.
Proof.
  unfold trim, trimStart.
  destruct (dropWhile_split isWhiteSpace s) as [a [Ea Wa]].
  destruct (trimEnd_split (dropWhile isWhiteSpace s)) as [b [Eb Wb]].
  exists a, b. split; [|split; assumption].
  rewrite <- Eb. exact Ea.
Qed.

Lemma rev_last (s : jsstring) (c : N) :
  s <> [] -> rev s = last s c :: rev (removelast s).
Proof.
  intros H. rewrite (app_removelast_last c H) at 1.
  rewrite rev_app_distr. reflexivity.
Qed.

(** A trimmed text is empty or has no white space at either end. *)
Lemma trim_noOuterSpace (s : jsstring) : noOuterSpace (trim s) = true.
Proof.
  unfold noOuterSpace. destruct (trim s) as [|c t] eqn:E; [reflexivity|].
  apply andb_true_iff. split; apply negb_true_iff.
  - (* the first character is the first one [trimStart] keeps *)
    unfold trim in E.
    destruct (trimEnd_split (trimStart s)) as [w [Ew _]].
    rewrite E in Ew. unfold trimStart in Ew.
    pose proof (dropWhile_head isWhiteSpace s) as H.
    rewrite Ew in H. exact H.
  - (* the last character is the first one [trimEnd] keeps, from the end *)
    unfold trim, trimEnd in E.
    pose proof (dropWhile_head isWhiteSpace (rev (trimStart s))) as H.
    destruct (dropWhile isWhiteSpace (rev (trimStart s))) as [|d z] eqn:Z;
      [discriminate E|].
    simpl in E. rewrite <- E. rewrite last_last. exact H.
Qed.

Lemma noOuterSpace_trim (s : jsstring) : noOuterSpace s = true -> trim s = s.
Proof.
  destruct s as [|c t]; [reflexivity|].
  unfold noOuterSpace. intros H. apply andb_true_iff in H. destruct H as [H1 H2].
  apply negb_true_iff in H1. apply negb_true_iff in H2.
  unfold trim, trimStart.
  rewrite (dropWhile_fixed isWhiteSpace (c :: t) H1).
  unfold trimEnd.
  assert (R : rev (c :: t) = last (c :: t) c :: rev (removelast (c :: t)))
    by (apply rev_last; discriminate).
  rewrite dropWhile_fixed; [apply rev_involutive|].
  rewrite R. exact H2.
Qed.

Lemma trim_idempotent (s : jsstring) : trim (trim s) = trim s.
Proof. apply noOuterSpace_trim. apply trim_noOuterSpace. Qed.

Lemma includes_unfold (s t : jsstring) :
  includes s t = startsWith s t ||
                 match s with
                 | [] => false
                 | _ :: s' => includes s' t
                 end.
Proof. destruct s; reflexivity. Qed.

Lemma startsWith_app (t b : jsstring) : startsWith (t ++ b) t = true.
Proof.
  induction t as [|y t IH]; simpl; [destruct b; reflexivity|].
  rewrite N.eqb_refl. exact IH.
Qed.

Lemma startsWith_split (t : jsstring) :
  forall s, startsWith s t = true -> exists b, s = t ++ b.
Proof.
  induction t as [|y t IH]; intros s H.
  - exists s. reflexivity.
  - destruct s as [|x s]; simpl in H; [discriminate|].
    apply andb_true_iff in H. destruct H as [E H].
    apply N.eqb_eq in E. subst y.
    destruct (IH s H) as [b ->]. exists b. reflexivity.
Qed.

Lemma includes_app (a t b : jsstring) : includes (a ++ t ++ b) t = true.
Proof.
  induction a as [|x a IH].
  - simpl app. rewrite includes_unfold, startsWith_app. reflexivity.
  - simpl app. rewrite includes_unfold. cbv beta iota. rewrite IH.
    apply orb_true_r.
Qed.

(** [s.includes(t)] holds exactly when [t] occurs in [s]. *)
Lemma includes_iff (s t : jsstring) :
  includes s t = true <-> exists a b, s = a ++ t ++ b.
Proof.
  split.
  - induction s as [|x s IH]; intros H; rewrite includes_unfold in H;
      apply orb_true_iff in H; destruct H as [H|H].
    + destruct (startsWith_split t _ H) as [b E]. exists [], b. exact E.
    + discriminate.
    + destruct (startsWith_split t _ H) as [b E]. exists [], b. exact E.
    + destruct (IH H) as [a [b E]]. exists (x :: a), b. rewrite E. reflexivity.
  - intros [a [b ->]]. apply includes_app.
Qed.

(** Trimming does not remove an occurrence of a text that has no white
    space at its ends. *)
Lemma includes_trim (s t : jsstring) :
  t <> [] -> noOuterSpace t = true -> includes s t = true ->
  includes (trim s) t = true.
Proof.
  intros Hne Hout Hin.
  apply includes_iff in Hin. destruct Hin as [a [b ->]].
  destruct t as [|c t']; [congruence|].
  unfold noOuterSpace in Hout. apply andb_true_iff in Hout. destruct Hout as [H1 H2].
  apply negb_true_iff in H1. apply negb_true_iff in H2.
  unfold trim, trimStart.
  destruct (dropWhile_keeps isWhiteSpace c (t' ++ b) H1 a) as [a2 Ea].
  simpl app in Ea |- *. rewrite Ea.
  unfold trimEnd.
  assert (R : rev (a2 ++ c :: t' ++ b) =
              rev b ++ last (c :: t') c :: (rev (removelast (c :: t')) ++ rev a2)).
  { change (a2 ++ c :: t' ++ b) with (a2 ++ (c :: t') ++ b).
    rewrite !rev_app_distr. rewrite (rev_last (c :: t') c) by discriminate.
    rewrite <- app_assoc. reflexivity. }
  rewrite R.
  destruct (dropWhile_keeps isWhiteSpace (last (c :: t') c)
              (rev (removelast (c :: t')) ++ rev a2) H2 (rev b)) as [b2 Eb].
  rewrite Eb. rewrite rev_app_distr.
  assert (K : rev (last (c :: t') c :: rev (removelast (c :: t')) ++ rev a2)
              = a2 ++ (c :: t')).
  { change (last (c :: t') c :: rev (removelast (c :: t')) ++ rev a2)
      with ((last (c :: t') c :: rev (removelast (c :: t'))) ++ rev a2).
    rewrite <- (rev_last (c :: t') c) by discriminate.
    rewrite <- rev_app_distr. apply rev_involutive. }
  rewrite K. rewrite <- app_assoc. apply includes_app.
Qed.

(** A text whose trimmed form is [label] holds [label]; so does every
    text around it, also after trimming. *)
Lemma label_survives (inner outer label pre post : jsstring) :
  trim inner = label -> label <> [] ->
  outer = pre ++ inner ++ post ->
  includes outer label = true /\ includes (trim outer) label = true.
Proof.
  intros E Hne ->.
  destruct (trim_split inner) as [a [b [Ei _]]]. rewrite E in Ei.
  assert (H : includes (pre ++ inner ++ post) label = true).
  { apply includes_iff. exists (pre ++ a), (b ++ post).
    rewrite Ei. rewrite <- !app_assoc. reflexivity. }
  split; [exact H|].
  apply includes_trim; [exact Hne | | exact H].
  rewrite <- E. apply trim_noOuterSpace.
Qed.

End TextFacts.

(** ** The text of an element holds the text of what is below it *)

Module TreeFacts.
Import DomFacts.

Lemma textIn_refl (e : Elem) : textIn e e.
Proof. exists [], []. rewrite app_nil_r. reflexivity. Qed.

Lemma textIn_trans (a b c : Elem) : textIn a b -> textIn b c -> textIn a c.
Proof.
  intros [p1 [q1 E1]] [p2 [q2 E2]]. exists (p2 ++ p1), (q1 ++ q2).
  rewrite E2, E1. rewrite <- !app_assoc. reflexivity.
Qed.

Lemma descendantText_element (name : jsstring) (attrs : list (jsstring * jsstring))
    (cs : list Node) :
  descendantText (Element name attrs cs) = flat_map descendantText cs.
Proof.
  simpl. induction cs as [|c cs IH]; [reflexivity|].
  simpl. rewrite IH. reflexivity.
Qed.

Lemma elementsBelow_text (r : ref) (e : Elem) (cs : list Node) :
  Forall (fun n => forall r e, In e (subtree r n) ->
            exists pre post, descendantText n = pre ++ textContent e ++ post) cs ->
  forall i, In e (elementsBelow r i cs) ->
  exists pre post, flat_map descendantText cs = pre ++ textContent e ++ post.
Proof.
  induction 1 as [|c cs Hc _ IH]; intros i H; simpl in H; [contradiction|].
  apply in_app_or in H. destruct H as [H|H].
  - destruct (Hc _ _ H) as [pre [post E]].
    exists pre, (post ++ flat_map descendantText cs).
    simpl. rewrite E. rewrite <- !app_assoc. reflexivity.
  - destruct (IH _ H) as [pre [post E]].
    exists (descendantText c ++ pre), post.
    simpl. rewrite E. rewrite <- !app_assoc. reflexivity.
Qed.

Lemma subtree_text (n : Node) :
  forall r e, In e (subtree r n) ->
  exists pre post, descendantText n = pre ++ textContent e ++ post.
Proof.
  induction n as [d|d|name attrs cs IH] using Node_induction; intros r e H.
  - contradiction.
  - contradiction.
  - rewrite subtree_element in H. destruct H as [<-|H].
    + exists [], []. rewrite app_nil_r. reflexivity.
    + rewrite descendantText_element. exact (elementsBelow_text r e cs IH 0%nat H).
Qed.

(** [root.textContent] holds the [textContent] of every element below
    [root]. *)
Lemma descendant_textIn (doc : Document) (root e : Elem) :
  In e (descendantElements doc (ElementRoot root)) -> textIn e root.
Proof.
  unfold descendantElements, textIn, textContent.
  destruct (e_node root) as [d|d|name attrs cs]; simpl childNodes; intros H;
    try contradiction.
  rewrite descendantText_element.
  apply (elementsBelow_text (e_ref root) e cs) with (i := 0%nat); [|exact H].
  apply Forall_forall. intros n _. apply subtree_text.
Qed.

Lemma child_below (r : ref) (m : Node) (cs : list Node) :
  isElementNode m = true ->
  forall i k, nth_error cs i = Some m ->
  In (mkElem ((k + i)%nat :: r) m) (elementsBelow r k cs).
Proof.
  intros Hm. induction cs as [|c cs IH]; intros i k H.
  - destruct i; discriminate.
  - destruct i as [|i]; simpl in H |- *; apply in_or_app.
    + injection H as ->. left. rewrite Nat.add_0_r.
      destruct m; try discriminate. rewrite subtree_element. left. reflexivity.
    + right. replace (k + S i)%nat with (S k + i)%nat by lia. apply IH. exact H.
Qed.

(** An element of the document lies below its [parentElement]. *)
Lemma parentElement_below (doc : Document) (e parent : Elem) :
  attached doc e -> parentElement doc e = Some parent ->
  In e (descendantElements doc (ElementRoot parent)).
Proof.
  intros [Hn He] H. unfold parentElement in H.
  destruct e as [r m]. simpl in *.
  destruct r as [|i [|j grand]]; try discriminate.
  destruct (nodeAt doc (j :: grand)) as [n|] eqn:P; [|discriminate].
  destruct n as [d|d|name attrs cs]; try discriminate.
  injection H as <-. unfold descendantElements. simpl e_ref. simpl e_node.
  simpl childNodes.
  assert (C : childNodesAt doc (j :: grand) = cs).
  { rewrite (childNodesAt_cons doc j grand _ P). reflexivity. }
  unfold nodeAt in Hn. rewrite C in Hn.
  exact (child_below (j :: grand) m cs He i 0%nat Hn).
Qed.

Lemma ancestor_textIn (doc : Document) (n : nat) :
  forall e a, attached doc e -> ancestor doc e n = Some a -> textIn e a.
Proof.
  induction n as [|n IH]; intros e a He H; simpl in H.
  - injection H as <-. apply textIn_refl.
  - destruct (parentElement doc e) as [parent|] eqn:P; [|discriminate].
    apply (textIn_trans e parent a).
    + apply (descendant_textIn doc). apply parentElement_below; assumption.
    + apply IH; [|exact H]. exact (BatchFacts.parentElement_attached doc e parent P).
Qed.

(** An element reading [label] makes every element around it contain
    [label]. *)
Lemma label_reaches (inner outer : Elem) (label : jsstring) :
  label <> [] -> Fields.hasText label inner = true -> textIn inner outer ->
  DOMUtils.elementContainsText outer label = true /\
  includes (textContent outer) label = true.
Proof.
  intros Hne H [pre [post E]]. unfold Fields.hasText in H. apply str_eqb_eq in H.
  destruct (TextFacts.label_survives _ _ _ _ _ H Hne E) as [H1 H2].
  split; assumption.
Qed.

End TreeFacts.

(** ** The records of both scripts, field by field *)

Module ShapeFacts.
Import DomFacts FieldFacts RecordFacts PatternFacts.

Lemma existsb_find_none {A : Type} (f : A -> bool) (l : list A) :
  existsb f l = false -> find f l = None.
Proof.
  induction l as [|x l IH]; simpl; [reflexivity|].
  destruct (f x); [discriminate | exact IH].
Qed.

Lemma find_existsb {A : Type} (f : A -> bool) (l : list A) (x : A) :
  find f l = Some x -> existsb f l = true.
Proof.
  intros H. apply find_some in H. apply existsb_exists. exists x. exact H.
Qed.

(** The return detection of return-detector.js reads the status as
    [labelStatus] does and compares it with "Invoiced". *)
Lemma returnDetection_labelStatus (doc : Document) (paragraphs : list Elem) :
  ReturnDetector.returnDetection doc paragraphs =
  Returned (str_eqb (Fields.labelStatus doc paragraphs (js "Return")) (js "Invoiced"),
            Fields.labelStatus doc paragraphs (js "Return")).
Proof.
  unfold ReturnDetector.returnDetection, Fields.labelStatus.
  destruct (find (Fields.hasText (js "Return")) paragraphs) as [rp|]; [|reflexivity].
  destruct (parentElement doc rp) as [parent|]; [|reflexivity].
  unfold DOMUtils.querySelector, nativeQuerySelector. simpl Selector.valid.
  cbv iota. cbn [bind].
  destruct (find _ _) as [small|]; [|reflexivity].
  destruct (str_eqb (trim (textContent small)) (js "Invoiced")); [reflexivity|].
  destruct (str_eqb (trim (textContent small)) (js "Pending invoice")); reflexivity.
Qed.

(** The record of return-detector.js, written out. *)
Lemma ReturnDetector_record (toLowerCase : jsstring -> jsstring)
    (serialize : Elem -> jsstring) (doc : Document) (container : Elem) (index : Z) :
  attached doc container ->
  exists currency0 amount0 path,
    Fields.standaloneCurrency (CURRENCY_SYMBOLS ReturnDetector.CONFIG)
      (paragraphsOf doc container) [] [] = Returned (currency0, amount0) /\
    ReturnDetector.getXPath toLowerCase doc (e_ref container) = Returned (Some path) /\
    ReturnDetector.extractDepositInfo toLowerCase serialize doc container index =
    Returned {|
      ReturnDetector.index := index;
      ReturnDetector.type := js "Deposit";
      ReturnDetector.amount :=
        snd (Fields.combinedFormat (paragraphsOf doc container) currency0 amount0);
      ReturnDetector.currency :=
        fst (Fields.combinedFormat (paragraphsOf doc container) currency0 amount0);
      ReturnDetector.depositStatus :=
        Fields.labelStatus doc (paragraphsOf doc container) (js "Deposit");
      ReturnDetector.hasBeenReturned :=
        str_eqb (Fields.labelStatus doc (paragraphsOf doc container) (js "Return"))
                (js "Invoiced");
      ReturnDetector.returnStatus :=
        Fields.labelStatus doc (paragraphsOf doc container) (js "Return");
      ReturnDetector.xpath := Some path;
      ReturnDetector.outerHTML := firstn 500 (serialize container)
    |}.
Proof.
  intros [Hat _]. unfold ReturnDetector.extractDepositInfo.
  fold (paragraphsOf doc container).
  destruct (standaloneCurrency_returns (CURRENCY_SYMBOLS ReturnDetector.CONFIG)
              (paragraphsOf doc container) [] []) as (c0 & a0 & S0).
  destruct (getXPath_returns toLowerCase doc (e_ref container)) as (xp & X0).
  { right. rewrite Hat. discriminate. }
  exists c0, a0, xp. split; [exact S0|]. split; [exact X0|].
  rewrite S0. cbn [bind fst snd].
  destruct (Fields.combinedFormat (paragraphsOf doc container) c0 a0) as [c a].
  rewrite returnDetection_labelStatus. cbn [bind fst snd]. rewrite X0. reflexivity.
Qed.

(** The record of script-demo.js, written out. *)
Lemma ScriptDemo_record (doc : Document) (container : Elem) (index : Z) :
  exists currency0 amount0,
    Fields.standaloneCurrency (CURRENCY_SYMBOLS ScriptDemo.CONFIG.DEPOSITS)
      (paragraphsOf doc container) [] [] = Returned (currency0, amount0) /\
    ScriptDemo.extractDepositInfo doc container index =
    Returned {|
      ScriptDemo.index := index;
      ScriptDemo.type := js "Deposit";
      ScriptDemo.amount :=
        snd (Fields.combinedFormat (paragraphsOf doc container) currency0 amount0);
      ScriptDemo.currency :=
        fst (Fields.combinedFormat (paragraphsOf doc container) currency0 amount0);
      ScriptDemo.depositStatus :=
        Fields.labelStatus doc (paragraphsOf doc container) (js "Deposit");
      ScriptDemo.hasBeenReturned :=
        existsb (Fields.hasText (js "Return")) (paragraphsOf doc container) ||
        DOMUtils.elementContainsText container (js "Return");
      ScriptDemo.returnStatus :=
        (if existsb (Fields.hasText (js "Return")) (paragraphsOf doc container) ||
            DOMUtils.elementContainsText container (js "Return")
         then Fields.labelStatus doc (paragraphsOf doc container) (js "Return")
         else []);
      ScriptDemo.element := container
    |}.
Proof.
  unfold ScriptDemo.extractDepositInfo. fold (paragraphsOf doc container).
  destruct (standaloneCurrency_returns (CURRENCY_SYMBOLS ScriptDemo.CONFIG.DEPOSITS)
              (paragraphsOf doc container) [] []) as (c0 & a0 & S0).
  exists c0, a0. split; [exact S0|].
  rewrite S0. cbn [bind fst snd].
  destruct (Fields.combinedFormat (paragraphsOf doc container) c0 a0) as [c a].
  reflexivity.
Qed.

(** A paragraph that reads "Return" makes the text of the container
    contain "Return". *)
Lemma return_paragraph_in_text (doc : Document) (container : Elem) :
  existsb (Fields.hasText (js "Return")) (paragraphsOf doc container) = true ->
  DOMUtils.elementContainsText container (js "Return") = true.
Proof.
  intros H. apply existsb_exists in H. destruct H as [p [Hin Hp]].
  apply (TreeFacts.label_reaches p container (js "Return")); [discriminate | exact Hp |].
  apply (TreeFacts.descendant_textIn doc).
  exact (querySelectorAll_subset doc sel_p (ElementRoot container) p Hin).
Qed.

(** The status that script-demo.js stores is the one [labelStatus] reads,
    whatever the flag: without a "Return" paragraph there is none. *)
Lemma ScriptDemo_returnStatus (doc : Document) (paragraphs : list Elem) (flag : bool) :
  (existsb (Fields.hasText (js "Return")) paragraphs = true -> flag = true) ->
  (if flag then Fields.labelStatus doc paragraphs (js "Return") else []) =
  Fields.labelStatus doc paragraphs (js "Return").
Proof.
  intros H. destruct flag; [reflexivity|].
  unfold Fields.labelStatus.
  destruct (find (Fields.hasText (js "Return")) paragraphs) as [p|] eqn:F; [|reflexivity].
  apply find_existsb in F. apply H in F. discriminate.
Qed.

(** What the loop over the currency symbols can return. *)
Lemma standaloneCurrency_shape (paragraphs : list Elem) (symbols : list jsstring) :
  forall currency amount currency' amount',
    Fields.standaloneCurrency symbols paragraphs currency amount
      = Returned (currency', amount') ->
    (currency' = currency \/ In currency' symbols) /\
    (amount' = amount \/
     exists next, In next paragraphs /\ amountLike next = true /\
                  amount' = trim (textContent next)).
Proof.
  induction symbols as [|symbol rest IH]; intros c a c' a' H.
  - simpl in H. injection H as <- <-. auto.
  - assert (K : Fields.standaloneCurrency rest paragraphs symbol a = Returned (c', a') ->
                (c' = c \/ In c' (symbol :: rest)) /\
                (a' = a \/
                 exists next, In next paragraphs /\ amountLike next = true /\
                              a' = trim (textContent next))).
    { intros R. destruct (IH _ _ _ _ R) as [[->|Hc] Ha]; split; auto.
      - right. left. reflexivity.
      - right. right. exact Hc. }
    cbn [Fields.standaloneCurrency] in H.
    destruct (find (Fields.hasText symbol) paragraphs) as [cp|].
    + match type of H with
      | (if ?g then _ else _) = _ => destruct g
      end; [|exact (K H)].
      destruct (nth_error paragraphs (Z.to_nat (Fields.indexOf paragraphs cp + 1)))
        as [next|] eqn:Nx; simpl deref in H; cbn [bind] in H; [|discriminate].
      destruct (Regex.testAnywhere Patterns.amountChars (trim (textContent next))) eqn:T;
        [|exact (K H)].
      injection H as <- <-. split; [right; left; reflexivity|].
      right. exists next. split; [exact (nth_error_In _ _ Nx)|]. split; [exact T | reflexivity].
    + destruct (IH _ _ _ _ H) as [[->|Hc] Ha]; split; auto.
      right. right. exact Hc.
Qed.

(** What the search for a combined format can return. *)
Lemma combinedFormat_shape (paragraphs : list Elem) (currency amount : jsstring) :
  Fields.combinedFormat paragraphs currency amount = (currency, amount) \/
  (amount = [] /\
   exists p symbol digits,
     In p paragraphs /\ splitsAs (trim (textContent p)) symbol digits /\
     Fields.combinedFormat paragraphs currency amount = (symbol, digits)).
Proof.
  destruct amount as [|c a]; [|left; reflexivity].
  destruct (find combinedLike paragraphs) as [p|] eqn:F.
  - right. split; [reflexivity|].
    pose proof (find_some _ _ F) as [Hin Hp].
    apply find_firstWhere in F.
    destruct (proj1 (Matches_combinedAmount (trim (textContent p)))) as (symbol & digits & S).
    { apply RegexFacts.matches_Matches. exact Hp. }
    exists p, symbol, digits. split; [exact Hin|]. split; [exact S|].
    exact (combinedFormat_split paragraphs currency p symbol digits F S).
  - left. apply combinedFormat_none. apply find_none. exact F.
Qed.

Lemma last_In (s : jsstring) (c : N) : s <> [] -> In (last s c) s.
Proof.
  intros H. rewrite (app_removelast_last c H) at 2.
  apply in_or_app. right. left. reflexivity.
Qed.

Lemma amount_text_noOuterSpace (digits : jsstring) :
  forallb Patterns.isAmountChar digits = true -> noOuterSpace digits = true.
Proof.
  intros H. destruct digits as [|c t]; [reflexivity|].
  rewrite forallb_forall in H. unfold noOuterSpace.
  apply andb_true_iff. split; apply negb_true_iff; apply amount_not_space; apply H.
  - left. reflexivity.
  - apply last_In. discriminate.
Qed.

Lemma labelStatus_trimmed (doc : Document) (paragraphs : list Elem) (label : jsstring) :
  trim (Fields.labelStatus doc paragraphs label) = Fields.labelStatus doc paragraphs label.
Proof.
  unfold Fields.labelStatus.
  destruct (find _ _) as [lp|]; [|reflexivity].
  destruct (parentElement doc lp) as [parent|]; [|reflexivity].
  destruct (DOMUtils.querySelector _ _ _) as [small|]; [|reflexivity].
  apply TextFacts.trim_idempotent.
Qed.

(** The currency and amount blocks together, from the empty strings. *)
Lemma currency_amount_shape (paragraphs : list Elem) (currency0 amount0 : jsstring) :
  Fields.standaloneCurrency [[Char.euro]; [Char.dollar]; [Char.pound]] paragraphs [] []
    = Returned (currency0, amount0) ->
  let result := Fields.combinedFormat paragraphs currency0 amount0 in
  knownCurrency (fst result) /\
  (snd result = [] \/ existsb Patterns.isAmountChar (snd result) = true) /\
  trim (snd result) = snd result /\
  (snd result = [] \/
   exists p, In p paragraphs /\
     (snd result = trim (textContent p) \/
      exists symbol, splitsAs (trim (textContent p)) symbol (snd result))).
Proof.
  intros S0. cbv zeta.
  destruct (standaloneCurrency_shape _ _ _ _ _ _ S0) as [Hc Ha].
  assert (Kc : knownCurrency currency0).
  { unfold knownCurrency. destruct Hc as [->|Hc]; [auto|].
    simpl in Hc. destruct Hc as [<-|[<-|[<-|[]]]]; auto. }
  destruct (combinedFormat_shape paragraphs currency0 amount0)
    as [E|[E0 (p & symbol & digits & Hin & S & E)]]; rewrite E; cbn [fst snd].
  - split; [exact Kc|].
    destruct Ha as [->|(next & Hin & Hn & ->)].
    + split; [left; reflexivity|]. split; [reflexivity | left; reflexivity].
    + split; [right; apply amountChars_test; exact Hn|].
      split; [apply TextFacts.trim_idempotent|].
      right. exists next. split; [exact Hin | left; reflexivity].
  - destruct S as (space & Et & Hs & Hw & Hne & Hd).
    split.
    { unfold knownCurrency. destruct Hs as [->|(c & -> & Hcur)]; [auto|].
      destruct (currency_cases c Hcur) as [->|[->| ->]]; auto. }
    split.
    { right. destruct digits as [|d ds]; [congruence|].
      simpl in Hd |- *. apply andb_true_iff in Hd. destruct Hd as [-> _]. reflexivity. }
    split.
    { apply TextFacts.noOuterSpace_trim. apply amount_text_noOuterSpace. exact Hd. }
    right. exists p. split; [exact Hin|]. right. exists symbol.
    exists space. auto.
Qed.

(** Reading a field of a record that is written out. *)
Ltac project_out :=
  cbn [ReturnDetector.index ReturnDetector.type ReturnDetector.amount
       ReturnDetector.currency ReturnDetector.depositStatus
       ReturnDetector.hasBeenReturned ReturnDetector.returnStatus
       ReturnDetector.xpath ReturnDetector.outerHTML
       ScriptDemo.index ScriptDemo.type ScriptDemo.amount ScriptDemo.currency
       ScriptDemo.depositStatus ScriptDemo.hasBeenReturned ScriptDemo.returnStatus
       ScriptDemo.element].

End ShapeFacts.

(** X1. In return-detector.js the flag follows the status: for every
    element of the document taken as container, [extractDepositInfo]
    returns a record in which [hasBeenReturned] is [true] exactly when
    [returnStatus] is "Invoiced", and [returnStatus] is the trimmed text of
    the first [small] in the parent of the first paragraph reading
    "Return", or empty. *)
Theorem returned_only_when_invoiced :
  forall (toLowerCase : jsstring -> jsstring) (serialize : Elem -> jsstring)
         (doc : Document) (container : Elem) (index : Z),
    attached doc container ->
    exists d,
      ReturnDetector.extractDepositInfo toLowerCase serialize doc container index
        = Returned d /\
      (ReturnDetector.hasBeenReturned d = true <->
       ReturnDetector.returnStatus d = js "Invoiced") /\
      ReturnDetector.returnStatus d =
        Fields.labelStatus doc (paragraphsOf doc container) (js "Return").
Proof.
  intros toLowerCase serialize doc container index H.
  destruct (ShapeFacts.ReturnDetector_record toLowerCase serialize doc container index H)
    as (c0 & a0 & path & _ & _ & E).
  eexists. split; [exact E|]. ShapeFacts.project_out. split; [apply str_eqb_eq | reflexivity].
Qed.

Lemma returned_only_when_invoiced_witness :
  attached Sample.pendingReturn Sample.pendingReturnContainer /\
  exists d,
    ReturnDetector.extractDepositInfo (fun s => s) (fun _ => [])
      Sample.pendingReturn Sample.pendingReturnContainer 1 = Returned d /\
    (ReturnDetector.hasBeenReturned d = true <->
     ReturnDetector.returnStatus d = js "Invoiced") /\
    ReturnDetector.returnStatus d = js "Pending invoice".
Proof.
  assert (A : attached Sample.pendingReturn Sample.pendingReturnContainer)
    by (split; reflexivity).
  split; [exact A|].
  destruct (returned_only_when_invoiced (fun s => s) (fun _ => [])
              Sample.pendingReturn Sample.pendingReturnContainer 1 A)
    as (d & E & Hiff & Hs).
  exists d. split; [exact E|]. split; [exact Hiff|].
  rewrite Hs. vm_compute. reflexivity.
Defined.

(** X2. The two scripts differ in one field only. For every element of
    the document taken as container both [extractDepositInfo] functions
    return, and the two records have the same [index], [type], [amount],
    [currency], [depositStatus] and [returnStatus]; a record that
    return-detector.js marks as returned is marked as returned by
    script-demo.js as well. *)
Theorem scripts_agree_except_returned :
  forall (toLowerCase : jsstring -> jsstring) (serialize : Elem -> jsstring)
         (doc : Document) (container : Elem) (index : Z),
    attached doc container ->
    exists r s,
      ReturnDetector.extractDepositInfo toLowerCase serialize doc container index
        = Returned r /\
      ScriptDemo.extractDepositInfo doc container index = Returned s /\
      ReturnDetector.index r = ScriptDemo.index s /\
      ReturnDetector.type r = ScriptDemo.type s /\
      ReturnDetector.amount r = ScriptDemo.amount s /\
      ReturnDetector.currency r = ScriptDemo.currency s /\
      ReturnDetector.depositStatus r = ScriptDemo.depositStatus s /\
      ReturnDetector.returnStatus r = ScriptDemo.returnStatus s /\
      (ReturnDetector.hasBeenReturned r = true -> ScriptDemo.hasBeenReturned s = true).
Proof.
  intros toLowerCase serialize doc container index H.
  destruct (ShapeFacts.ReturnDetector_record toLowerCase serialize doc container index H)
    as (c0 & a0 & path & S0 & _ & Er).
  destruct (ShapeFacts.ScriptDemo_record doc container index) as (c1 & a1 & S1 & Es).
  change (CURRENCY_SYMBOLS ScriptDemo.CONFIG.DEPOSITS)
    with (CURRENCY_SYMBOLS ReturnDetector.CONFIG) in S1.
  rewrite S0 in S1. injection S1 as <- <-.
  eexists. eexists. split; [exact Er|]. split; [exact Es|]. ShapeFacts.project_out.
  repeat (split; [reflexivity|]).
  split.
  - symmetry. apply ShapeFacts.ScriptDemo_returnStatus. intros ->. reflexivity.
  - intros R. apply str_eqb_eq in R.
    unfold Fields.labelStatus in R.
    destruct (find (Fields.hasText (js "Return")) (paragraphsOf doc container)) as [p|] eqn:F;
      [|discriminate R].
    rewrite (ShapeFacts.find_existsb _ _ _ F). reflexivity.
Qed.

Lemma scripts_agree_except_returned_witness :
  attached Sample.pendingReturn Sample.pendingReturnContainer /\
  exists r s,
    ReturnDetector.extractDepositInfo (fun s => s) (fun _ => [])
      Sample.pendingReturn Sample.pendingReturnContainer 1 = Returned r /\
    ScriptDemo.extractDepositInfo Sample.pendingReturn Sample.pendingReturnContainer 1
      = Returned s /\
    ReturnDetector.amount r = ScriptDemo.amount s /\
    ReturnDetector.currency r = ScriptDemo.currency s /\
    ReturnDetector.returnStatus r = ScriptDemo.returnStatus s /\
    ReturnDetector.hasBeenReturned r = false /\
    ScriptDemo.hasBeenReturned s = true.
Proof.
  assert (A : attached Sample.pendingReturn Sample.pendingReturnContainer)
    by (split; reflexivity).
  split; [exact A|].
  destruct (scripts_agree_except_returned (fun s => s) (fun _ => [])
              Sample.pendingReturn Sample.pendingReturnContainer 1 A)
    as (r & s & Er & Es & _ & _ & Ha & Hc & _ & Hs & _).
  exists r, s. split; [exact Er|]. split; [exact Es|].
  split; [exact Ha|]. split; [exact Hc|]. split; [exact Hs|].
  vm_compute in Er. injection Er as <-. vm_compute in Es. injection Es as <-.
  split; reflexivity.
Defined.

(** X3. script-demo.js: the flag is a text search. The test for a
    paragraph that reads "Return" never decides: for every container,
    [hasBeenReturned] is [true] exactly when the trimmed text of the
    container contains "Return". *)
Theorem presence_flag_is_text_search :
  forall (doc : Document) (container : Elem) (index : Z),
    exists d,
      ScriptDemo.extractDepositInfo doc container index = Returned d /\
      ScriptDemo.hasBeenReturned d = DOMUtils.elementContainsText container (js "Return").
Proof.
  intros doc container index.
  destruct (ShapeFacts.ScriptDemo_record doc container index) as (c1 & a1 & _ & Es).
  eexists. split; [exact Es|]. ShapeFacts.project_out.
  destruct (existsb (Fields.hasText (js "Return")) (paragraphsOf doc container)) eqn:P;
    [|reflexivity].
  rewrite (ShapeFacts.return_paragraph_in_text doc container P). reflexivity.
Qed.

(** X4. The shape of the extracted amount and currency. For every element
    of the document taken as container, in both scripts, [currency] is
    the empty string or one of the three configured symbols, and [amount]
    is empty or holds at least one digit, comma or period: it is either
    the trimmed text of a paragraph of the container or the part of such a
    text that the second capture group of the combined pattern takes. *)
Theorem record_currency_and_amount_shape :
  forall (toLowerCase : jsstring -> jsstring) (serialize : Elem -> jsstring)
         (doc : Document) (container : Elem) (index : Z),
    attached doc container ->
    (exists d,
       ReturnDetector.extractDepositInfo toLowerCase serialize doc container index
         = Returned d /\
       knownCurrency (ReturnDetector.currency d) /\
       (ReturnDetector.amount d = [] \/
        existsb Patterns.isAmountChar (ReturnDetector.amount d) = true) /\
       (ReturnDetector.amount d = [] \/
        exists p, In p (paragraphsOf doc container) /\
          (ReturnDetector.amount d = trim (textContent p) \/
           exists symbol,
             splitsAs (trim (textContent p)) symbol (ReturnDetector.amount d)))) /\
    (exists d,
       ScriptDemo.extractDepositInfo doc container index = Returned d /\
       knownCurrency (ScriptDemo.currency d) /\
       (ScriptDemo.amount d = [] \/
        existsb Patterns.isAmountChar (ScriptDemo.amount d) = true) /\
       (ScriptDemo.amount d = [] \/
        exists p, In p (paragraphsOf doc container) /\
          (ScriptDemo.amount d = trim (textContent p) \/
           exists symbol,
             splitsAs (trim (textContent p)) symbol (ScriptDemo.amount d)))).
Proof.
  intros toLowerCase serialize doc container index H.
  destruct (ShapeFacts.ReturnDetector_record toLowerCase serialize doc container index H)
    as (c0 & a0 & path & S0 & _ & Er).
  destruct (ShapeFacts.ScriptDemo_record doc container index) as (c1 & a1 & S1 & Es).
  destruct (ShapeFacts.currency_amount_shape _ _ _ S0) as (K1 & K2 & _ & K4).
  destruct (ShapeFacts.currency_amount_shape _ _ _ S1) as (L1 & L2 & _ & L4).
  split; eexists; (split; [eassumption|]); ShapeFacts.project_out; auto.
Qed.

Lemma record_currency_and_amount_shape_witness :
  attached Sample.combined Sample.combinedFirst /\
  (exists d,
     ReturnDetector.extractDepositInfo (fun s => s) (fun _ => [])
       Sample.combined Sample.combinedFirst 1 = Returned d /\
     knownCurrency (ReturnDetector.currency d) /\
     (ReturnDetector.amount d = [] \/
      existsb Patterns.isAmountChar (ReturnDetector.amount d) = true)) /\
  (exists d,
     ScriptDemo.extractDepositInfo Sample.combined Sample.combinedFirst 1 = Returned d /\
     knownCurrency (ScriptDemo.currency d) /\
     (ScriptDemo.amount d = [] \/
      existsb Patterns.isAmountChar (ScriptDemo.amount d) = true)).
Proof.
  assert (A : attached Sample.combined Sample.combinedFirst) by (split; reflexivity).
  split; [exact A|].
  destruct (record_currency_and_amount_shape (fun s => s) (fun _ => [])
              Sample.combined Sample.combinedFirst 1 A)
    as [(r & Er & R1 & R2 & _) (s & Es & S1 & S2 & _)].
  split; [exists r | exists s]; auto.
Defined.

(** X5. The text fields carry no white space at their ends: for every
    element of the document taken as container, in both scripts,
    trimming [amount], [depositStatus] or [returnStatus] again changes
    nothing. *)
Theorem record_texts_are_trimmed :
  forall (toLowerCase : jsstring -> jsstring) (serialize : Elem -> jsstring)
         (doc : Document) (container : Elem) (index : Z),
    attached doc container ->
    (exists d,
       ReturnDetector.extractDepositInfo toLowerCase serialize doc container index
         = Returned d /\
       trim (ReturnDetector.amount d) = ReturnDetector.amount d /\
       trim (ReturnDetector.depositStatus d) = ReturnDetector.depositStatus d /\
       trim (ReturnDetector.returnStatus d) = ReturnDetector.returnStatus d) /\
    (exists d,
       ScriptDemo.extractDepositInfo doc container index = Returned d /\
       trim (ScriptDemo.amount d) = ScriptDemo.amount d /\
       trim (ScriptDemo.depositStatus d) = ScriptDemo.depositStatus d /\
       trim (ScriptDemo.returnStatus d) = ScriptDemo.returnStatus d).
Proof.
  intros toLowerCase serialize doc container index H.
  destruct (ShapeFacts.ReturnDetector_record toLowerCase serialize doc container index H)
    as (c0 & a0 & path & S0 & _ & Er).
  destruct (ShapeFacts.ScriptDemo_record doc container index) as (c1 & a1 & S1 & Es).
  destruct (ShapeFacts.currency_amount_shape _ _ _ S0) as (_ & _ & K3 & _).
  destruct (ShapeFacts.currency_amount_shape _ _ _ S1) as (_ & _ & L3 & _).
  split; eexists; (split; [eassumption|]); ShapeFacts.project_out.
  - split; [exact K3|]. split; apply ShapeFacts.labelStatus_trimmed.
  - split; [exact L3|]. split; [apply ShapeFacts.labelStatus_trimmed|].
    destruct (_ || _); [apply ShapeFacts.labelStatus_trimmed | reflexivity].
Qed.

Lemma record_texts_are_trimmed_witness :
  attached Sample.pendingReturn Sample.pendingReturnContainer /\
  (exists d,
     ReturnDetector.extractDepositInfo (fun s => s) (fun _ => [])
       Sample.pendingReturn Sample.pendingReturnContainer 1 = Returned d /\
     ReturnDetector.depositStatus d = js "Paid" /\
     trim (ReturnDetector.depositStatus d) = ReturnDetector.depositStatus d) /\
  (exists d,
     ScriptDemo.extractDepositInfo Sample.pendingReturn Sample.pendingReturnContainer 1
       = Returned d /\
     ScriptDemo.depositStatus d = js "Paid" /\
     trim (ScriptDemo.depositStatus d) = ScriptDemo.depositStatus d).
Proof.
  assert (A : attached Sample.pendingReturn Sample.pendingReturnContainer)
    by (split; reflexivity).
  split; [exact A|].
  destruct (record_texts_are_trimmed (fun s => s) (fun _ => [])
              Sample.pendingReturn Sample.pendingReturnContainer 1 A)
    as [(r & Er & _ & R2 & _) (s & Es & _ & S2 & _)].
  split; [exists r | exists s]; (split; [assumption|]); (split; [|assumption]).
  - vm_compute in Er. injection Er as <-. reflexivity.
  - vm_compute in Es. injection Es as <-. reflexivity.
Defined.

(** ** Container discovery in general *)

Module GenericFacts.
Import DomFacts DiscoveryFacts BatchFacts.

Lemma querySelectorAll_matches (doc : Document) (sel : Selector.selector) (root : Root)
    (e : Elem) :
  In e (DOMUtils.querySelectorAll doc sel root) ->
  Selector.matchesElement sel (e_node e) = true.
Proof.
  unfold DOMUtils.querySelectorAll, nativeQuerySelectorAll.
  destruct (Selector.valid sel); [|contradiction].
  intros H. apply filter_In in H. exact (proj2 H).
Qed.

Lemma depositTexts_attached (doc : Document) (text : jsstring) (t : Elem) :
  In t (DOMUtils.findElementsByText doc sel_p text DocumentRoot) ->
  attached doc t /\ Fields.hasText text t = true.
Proof.
  unfold DOMUtils.findElementsByText. intros H. apply filter_In in H as [H E].
  split; [|exact E].
  exact (querySelectorAll_attached doc sel_p DocumentRoot t I H).
Qed.

Section Collect.
Variable CONFIG : DepositSelectors.
Variable numberPattern : Regex.regex.
Variable doc : Document.

Let predicate := Discovery.containerPredicate CONFIG numberPattern.

Lemma collectContainers_keeps (depositTexts : list Elem) :
  forall containers c,
    In c containers ->
    In c (Discovery.collectContainers CONFIG numberPattern doc depositTexts containers).
Proof.
  induction depositTexts as [|t rest IH]; intros containers c H; simpl; [exact H|].
  destruct (DOMUtils.findAncestor doc t _ 8) as [a|]; [|apply IH; exact H].
  destruct (existsb (sameElem a) containers); apply IH; [exact H|].
  apply in_or_app. left. exact H.
Qed.

(** What [findAncestor] finds for a "Deposit" paragraph is collected. *)
Lemma collectContainers_complete (depositTexts : list Elem) :
  (forall t, In t depositTexts -> attached doc t) ->
  forall containers c,
    (forall x, In x containers -> attached doc x) ->
    (exists depositText,
       In depositText depositTexts /\
       DOMUtils.findAncestor doc depositText predicate 8 = Some c) ->
    In c (Discovery.collectContainers CONFIG numberPattern doc depositTexts containers).
Proof.
  induction depositTexts as [|t rest IH]; intros Ht containers c Hc (t' & Hin & Hf).
  - destruct Hin.
  - simpl. fold predicate.
    assert (Hrest : forall x, In x rest -> attached doc x)
      by (intros x Hx; apply Ht; right; exact Hx).
    destruct Hin as [<-|Hin].
    + rewrite Hf.
      assert (Ac : attached doc c).
      { apply (findAncestor_attached doc predicate 8 t c); [|exact Hf].
        apply Ht. left. reflexivity. }
      destruct (existsb (sameElem c) containers) eqn:Ex; apply collectContainers_keeps.
      * apply existsb_exists in Ex. destruct Ex as (x & Hx & Hs).
        rewrite (sameElem_attached doc c x Ac (Hc x Hx) Hs). exact Hx.
      * apply in_or_app. right. left. reflexivity.
    + destruct (DOMUtils.findAncestor doc t predicate 8) as [a|] eqn:Fa.
      * assert (Aa : attached doc a).
        { apply (findAncestor_attached doc predicate 8 t a); [|exact Fa].
          apply Ht. left. reflexivity. }
        destruct (existsb (sameElem a) containers); apply (IH Hrest).
        -- exact Hc.
        -- exists t'. split; assumption.
        -- intros x Hx. apply in_app_or in Hx as [Hx|[<-|[]]]; [apply Hc; exact Hx | exact Aa].
        -- exists t'. split; assumption.
      * apply (IH Hrest); [exact Hc|]. exists t'. split; assumption.
Qed.

End Collect.

Lemma mapIndexed_nth {A B : Type} (f : A -> Z -> outcome B) (items : list A) :
  forall i bs,
    mapIndexed f items i = Returned bs ->
    forall k b, nth_error bs k = Some b ->
    exists item, nth_error items k = Some item /\
                 f item (i + Z.of_nat k + 1)%Z = Returned b.
Proof.
  induction items as [|item rest IH]; intros i bs H k b Hk; simpl in H.
  - injection H as <-. destruct k; discriminate.
  - destruct (f item (i + 1)%Z) as [b0|] eqn:F; cbn [bind] in H; [|discriminate].
    destruct (mapIndexed f rest (i + 1)%Z) as [bs0|] eqn:M; cbn [bind] in H; [|discriminate].
    injection H as <-. destruct k as [|k]; simpl in Hk.
    + injection Hk as <-. exists item. split; [reflexivity|].
      simpl. rewrite Z.add_0_r. exact F.
    + destruct (IH _ _ M k b Hk) as (x & Hx & Fx).
      exists x. split; [exact Hx|].
      replace (i + Z.of_nat (S k) + 1)%Z with (i + 1 + Z.of_nat k + 1)%Z by lia.
      exact Fx.
Qed.

(** The inner pieces of a match of the pattern for decimal numbers. *)
Lemma digits_around (m1 m3 : jsstring) (sep : N) :
  Regex.Matches (Regex.Plus (Regex.Class Regex.isDigit)) m1 ->
  Regex.Matches (Regex.Plus (Regex.Class Regex.isDigit)) m3 ->
  sep = Char.period \/ sep = Char.comma ->
  hasDecimal (m1 ++ [sep] ++ m3).
Proof.
  intros H1 H3 Hsep.
  apply RegexFacts.Matches_class_plus in H1. destruct H1 as [N1 D1].
  apply RegexFacts.Matches_class_plus in H3. destruct H3 as [N3 D3].
  destruct m3 as [|d2 m3']; [congruence|].
  exists (removelast m1), (last m1 0%N), sep, d2, m3'.
  split.
  - rewrite (app_removelast_last 0%N N1) at 1. rewrite <- app_assoc. reflexivity.
  - split.
    + rewrite forallb_forall in D1. apply D1. apply ShapeFacts.last_In. exact N1.
    + split; [|exact Hsep]. simpl in D3. apply andb_true_iff in D3. exact (proj1 D3).
Qed.

Lemma hasDecimal_around (a m b : jsstring) : hasDecimal m -> hasDecimal (a ++ m ++ b).
Proof.
  intros (x & d1 & sep & d2 & y & -> & H).
  exists (a ++ x), d1, sep, d2, (y ++ b). split; [|exact H].
  rewrite <- !app_assoc. reflexivity.
Qed.

End GenericFacts.

(** X6. [DOMUtils.findAncestor], in both scripts: the call returns [found]
    exactly when [found] is the element itself or one of its ancestors,
    fewer than [maxDepth] steps up, passes the predicate, and nothing
    nearer does. With [maxDepth = 8] the element and its first seven
    ancestors are tried; with [maxDepth = 0] nothing is. *)
Theorem findAncestor_nearest_match :
  forall (doc : Document) (predicate : Elem -> bool) (maxDepth : nat)
         (element found : Elem),
    DOMUtils.findAncestor doc element predicate maxDepth = Some found <->
    exists depth,
      (depth < maxDepth)%nat /\
      ancestor doc element depth = Some found /\
      predicate found = true /\
      forall nearer e, (nearer < depth)%nat -> ancestor doc element nearer = Some e ->
                       predicate e = false.
Proof.
  intros doc predicate maxDepth element found.
  apply DiscoveryFacts.findAncestor_nearest.
Qed.

(** X7. The generic discovery path, in both scripts and for any pattern:
    no element is returned twice, and an element is returned exactly when
    it is, for some paragraph whose trimmed text is "Deposit", the nearest
    of that paragraph and its first seven ancestors that passes the
    container predicate. *)
Theorem generic_containers_are_nearest_ancestors :
  forall (CONFIG : DepositSelectors) (numberPattern : Regex.regex) (doc : Document),
    let depositTexts := DOMUtils.findElementsByText doc sel_p (js "Deposit") DocumentRoot in
    let found := Discovery.findDepositContainersGeneric CONFIG numberPattern doc in
    NoDup (map e_ref found) /\
    forall c,
      In c found <->
      exists depositText depth,
        In depositText depositTexts /\
        (depth < 8)%nat /\
        ancestor doc depositText depth = Some c /\
        Discovery.containerPredicate CONFIG numberPattern c = true /\
        forall nearer e,
          (nearer < depth)%nat -> ancestor doc depositText nearer = Some e ->
          Discovery.containerPredicate CONFIG numberPattern e = false.
Proof.
  intros CONFIG numberPattern doc depositTexts found. split.
  - apply DiscoveryFacts.collectContainers_distinct. constructor.
  - intros c. split.
    + intros H.
      apply DiscoveryFacts.collectContainers_found in H as [[]|(t & Ht & Hf)].
      apply DiscoveryFacts.findAncestor_nearest in Hf as (depth & H1 & H2 & H3 & H4).
      exists t, depth. auto.
    + intros (t & depth & Ht & H1 & H2 & H3 & H4).
      apply GenericFacts.collectContainers_complete.
      * intros x Hx. exact (proj1 (GenericFacts.depositTexts_attached doc _ x Hx)).
      * intros x [].
      * exists t. split; [exact Ht|].
        apply DiscoveryFacts.findAncestor_nearest. exists depth. auto.
Qed.

(** X8. What [findDepositContainers] returns, in both scripts and for any
    configuration: every container is an element of the document whose
    trimmed text contains "Deposit", and it either matches one of the
    configured selectors or passes the predicate of the generic path. *)
Theorem discovered_containers_contain_label :
  forall (CONFIG : DepositSelectors) (numberPattern : Regex.regex) (doc : Document),
    Forall
      (fun container =>
         attached doc container /\
         DOMUtils.elementContainsText container (js "Deposit") = true /\
         (Selector.matchesElement (Selector.joinSelectors (CONTAINERS CONFIG))
                                  (e_node container) = true \/
          Discovery.containerPredicate CONFIG numberPattern container = true))
      (Discovery.findDepositContainers CONFIG numberPattern doc).
Proof.
  intros CONFIG numberPattern doc. apply Forall_forall. intros c Hc.
  split; [exact (BatchFacts.findDepositContainers_attached _ _ _ _ Hc)|].
  unfold Discovery.findDepositContainers in Hc.
  destruct (filter _ _) as [|c0 cs] eqn:F.
  - apply DiscoveryFacts.collectContainers_found in Hc as [[]|(t & Ht & Hf)].
    apply DiscoveryFacts.findAncestor_nearest in Hf as (depth & _ & _ & P & _).
    split; [|right; exact P].
    unfold Discovery.containerPredicate in P. apply andb_true_iff in P. exact (proj1 P).
  - rewrite <- F in Hc. apply filter_In in Hc as [Hc E].
    split; [exact E|]. left. exact (GenericFacts.querySelectorAll_matches _ _ _ _ Hc).
Qed.

(** X9. In the generic path the test for "Deposit" never decides: for a
    paragraph whose trimmed text is "Deposit", the paragraph and every one
    of its ancestors contain "Deposit", so the container predicate holds
    for them exactly when they contain a currency symbol or match the
    number pattern. *)
Theorem label_text_reaches_ancestors :
  forall (CONFIG : DepositSelectors) (numberPattern : Regex.regex) (doc : Document)
         (depositText : Elem) (depth : nat) (a : Elem),
    In depositText (DOMUtils.findElementsByText doc sel_p (js "Deposit") DocumentRoot) ->
    ancestor doc depositText depth = Some a ->
    DOMUtils.elementContainsText a (js "Deposit") = true /\
    Discovery.containerPredicate CONFIG numberPattern a =
      (existsb (fun symbol => DOMUtils.elementContainsText a symbol)
               (CURRENCY_SYMBOLS CONFIG)
       || Regex.testAnywhere numberPattern (textContent a)).
Proof.
  intros CONFIG numberPattern doc depositText depth a Ht Ha.
  destruct (GenericFacts.depositTexts_attached doc _ _ Ht) as [At Et].
  assert (D : DOMUtils.elementContainsText a (js "Deposit") = true).
  { apply (TreeFacts.label_reaches depositText a (js "Deposit"));
      [discriminate | exact Et |].
    exact (TreeFacts.ancestor_textIn doc depth depositText a At Ha). }
  split; [exact D|].
  unfold Discovery.containerPredicate. rewrite D. reflexivity.
Qed.

Lemma label_text_reaches_ancestors_witness :
  In Sample.numberOnlyParagraph
     (DOMUtils.findElementsByText Sample.numberOnly sel_p (js "Deposit") DocumentRoot) /\
  ancestor Sample.numberOnly Sample.numberOnlyParagraph 3 = Some Sample.numberOnlyAncestor /\
  DOMUtils.elementContainsText Sample.numberOnlyAncestor (js "Deposit") = true /\
  Discovery.containerPredicate ScriptDemo.CONFIG.DEPOSITS ScriptDemo.hasNumbersPattern
    Sample.numberOnlyAncestor = true.
Proof.
  assert (Ht : In Sample.numberOnlyParagraph
                 (DOMUtils.findElementsByText Sample.numberOnly sel_p (js "Deposit")
                    DocumentRoot)) by (left; reflexivity).
  assert (Ha : ancestor Sample.numberOnly Sample.numberOnlyParagraph 3
               = Some Sample.numberOnlyAncestor) by reflexivity.
  destruct (label_text_reaches_ancestors ScriptDemo.CONFIG.DEPOSITS
              ScriptDemo.hasNumbersPattern Sample.numberOnly
              Sample.numberOnlyParagraph 3 Sample.numberOnlyAncestor Ht Ha) as [D P].
  split; [exact Ht|]. split; [exact Ha|]. split; [exact D|].
  rewrite P. vm_compute. reflexivity.
Defined.

(** X10. return-detector.js, line 106: the pattern written with doubled
    backslashes needs a backslash in the text. For an element whose text
    has none, [hasNumbers] is [false] and the container predicate holds
    exactly when the element contains "Deposit" and one of the currency
    symbols. *)
Theorem escaped_pattern_needs_backslash :
  forall el : Elem,
    ~ In Char.backslash (textContent el) ->
    Regex.testAnywhere ReturnDetector.hasNumbersPattern (textContent el) = false /\
    Discovery.containerPredicate ReturnDetector.CONFIG ReturnDetector.hasNumbersPattern el =
      (DOMUtils.elementContainsText el (js "Deposit") &&
       existsb (fun symbol => DOMUtils.elementContainsText el symbol)
               [[Char.euro]; [Char.dollar]; [Char.pound]]).
Proof.
  intros el H.
  pose proof (DiscoveryFacts.ReturnDetector_hasNumbers_needs_backslash el H) as N.
  split; [exact N|].
  unfold Discovery.containerPredicate. rewrite N. rewrite orb_false_r. reflexivity.
Qed.

Lemma escaped_pattern_needs_backslash_witness :
  ~ In Char.backslash (textContent Sample.numberOnlyAncestor) /\
  Regex.testAnywhere Patterns.decimalNumber (textContent Sample.numberOnlyAncestor) = true /\
  Regex.testAnywhere ReturnDetector.hasNumbersPattern
    (textContent Sample.numberOnlyAncestor) = false /\
  Discovery.containerPredicate ReturnDetector.CONFIG ReturnDetector.hasNumbersPattern
    Sample.numberOnlyAncestor = false.
Proof.
  assert (H : ~ In Char.backslash (textContent Sample.numberOnlyAncestor)).
  { vm_compute. intros H. repeat (destruct H as [H|H]; [discriminate H|]). exact H. }
  destruct (escaped_pattern_needs_backslash Sample.numberOnlyAncestor H) as [N P].
  split; [exact H|]. split; [reflexivity|]. split; [exact N|].
  rewrite P. reflexivity.
Defined.

(** X11. script-demo.js, line 355: [/\d+\.\d+|\d+,\d+/.test(text)] holds
    exactly when the text has a digit, then a period or a comma, then a
    digit, in a row. *)
Theorem decimal_pattern_iff :
  forall s : jsstring,
    Regex.testAnywhere ScriptDemo.hasNumbersPattern s = true <-> hasDecimal s.
Proof.
  intros s. unfold ScriptDemo.hasNumbersPattern. split.
  - intros H. apply RegexFacts.testAnywhere_iff in H. destruct H as (a & m & b & -> & M).
    apply GenericFacts.hasDecimal_around.
    unfold Patterns.decimalNumber in M.
    apply RegexFacts.Matches_alt_inv in M. destruct M as [M|M];
      apply RegexFacts.Matches_seq_inv in M; destruct M as (m1 & m2 & -> & M1 & M2);
      apply RegexFacts.Matches_seq_inv in M2; destruct M2 as (ms & m3 & -> & Ms & M3);
      apply RegexFacts.Matches_lit in Ms; subst ms;
      apply GenericFacts.digits_around; auto.
  - intros (a & d1 & sep & d2 & b & -> & H1 & H2 & Hsep).
    apply PatternFacts.decimalNumber_found; assumption.
Qed.

(** X12. [findAllDeposits], in both scripts: the call returns, without
    throwing, one record for each discovered container, in the order of
    discovery; the record at position [k] (from 0) has [index = k + 1] and
    is what [extractDepositInfo] gives for the container at position [k]. *)
Theorem deposits_numbered_in_order :
  forall (toLowerCase : jsstring -> jsstring) (serialize : Elem -> jsstring)
         (doc : Document),
    (exists deposits,
       ReturnDetector.findAllDeposits toLowerCase serialize doc = Returned deposits /\
       List.length deposits = List.length (ReturnDetector.findDepositContainers doc) /\
       forall k d,
         nth_error deposits k = Some d ->
         ReturnDetector.index d = (Z.of_nat k + 1)%Z /\
         exists container,
           nth_error (ReturnDetector.findDepositContainers doc) k = Some container /\
           ReturnDetector.extractDepositInfo toLowerCase serialize doc container
             (Z.of_nat k + 1) = Returned d) /\
    (exists deposits,
       ScriptDemo.findAllDeposits doc = Returned deposits /\
       List.length deposits = List.length (ScriptDemo.findDepositContainers doc) /\
       forall k d,
         nth_error deposits k = Some d ->
         ScriptDemo.index d = (Z.of_nat k + 1)%Z /\
         nth_error (ScriptDemo.findDepositContainers doc) k = Some (ScriptDemo.element d) /\
         ScriptDemo.extractDepositInfo doc (ScriptDemo.element d) (Z.of_nat k + 1)
           = Returned d).
Proof.
  intros toLowerCase serialize doc.
  destruct (BatchFacts.findAllDeposits_returns toLowerCase serialize doc)
    as [(rs & Er & Lr) (ss & Es & Ls)].
  split.
  - exists rs. split; [exact Er|]. split; [exact Lr|].
    intros k d Hk.
    destruct (GenericFacts.mapIndexed_nth _ _ _ _ Er k d Hk) as (c & Hc & Fc).
    simpl in Fc.
    assert (Ac : attached doc c).
    { apply (BatchFacts.findDepositContainers_attached ReturnDetector.CONFIG
               ReturnDetector.hasNumbersPattern doc c).
      exact (nth_error_In _ _ Hc). }
    destruct (ShapeFacts.ReturnDetector_record toLowerCase serialize doc c
                (Z.of_nat k + 1) Ac) as (c0 & a0 & path & _ & _ & E).
    split.
    + rewrite E in Fc. injection Fc as <-. reflexivity.
    + exists c. split; [exact Hc | exact Fc].
  - exists ss. split; [exact Es|]. split; [exact Ls|].
    intros k d Hk.
    destruct (GenericFacts.mapIndexed_nth _ _ _ _ Es k d Hk) as (c & Hc & Fc).
    simpl in Fc.
    destruct (ShapeFacts.ScriptDemo_record doc c (Z.of_nat k + 1)) as (c0 & a0 & _ & E).
    assert (Ed : ScriptDemo.element d = c /\ ScriptDemo.index d = (Z.of_nat k + 1)%Z).
    { rewrite E in Fc. injection Fc as <-. split; reflexivity. }
    destruct Ed as [Ee Ei]. rewrite Ee. auto.
Qed.

(** ** The XPath of a container and the result of return-detector.js *)

Module XPathFacts.

Section Scan.
Variable toLowerCase : jsstring -> jsstring.
Variable element : Node.
Variable position : nat.
Variable parent : option jsstring.

(** The loop over the siblings in closed form: the counter has grown by
    the number of element siblings with the tag name of the element
    that stand before it. *)
Lemma siblingScan_closed (siblings : list Node) :
  forall i ix,
    (i <= position)%nat -> (position - i < List.length siblings)%nat ->
    ReturnDetector.siblingScan toLowerCase siblings i ix position element (Returned parent) =
    Returned (Some (ReturnDetector.stringOf parent ++ js "/"
                    ++ toLowerCase (tagName element) ++ js "["
                    ++ numberToString
                         (ix + Z.of_nat (precedingSameTag siblings (position - i) element) + 1)
                    ++ js "]")).
Proof.
  induction siblings as [|sibling rest IH]; intros i ix Hle Hlt.
  - simpl in Hlt. lia.
  - cbn [ReturnDetector.siblingScan]. destruct (Nat.eqb i position) eqn:E.
    + apply Nat.eqb_eq in E. subst i. rewrite Nat.sub_diag.
      cbn [bind]. unfold precedingSameTag. cbn [firstn filter List.length].
      rewrite Z.add_0_r. reflexivity.
    + apply Nat.eqb_neq in E.
      assert (Hs : (position - i = S (position - S i))%nat) by lia.
      assert (Hlt' : (position - S i < List.length rest)%nat) by (simpl in Hlt; lia).
      rewrite Hs. unfold precedingSameTag. cbn [firstn filter].
      fold (precedingSameTag rest (position - S i) element).
      destruct (isElementNode sibling && str_eqb (tagName sibling) (tagName element)).
      * rewrite IH by (lia || assumption). cbn [List.length].
        fold (precedingSameTag rest (position - S i) element).
        replace (ix + 1 + Z.of_nat (precedingSameTag rest (position - S i) element) + 1)%Z
          with (ix + Z.of_nat (S (precedingSameTag rest (position - S i) element)) + 1)%Z
          by lia.
        reflexivity.
      * rewrite IH by (lia || assumption).
        fold (precedingSameTag rest (position - S i) element). reflexivity.
Qed.

End Scan.

Lemma nodeAt_parent (doc : Document) (position : nat) (parentNode : ref) (element : Node) :
  nodeAt doc (position :: parentNode) = Some element ->
  (position < List.length (childNodesAt doc parentNode))%nat /\
  (parentNode = [] \/ nodeAt doc parentNode <> None).
Proof.
  intros E. split.
  - apply nth_error_Some. simpl in E. rewrite E. discriminate.
  - destruct parentNode as [|j g]; [left; reflexivity | right].
    simpl in E. simpl. destruct (nth_error (childNodesAt doc g) j); [discriminate|].
    destruct position; discriminate.
Qed.

(** One step of [getXPath], for an element without [id] that is not the
    body. *)
Lemma getXPath_step (toLowerCase : jsstring -> jsstring) (doc : Document)
    (position : nat) (parentNode : ref) (element : Node) (parentPath : option jsstring) :
  nodeAt doc (position :: parentNode) = Some element ->
  ReturnDetector.elementId element = Some [] ->
  ReturnDetector.isBody doc (position :: parentNode) = false ->
  ReturnDetector.getXPath toLowerCase doc parentNode = Returned parentPath ->
  ReturnDetector.getXPath toLowerCase doc (position :: parentNode) =
  Returned (Some (ReturnDetector.stringOf parentPath ++ js "/"
                  ++ toLowerCase (tagName element) ++ js "["
                  ++ numberToString
                       (Z.of_nat (precedingSameTag (childNodesAt doc parentNode)
                                    position element) + 1)
                  ++ js "]")).
Proof.
  intros E Hid Hbody Hp.
  cbn [ReturnDetector.getXPath]. rewrite E. simpl deref. cbn [bind].
  rewrite Hid. rewrite Hbody. rewrite Hp.
  rewrite siblingScan_closed.
  - rewrite Nat.sub_0_r. reflexivity.
  - lia.
  - rewrite Nat.sub_0_r. exact (proj1 (nodeAt_parent doc position parentNode element E)).
Qed.

(** Where [getXPath] stops at once. *)
Lemma getXPath_stop (toLowerCase : jsstring -> jsstring) (doc : Document)
    (position : nat) (parentNode : ref) (base : jsstring) :
  endsWith doc (position :: parentNode) base ->
  ReturnDetector.getXPath toLowerCase doc (position :: parentNode) = Returned (Some base).
Proof.
  intros (node & E & H).
  cbn [ReturnDetector.getXPath]. rewrite E. simpl deref. cbn [bind].
  destruct (ReturnDetector.elementId node) as [[|c id]|].
  - destruct H as [-> ->]. reflexivity.
  - rewrite H. reflexivity.
  - rewrite H. reflexivity.
Qed.

(** The steps of a node and of the nodes above it, from the top down. *)
Lemma steps_cons (toLowerCase : jsstring -> jsstring) (doc : Document)
    (position : nat) (parentNode : ref) (k : nat) :
  List.concat (map (fun j => xpathStep toLowerCase doc (skipn j (position :: parentNode)))
              (rev (seq 0 (S k)))) =
  List.concat (map (fun j => xpathStep toLowerCase doc (skipn j parentNode)) (rev (seq 0 k)))
  ++ xpathStep toLowerCase doc (position :: parentNode).
Proof.
  change (seq 0 (S k)) with (0%nat :: seq 1 k). cbn [rev].
  rewrite map_app, concat_app. cbn [map List.concat skipn]. rewrite app_nil_r. f_equal.
  rewrite <- seq_shift, <- map_rev, map_map. reflexivity.
Qed.

Lemma filter_implied {A : Type} (f g : A -> bool) (l : list A) :
  (forall x, In x l -> f x = true -> g x = true) ->
  (List.length (filter f l) <= List.length (filter g l))%nat.
Proof.
  induction l as [|x l IH]; intros H; simpl; [lia|].
  assert (IH' : (List.length (filter f l) <= List.length (filter g l))%nat)
    by (apply IH; intros y Hy; apply H; right; exact Hy).
  destruct (f x) eqn:F.
  - rewrite (H x (or_introl eq_refl) F). simpl. lia.
  - destruct (g x); simpl; lia.
Qed.

End XPathFacts.

(** X13. [getXPath] of return-detector.js never gives [undefined] and never
    throws for a node of the document, and the path it returns is
    determined as follows. The walk up from the node stops at the nearest
    node that is not an element with an empty [id], or that is the body:
    [k] nodes, all of them elements with an empty [id] and none of them
    the body, are passed before it. The path starts with [/html/body] when
    the walk stops at the body, with [//*[@id="..."]] holding the [id] of
    the element it stops at, and with [//*[@id="undefined"]] when it stops
    at the document node (an element outside the body with no [id] on the
    way) or at a text or comment node (the node itself). It goes on with
    one step [/tag[n]] for each node passed, from the top down. *)
Theorem xpath_always_defined :
  forall (toLowerCase : jsstring -> jsstring) (doc : Document) (r : ref),
    nodeAt doc r <> None ->
    exists k base,
      (k <= List.length r)%nat /\
      (forall j, (j < k)%nat -> walksOn doc (skipn j r)) /\
      endsWith doc (skipn k r) base /\
      ReturnDetector.getXPath toLowerCase doc r =
      Returned (Some (base ++
                      List.concat (map (fun j => xpathStep toLowerCase doc (skipn j r))
                                  (rev (seq 0 k))))).
Proof.
  intros toLowerCase doc r. induction r as [|position parentNode IH]; intros H.
  - simpl in H. congruence.
  - destruct (nodeAt doc (position :: parentNode)) as [element|] eqn:E; [|congruence].
    assert (Stop : forall base,
              endsWith doc (position :: parentNode) base ->
              exists k base,
                (k <= List.length (position :: parentNode))%nat /\
                (forall j, (j < k)%nat -> walksOn doc (skipn j (position :: parentNode))) /\
                endsWith doc (skipn k (position :: parentNode)) base /\
                ReturnDetector.getXPath toLowerCase doc (position :: parentNode) =
                Returned (Some (base ++
                                List.concat (map (fun j => xpathStep toLowerCase doc
                                                        (skipn j (position :: parentNode)))
                                            (rev (seq 0 k)))))).
    { intros base Hb. exists 0%nat, base. split; [lia|]. split; [intros j Hj; lia|].
      split; [exact Hb|]. cbn [seq rev map List.concat]. rewrite app_nil_r.
      apply XPathFacts.getXPath_stop. exact Hb. }
    destruct (ReturnDetector.elementId element) as [[|c id]|] eqn:Hid.
    + destruct (ReturnDetector.isBody doc (position :: parentNode)) eqn:Hbody.
      * apply (Stop (js "/html/body")). exists element. split; [exact E|].
        rewrite Hid. split; [exact Hbody | reflexivity].
      * assert (W : walksOn doc (position :: parentNode)).
        { exists element. split; [exact E|]. split; [exact Hid | exact Hbody]. }
        assert (Step : xpathStep toLowerCase doc (position :: parentNode) =
                       js "/" ++ toLowerCase (tagName element) ++ js "["
                       ++ numberToString
                            (Z.of_nat (precedingSameTag (childNodesAt doc parentNode)
                                         position element) + 1)
                       ++ js "]").
        { unfold xpathStep. rewrite E. reflexivity. }
        assert (Up : exists k base,
                  (k <= List.length parentNode)%nat /\
                  (forall j, (j < k)%nat -> walksOn doc (skipn j parentNode)) /\
                  endsWith doc (skipn k parentNode) base /\
                  ReturnDetector.getXPath toLowerCase doc parentNode =
                  Returned (Some (base ++
                                  List.concat (map (fun j => xpathStep toLowerCase doc
                                                          (skipn j parentNode))
                                              (rev (seq 0 k)))))).
        { destruct (proj2 (XPathFacts.nodeAt_parent doc position parentNode element E))
            as [->|Hp]; [|exact (IH Hp)].
          exists 0%nat, (ReturnDetector.idPath (js "undefined")).
          split; [simpl; lia|]. split; [intros j Hj; lia|].
          split; [reflexivity|]. cbn [seq rev map List.concat]. rewrite app_nil_r.
          reflexivity. }
        destruct Up as (k & base & Hk & Hwalk & Hend & Ep).
        exists (S k), base. split; [simpl; lia|]. split; [|split].
        -- intros [|j] Hj; [exact W|]. cbn [skipn]. apply Hwalk. lia.
        -- cbn [skipn]. exact Hend.
        -- rewrite (XPathFacts.getXPath_step toLowerCase doc position parentNode element
                      _ E Hid Hbody Ep).
           rewrite XPathFacts.steps_cons, Step. cbn [ReturnDetector.stringOf].
           rewrite <- !app_assoc. reflexivity.
    + apply (Stop (ReturnDetector.idPath (c :: id))). exists element.
      split; [exact E|]. rewrite Hid. reflexivity.
    + apply (Stop (ReturnDetector.idPath (js "undefined"))). exists element.
      split; [exact E|]. rewrite Hid. reflexivity.
Qed.

(** The theorem at the container of [Sample.pendingReturn], one step below
    the body; the paths of that container, of the [head], which is
    outside the body, and of the text of the first label, a text node. *)
Lemma xpath_always_defined_witness :
  nodeAt Sample.pendingReturn [0; 1; 0]%nat <> None /\
  (exists k base,
     (k <= 3)%nat /\
     (forall j, (j < k)%nat -> walksOn Sample.pendingReturn (skipn j [0; 1; 0]%nat)) /\
     endsWith Sample.pendingReturn (skipn k [0; 1; 0]%nat) base /\
     ReturnDetector.getXPath (fun s => s) Sample.pendingReturn [0; 1; 0]%nat =
     Returned (Some (base ++
                     List.concat (map (fun j => xpathStep (fun s => s) Sample.pendingReturn
                                             (skipn j [0; 1; 0]%nat))
                                 (rev (seq 0 k)))))) /\
  ReturnDetector.getXPath (fun s => s) Sample.pendingReturn [0; 1; 0]%nat
    = Returned (Some (js "/html/body/DIV[1]")) /\
  ReturnDetector.getXPath (fun s => s) Sample.pendingReturn [0; 0]%nat
    = Returned (Some (ReturnDetector.idPath (js "undefined") ++ js "/HTML[1]/HEAD[1]")) /\
  ReturnDetector.getXPath (fun s => s) Sample.pendingReturn [0; 0; 0; 0; 1; 0]%nat
    = Returned (Some (ReturnDetector.idPath (js "undefined"))).
Proof.
  assert (H1 : nodeAt Sample.pendingReturn [0; 1; 0]%nat <> None)
    by (vm_compute; discriminate).
  split; [exact H1|].
  split; [exact (xpath_always_defined (fun s => s) Sample.pendingReturn _ H1)|].
  split; [reflexivity|]. split; reflexivity.
Defined.

(** X14. One step of [getXPath]: for an element whose [id] is empty and
    which is not the body, the path is the path of the parent followed by
    [/tag[k]], where [tag] is the tag name in lower case and [k] is one
    more than the number of element siblings with the same tag name that
    stand before the element. (A text or comment node has no [id] at all
    and gets [//*[@id="undefined"]] instead.) *)
Theorem xpath_step_counts_same_tag_siblings :
  forall (toLowerCase : jsstring -> jsstring) (doc : Document)
         (position : nat) (parentNode : ref) (element : Node)
         (parentPath : option jsstring),
    nodeAt doc (position :: parentNode) = Some element ->
    ReturnDetector.elementId element = Some [] ->
    ReturnDetector.isBody doc (position :: parentNode) = false ->
    ReturnDetector.getXPath toLowerCase doc parentNode = Returned parentPath ->
    ReturnDetector.getXPath toLowerCase doc (position :: parentNode) =
    Returned (Some (ReturnDetector.stringOf parentPath ++ js "/"
                    ++ toLowerCase (tagName element) ++ js "["
                    ++ numberToString
                         (Z.of_nat (precedingSameTag (childNodesAt doc parentNode)
                                      position element) + 1)
                    ++ js "]")).
Proof.
  intros toLowerCase doc position parentNode element parentPath.
  apply XPathFacts.getXPath_step.
Qed.

Lemma xpath_step_witness :
  exists element,
    nodeAt Fixture.nested [3; 1; 1; 0]%nat = Some element /\
    ReturnDetector.elementId element = Some [] /\
    ReturnDetector.isBody Fixture.nested [3; 1; 1; 0]%nat = false /\
    ReturnDetector.getXPath Fixture.lower Fixture.nested [1; 1; 0]%nat
      = Returned (Some (js "/html/body/ul[1]")) /\
    precedingSameTag (childNodesAt Fixture.nested [1; 1; 0]%nat) 3 element = 1%nat /\
    ReturnDetector.getXPath Fixture.lower Fixture.nested [3; 1; 1; 0]%nat
      = Returned (Some (js "/html/body/ul[1]/li[2]")).
Proof.
  eexists. split; [reflexivity|]. split; [reflexivity|]. split; [reflexivity|].
  split; [reflexivity|]. split; [reflexivity|].
  rewrite (xpath_step_counts_same_tag_siblings Fixture.lower Fixture.nested 3
             [1; 1; 0]%nat _ (Some (js "/html/body/ul[1]"))
             eq_refl eq_refl eq_refl eq_refl).
  reflexivity.
Defined.

(** X15. The body of return-detector.js never throws. When the document
    has no body the read of [document.body.textContent] throws and the
    result is the failure object with that error; otherwise the result is
    the success object, with one deposit for each discovered container
    and, in [debug], the number of paragraphs and the number of those
    whose text contains "Deposit", which is at least the number of
    paragraphs the generic path starts from. *)
Theorem extractorResult_outcome :
  forall (toLowerCase : jsstring -> jsstring) (serialize : Elem -> jsstring)
         (errorToString : JSThrown -> jsstring) (documentTitle locationHref : jsstring)
         (doc : Document),
    match Extractor.documentBody doc with
    | None =>
        Extractor.extractorResult toLowerCase serialize errorToString
          documentTitle locationHref doc
        = Extractor.Failure (errorToString typeError)
    | Some _ =>
        exists deposits,
          ReturnDetector.findAllDeposits toLowerCase serialize doc = Returned deposits /\
          List.length deposits = List.length (ReturnDetector.findDepositContainers doc) /\
          Extractor.extractorResult toLowerCase serialize errorToString
            documentTitle locationHref doc
          = Extractor.Success deposits {|
              Extractor.title := documentTitle;
              Extractor.url := locationHref;
              Extractor.depositTextCount :=
                List.length
                  (filter (fun p => includes (textContent p) (js "Deposit"))
                          (DOMUtils.querySelectorAll doc sel_p DocumentRoot));
              Extractor.totalParagraphs :=
                List.length (DOMUtils.querySelectorAll doc sel_p DocumentRoot)
            |} /\
          (List.length (DOMUtils.findElementsByText doc sel_p (js "Deposit") DocumentRoot)
           <= List.length
                (filter (fun p => includes (textContent p) (js "Deposit"))
                        (DOMUtils.querySelectorAll doc sel_p DocumentRoot))
           <= List.length (DOMUtils.querySelectorAll doc sel_p DocumentRoot))%nat
    end.
Proof.
  intros toLowerCase serialize errorToString documentTitle locationHref doc.
  unfold Extractor.extractorResult.
  destruct (Extractor.documentBody doc) as [body|]; [|reflexivity].
  destruct (BatchFacts.findAllDeposits_returns toLowerCase serialize doc)
    as [(deposits & E & L) _].
  exists deposits. split; [exact E|]. split; [exact L|]. split.
  - simpl deref. cbn [bind].
    change (nativeQuerySelectorAll doc sel_p DocumentRoot)
      with (Returned (DOMUtils.querySelectorAll doc sel_p DocumentRoot)).
    cbn [bind]. rewrite E. reflexivity.
  - split.
    + unfold DOMUtils.findElementsByText. apply XPathFacts.filter_implied.
      intros p _ Hp.
      apply (TreeFacts.label_reaches p p (js "Deposit"));
        [discriminate | exact Hp | apply TreeFacts.textIn_refl].
    + apply filter_length_le.
Qed.

(** ** The loop over the deposits and the export as a whole *)

Module PipelineFacts.

Lemma ownRow_fields (deposit : ScriptDemo.Deposit) (page : ScriptDemo.Page)
    (row : ScriptDemo.Details.t) :
  ownRow deposit page row ->
  ScriptDemo.Details.index row = ScriptDemo.index deposit /\
  ScriptDemo.Details.listInfo row = Some (ScriptDemo.listInfoOf deposit) /\
  ScriptDemo.Details.timestamp row = Some ScriptDemo.CONFIG.TIMESTAMPS_current /\
  ScriptDemo.Details.extractedBy row = Some ScriptDemo.CONFIG.USER.
Proof.
  intros [H|(error & _ & H)].
  - exact (ExportFacts.getDepositDetails_row deposit page row H).
  - destruct (ExportFacts.partialDetails_row _ _ _ H) as (message & _ & ->).
    repeat split.
Qed.

Lemma secondRow_fields (deposit : ScriptDemo.Deposit) (page : ScriptDemo.Page)
    (row : ScriptDemo.Details.t) :
  secondRow deposit page row ->
  ScriptDemo.Details.index row = ScriptDemo.index deposit /\
  ScriptDemo.Details.listInfo row = Some (ScriptDemo.listInfoOf deposit) /\
  ScriptDemo.Details.timestamp row = Some ScriptDemo.CONFIG.TIMESTAMPS_current /\
  ScriptDemo.Details.extractedBy row = Some ScriptDemo.CONFIG.USER.
Proof.
  intros (details & error & _ & _ & H).
  destruct (ExportFacts.partialDetails_row _ _ _ H) as (message & _ & ->).
  repeat split.
Qed.

Section Loop.
Variable pages : nat -> ScriptDemo.Page.

Lemma rowOf_tail (deposit : ScriptDemo.Deposit) (rest : list ScriptDemo.Deposit)
    (i : nat) (row : ScriptDemo.Details.t) :
  rowOf pages rest (S i) row -> rowOf pages (deposit :: rest) i row.
Proof.
  intros (k & d & Hk & H). exists (S k), d. split; [exact Hk|].
  replace (i + S k)%nat with (S i + k)%nat by lia. exact H.
Qed.

(** One turn of the loop: it is left with a [TypeError], or it pushes the
    row of the deposit and, when closing the modal throws, a second
    one. *)
Lemma processDeposits_turn (deposit : ScriptDemo.Deposit)
    (rest : list ScriptDemo.Deposit) (i : nat) (acc : list ScriptDemo.Details.t) :
  (leavesLoop deposit (pages i) = true /\
   ScriptDemo.processDeposits (deposit :: rest) pages i acc = Thrown typeError) \/
  (leavesLoop deposit (pages i) = false /\
   exists own extra,
     ownRow deposit (pages i) own /\
     Forall (secondRow deposit (pages i)) extra /\
     List.length extra = (if closeThrows deposit (pages i) then 1 else 0)%nat /\
     ScriptDemo.processDeposits (deposit :: rest) pages i acc =
     ScriptDemo.processDeposits rest pages (S i) (acc ++ own :: extra)).
Proof.
  unfold leavesLoop, closeThrows. cbn [ScriptDemo.processDeposits].
  destruct (ScriptDemo.getDepositDetails deposit (pages i)) as [details|error] eqn:G.
  - assert (Own : ownRow deposit (pages i) details) by (left; exact G).
    destruct (ScriptDemo.closeModal (pages i)) as [closed|error] eqn:C.
    + right. split; [reflexivity|]. exists details, [].
      split; [exact Own|]. split; [constructor|]. split; reflexivity.
    + destruct (ScriptDemo.partialDetails deposit error) as [row|raised] eqn:P.
      * right. split; [destruct error; [reflexivity | reflexivity | discriminate P]|].
        exists details, [row]. split; [exact Own|]. split.
        { constructor; [|constructor]. exists details, error. auto. }
        split; [reflexivity|]. cbn [bind]. rewrite <- app_assoc. reflexivity.
      * destruct (ExportFacts.partialDetails_thrown _ _ _ P) as [-> ->].
        left. split; reflexivity.
  - pose proof (ExportFacts.getDepositDetails_rejected _ _ _ G) as ->.
    destruct (ExportFacts.partialDetails_typeError deposit) as (row & P).
    right. split; [reflexivity|]. exists row, [].
    split; [right; exists typeError; auto|]. split; [constructor|].
    split; [reflexivity|]. rewrite P. reflexivity.
Qed.

(** The whole loop. *)
Lemma processDeposits_turns (deposits : list ScriptDemo.Deposit) :
  forall i acc,
    if existsb (fun turn => leavesLoop (fst turn) (pages (snd turn)))
               (combine deposits (seq i (List.length deposits)))
    then ScriptDemo.processDeposits deposits pages i acc = Thrown typeError
    else
      exists rows,
        ScriptDemo.processDeposits deposits pages i acc = Returned (acc ++ rows) /\
        List.length rows =
          (List.length deposits +
           List.length (filter (fun turn => closeThrows (fst turn) (pages (snd turn)))
                               (combine deposits (seq i (List.length deposits)))))%nat /\
        (forall k deposit,
           nth_error deposits k = Some deposit ->
           exists row, In row rows /\ ownRow deposit (pages (i + k)%nat) row) /\
        Forall (rowOf pages deposits i) rows.
Proof.
  induction deposits as [|d rest IH]; intros i acc.
  - simpl. exists []. rewrite app_nil_r. split; [reflexivity|]. split; [reflexivity|].
    split; [intros [|k] deposit H; discriminate | constructor].
  - cbn [List.length seq combine existsb filter fst snd].
    destruct (processDeposits_turn d rest i acc)
      as [[Hl E]|(Hl & own & extra & Ho & He & Hn & E)]; rewrite Hl; cbn [orb].
    + exact E.
    + specialize (IH (S i) (acc ++ own :: extra)).
      destruct (existsb _ (combine rest (seq (S i) (List.length rest)))).
      * rewrite E. exact IH.
      * destruct IH as (rows & P & L & Hhas & Hall).
        exists (own :: extra ++ rows). split; [|split; [|split]].
        -- rewrite E, P. rewrite <- app_assoc. reflexivity.
        -- cbn [List.length]. rewrite length_app, L, Hn.
           destruct (closeThrows d (pages i)); cbn [List.length]; lia.
        -- intros [|k] deposit Hk; simpl in Hk.
           ++ injection Hk as <-. exists own. rewrite Nat.add_0_r.
              split; [left; reflexivity | exact Ho].
           ++ destruct (Hhas k deposit Hk) as (row & Hin & Hrow). exists row.
              replace (i + S k)%nat with (S i + k)%nat by lia.
              split; [|exact Hrow]. right. apply in_or_app. right. exact Hin.
        -- constructor; [|apply Forall_app; split].
           ++ exists 0%nat, d. split; [reflexivity|]. left. rewrite Nat.add_0_r. exact Ho.
           ++ apply Forall_forall. intros row Hrow.
              exists 0%nat, d. split; [reflexivity|]. right. rewrite Nat.add_0_r.
              exact (proj1 (Forall_forall _ _) He row Hrow).
           ++ apply Forall_forall. intros row Hrow. apply rowOf_tail.
              exact (proj1 (Forall_forall _ _) Hall row Hrow).
Qed.

(** The loop is left with nothing but a [TypeError]. *)
Lemma processDeposits_thrown (deposits : list ScriptDemo.Deposit) (error : JSThrown) :
  ScriptDemo.processDeposits deposits pages 0 [] = Thrown error -> error = typeError.
Proof.
  intros H. pose proof (processDeposits_turns deposits 0 []) as T.
  destruct (existsb _ _).
  - rewrite H in T. injection T as ->. reflexivity.
  - destruct T as (rows & E & _). rewrite H in E. discriminate.
Qed.

(** The rows of a loop that is not left. *)
Lemma processDeposits_returned (deposits : list ScriptDemo.Deposit)
    (rows : list ScriptDemo.Details.t) :
  ScriptDemo.processDeposits deposits pages 0 [] = Returned rows ->
  (List.length deposits <= List.length rows)%nat /\
  Forall (rowOf pages deposits 0) rows.
Proof.
  intros H. pose proof (processDeposits_turns deposits 0 []) as T.
  destruct (existsb _ _).
  - rewrite H in T. discriminate.
  - destruct T as (rows' & E & L & _ & Hall). rewrite H in E. injection E as ->.
    split; [lia | exact Hall].
Qed.

End Loop.

Lemma showLoading_thrown (doc : Document) (overlay : ScriptDemo.Overlay)
    (error : JSThrown) :
  ScriptDemo.showLoading doc overlay = Thrown error -> error = typeError.
Proof.
  unfold ScriptDemo.showLoading. destruct overlay.
  - destruct (ScriptDemo.documentHead doc); cbn [deref bind].
    + destruct (ScriptDemo.documentBody doc); cbn [deref bind]; [discriminate|].
      intros [= <-]. reflexivity.
    + intros [= <-]. reflexivity.
  - discriminate.
  - intros [= <-]. reflexivity.
Qed.

(** A whole export read back. *)
Lemma export_parse (first : ScriptDemo.Details.t) (rest : list ScriptDemo.Details.t) :
  Csv.parse (ScriptDemo.toCSV (ScriptDemo.formatForExport (first :: rest))) =
  Some (exportSchema ::
        map (fun row => map (fun kv => fieldText (snd kv)) row)
            (ScriptDemo.formatForExport (first :: rest))).
Proof.
  unfold ScriptDemo.formatForExport.
  change (map ScriptDemo.formatDeposit (first :: rest))
    with (ScriptDemo.formatDeposit first :: map ScriptDemo.formatDeposit rest) at 1.
  rewrite RoundTrip.toCSV_parse.
  - rewrite ExportFacts.formatDeposit_keys. f_equal. f_equal.
    change (ScriptDemo.formatDeposit first :: map ScriptDemo.formatDeposit rest)
      with (map ScriptDemo.formatDeposit (first :: rest)).
    generalize (first :: rest) as deposits. intros deposits.
    induction deposits as [|d deposits IH]; [reflexivity|].
    cbn [map]. rewrite IH. reflexivity.
  - rewrite ExportFacts.formatDeposit_keys. discriminate.
  - rewrite ExportFacts.formatDeposit_keys. repeat constructor.
Qed.

Lemma formatDeposit_stamp (details : ScriptDemo.Details.t) :
  ScriptDemo.Details.timestamp details = Some ScriptDemo.CONFIG.TIMESTAMPS_current ->
  ScriptDemo.Details.extractedBy details = Some ScriptDemo.CONFIG.USER ->
  property (ScriptDemo.formatDeposit details) (js "extractedBy")
    = VString ScriptDemo.CONFIG.USER /\
  property (ScriptDemo.formatDeposit details) (js "extractedAt")
    = VString ScriptDemo.CONFIG.TIMESTAMPS_current.
Proof.
  intros Ht Hu.
  change (property (ScriptDemo.formatDeposit details) (js "extractedBy"))
    with (VString (orElse (ScriptDemo.Details.extractedBy details) ScriptDemo.CONFIG.USER)).
  change (property (ScriptDemo.formatDeposit details) (js "extractedAt"))
    with (VString (orElse (ScriptDemo.Details.timestamp details)
                          ScriptDemo.CONFIG.TIMESTAMPS_current)).
  rewrite Ht, Hu. split; reflexivity.
Qed.


End PipelineFacts.

(** X16. The loop of [exportAllDepositData]. It is left, with a
    [TypeError], exactly when in some turn [getDepositDetails] is
    fulfilled and closing the modal then throws [null] or [undefined],
    whose message the loop's [catch] cannot read. Otherwise no record is
    lost: every deposit gets its own row, the object [getDepositDetails]
    is fulfilled with or, when it is rejected, the partial object built
    from the rejection. The number of rows is the number of deposits plus
    the number of turns in which [getDepositDetails] is fulfilled and
    closing the modal throws, because that throw is caught after the row
    has been pushed and pushes a second, partial row for the same
    deposit; and the result holds nothing but these rows, each with the
    [index] and the list fields of its deposit. *)
Theorem loop_rows_count :
  forall (deposits : list ScriptDemo.Deposit) (pages : nat -> ScriptDemo.Page),
    let turns := combine deposits (seq 0 (List.length deposits)) in
    if existsb (fun turn => leavesLoop (fst turn) (pages (snd turn))) turns
    then ScriptDemo.processDeposits deposits pages 0 [] = Thrown typeError
    else
      exists rows,
        ScriptDemo.processDeposits deposits pages 0 [] = Returned rows /\
        List.length rows =
          (List.length deposits +
           List.length (filter (fun turn => closeThrows (fst turn) (pages (snd turn)))
                               turns))%nat /\
        (forall k deposit,
           nth_error deposits k = Some deposit ->
           exists row, In row rows /\ ownRow deposit (pages k) row) /\
        Forall
          (fun row =>
             exists k deposit,
               nth_error deposits k = Some deposit /\
               ScriptDemo.Details.index row = ScriptDemo.index deposit /\
               ScriptDemo.Details.listInfo row = Some (ScriptDemo.listInfoOf deposit) /\
               (ownRow deposit (pages k) row \/ secondRow deposit (pages k) row))
          rows.
Proof.
  intros deposits pages turns. unfold turns.
  pose proof (PipelineFacts.processDeposits_turns pages deposits 0 []) as T.
  destruct (existsb _ _); [exact T|].
  destruct T as (rows & E & L & Hhas & Hall).
  exists rows. split; [exact E|]. split; [exact L|]. split; [exact Hhas|].
  apply Forall_forall. intros row Hrow.
  destruct (proj1 (Forall_forall _ _) Hall row Hrow) as (k & deposit & Hk & H).
  cbn [Nat.add] in H. exists k, deposit. split; [exact Hk|].
  destruct H as [H|H].
  - destruct (PipelineFacts.ownRow_fields _ _ _ H) as (Hi & Hl & _).
    split; [exact Hi|]. split; [exact Hl|]. left. exact H.
  - destruct (PipelineFacts.secondRow_fields _ _ _ H) as (Hi & Hl & _).
    split; [exact Hi|]. split; [exact Hl|]. right. exact H.
Qed.

(** The page [Sample.three] when closing the modal throws an [Error] in
    the second turn: four rows for three deposits, the second deposit
    twice. *)
Example second_row_after_failed_close :
  exists rows csvContent,
    ScriptDemo.exportAllDepositData Sample.three ScriptDemo.NotCreated
      Fixture.secondCloseFails Sample.three
      = Returned (ScriptDemo.ExportDone 3 (ScriptDemo.generateFilename (js "csv"))
                    (ScriptDemo.generateFilename (js "json")) rows csvContent) /\
    map (fun row => property row (js "index")) rows
      = [VNumber 1; VNumber 2; VNumber 2; VNumber 3] /\
    map (fun row => property row (js "errorMessage")) rows
      = [VString []; VString []; VString (js "gone"); VString []].
Proof.
  eexists. eexists. split; [vm_compute; reflexivity|].
  split; vm_compute; reflexivity.
Qed.

(** The same page when closing the modal throws [null] in the second
    turn: the loop is left, nothing is downloaded and the export fails
    with the message of the [TypeError]. *)
Example loop_left_on_thrown_null :
  exists deposits,
    ScriptDemo.findAllDeposits Sample.three = Returned deposits /\
    ScriptDemo.processDeposits deposits Fixture.secondCloseThrowsNull 0 []
      = Thrown typeError /\
    ScriptDemo.exportAllDepositData Sample.three ScriptDemo.NotCreated
      Fixture.secondCloseThrowsNull Sample.three
      = Returned (ScriptDemo.ExportFailed (Some typeErrorMessage)).
Proof.
  eexists. split; [vm_compute; reflexivity|].
  split; vm_compute; reflexivity.
Qed.

(** X17. [exportAllDepositData] as a whole. Every error that reaches the
    outer [catch] is a [TypeError]; the [catch] shows an alert, which
    needs [document.body]: with a body the promise is fulfilled with the
    failure object carrying the message of the error, without one it is
    rejected. Without a discovered container the alert "No deposits
    found" is shown first, so the result is the failure object with that
    error when the document has a body, and a rejection when it has
    none. With containers: when the overlay cannot be shown the export
    fails at once; when the loop is left, or the document has no body
    when the loop is over, so that nothing can be downloaded, it fails
    then. Otherwise it returns the success object: [count] is the number
    of containers, there are at least that many rows, every row has the
    fourteen columns of the schema and carries the configured user and
    the configured time stamp (not the time of the run), and the CSV text
    handed to the download is read back by a reader as the schema
    followed by the texts of the rows. *)
Theorem export_outcome :
  (forall live : Document,
     ScriptDemo.exportFailure live typeError =
     match ScriptDemo.documentBody live with
     | Some _ => Returned (ScriptDemo.ExportFailed (Some typeErrorMessage))
     | None => Thrown typeError
     end) /\
  typeErrorMessage <> [] /\
  forall (doc : Document) (overlay : ScriptDemo.Overlay)
         (pages : nat -> ScriptDemo.Page) (later : Document),
    match ScriptDemo.findDepositContainers doc with
    | [] =>
        ScriptDemo.exportAllDepositData doc overlay pages later =
        match ScriptDemo.documentBody doc with
        | Some _ => Returned (ScriptDemo.ExportFailed (Some (js "No deposits found")))
        | None => Thrown typeError
        end
    | _ :: _ =>
        exists deposits,
          ScriptDemo.findAllDeposits doc = Returned deposits /\
          List.length deposits = List.length (ScriptDemo.findDepositContainers doc) /\
          match ScriptDemo.showLoading doc overlay with
          | Thrown _ =>
              ScriptDemo.exportAllDepositData doc overlay pages later =
              ScriptDemo.exportFailure doc typeError
          | Returned _ =>
              match ScriptDemo.processDeposits deposits pages 0 [],
                    ScriptDemo.documentBody later with
              | Returned depositDetails, Some _ =>
                  let rows := ScriptDemo.formatForExport depositDetails in
                  ScriptDemo.exportAllDepositData doc overlay pages later
                  = Returned
                      (ScriptDemo.ExportDone
                         (List.length (ScriptDemo.findDepositContainers doc))
                         (ScriptDemo.generateFilename (js "csv"))
                         (ScriptDemo.generateFilename (js "json"))
                         rows (ScriptDemo.toCSV rows)) /\
                  (List.length (ScriptDemo.findDepositContainers doc)
                   <= List.length rows)%nat /\
                  Forall (fun row =>
                            keys row = exportSchema /\
                            property row (js "extractedBy")
                              = VString ScriptDemo.CONFIG.USER /\
                            property row (js "extractedAt")
                              = VString ScriptDemo.CONFIG.TIMESTAMPS_current)
                         rows /\
                  Csv.parse (ScriptDemo.toCSV rows) =
                  Some (exportSchema ::
                        map (fun row => map (fun kv => fieldText (snd kv)) row) rows)
              | _, _ =>
                  ScriptDemo.exportAllDepositData doc overlay pages later =
                  ScriptDemo.exportFailure later typeError
              end
          end
    end.
Proof.
  split.
  { intros live. unfold ScriptDemo.exportFailure, ScriptDemo.showAlert.
    destruct (ScriptDemo.documentBody live); reflexivity. }
  split; [discriminate|].
  intros doc overlay pages later.
  destruct (BatchFacts.findAllDeposits_returns (fun s => s) (fun _ => []) doc)
    as [_ (deposits & E & L)].
  destruct (ScriptDemo.findDepositContainers doc) as [|c cs] eqn:C.
  - destruct deposits; [|discriminate L].
    unfold ScriptDemo.exportAllDepositData. rewrite E. cbn [bind].
    unfold ScriptDemo.exportFailure, ScriptDemo.showAlert.
    destruct (ScriptDemo.documentBody doc); reflexivity.
  - assert (Hne : deposits <> []) by (intros ->; discriminate L).
    exists deposits. split; [exact E|]. split; [exact L|].
    destruct deposits as [|d ds]; [congruence|].
    destruct (ScriptDemo.showLoading doc overlay) as [[]|error] eqn:S.
    + destruct (ScriptDemo.processDeposits (d :: ds) pages 0 []) as [details|error] eqn:P.
      * destruct (ScriptDemo.documentBody later) as [body|] eqn:B.
        -- intros rows.
           destruct (PipelineFacts.processDeposits_returned pages _ _ P) as (Hlen & Hall).
           split; [|split; [|split]].
           ++ rewrite <- L. apply exportAllDepositData_done; try assumption.
              rewrite B. discriminate.
           ++ unfold rows, ScriptDemo.formatForExport. rewrite length_map, <- L. exact Hlen.
           ++ apply Forall_forall. intros row Hrow.
              unfold rows, ScriptDemo.formatForExport in Hrow.
              apply in_map_iff in Hrow as (item & <- & Hd).
              split; [reflexivity|].
              destruct (proj1 (Forall_forall _ _) Hall item Hd)
                as (k & deposit & _ & [H|H]).
              ** destruct (PipelineFacts.ownRow_fields _ _ _ H) as (_ & _ & Ht & Hu).
                 exact (PipelineFacts.formatDeposit_stamp _ Ht Hu).
              ** destruct (PipelineFacts.secondRow_fields _ _ _ H) as (_ & _ & Ht & Hu).
                 exact (PipelineFacts.formatDeposit_stamp _ Ht Hu).
           ++ unfold rows. destruct details as [|first rest].
              ** simpl in Hlen. lia.
              ** apply PipelineFacts.export_parse.
        -- unfold ScriptDemo.exportAllDepositData. rewrite E. cbn [bind].
           rewrite S. cbn [bind]. rewrite P. cbn [bind].
           unfold ScriptDemo.downloadFile. rewrite B. reflexivity.
      * pose proof (PipelineFacts.processDeposits_thrown pages _ _ P) as ->.
        unfold ScriptDemo.exportAllDepositData. rewrite E. cbn [bind].
        rewrite S. cbn [bind]. rewrite P. reflexivity.
    + pose proof (PipelineFacts.showLoading_thrown _ _ _ S) as ->.
      unfold ScriptDemo.exportAllDepositData. rewrite E. cbn [bind].
      rewrite S. reflexivity.
Qed.

(** The export on [Sample.three], with a page that answers every step;
    on a document that has deposits but no body, where the overlay
    cannot be shown and the alert of the outer [catch] throws in its
    turn; and on a document without body and without deposits. *)
Example export_on_sample_pages :
  (exists rows csvContent,
     ScriptDemo.exportAllDepositData Sample.three ScriptDemo.NotCreated
       (fun _ => Sample.calm) Sample.three
     = Returned (ScriptDemo.ExportDone 3 (ScriptDemo.generateFilename (js "csv"))
                   (ScriptDemo.generateFilename (js "json")) rows csvContent) /\
     List.length rows = 3%nat) /\
  ScriptDemo.findDepositContainers Fixture.bare <> [] /\
  ScriptDemo.exportAllDepositData Fixture.bare ScriptDemo.NotCreated
    (fun _ => Sample.calm) Fixture.bare = Thrown typeError /\
  ScriptDemo.exportAllDepositData Sample.three ScriptDemo.Complete
    (fun _ => Sample.calm) Fixture.bare = Thrown typeError /\
  ScriptDemo.findDepositContainers Fixture.bareEmpty = [] /\
  ScriptDemo.exportAllDepositData Fixture.bareEmpty ScriptDemo.NotCreated
    (fun _ => Sample.calm) Fixture.bareEmpty = Thrown typeError.
Proof.
  split; [eexists; eexists; split; vm_compute; reflexivity|].
  split; [vm_compute; discriminate|].
  split; [vm_compute; reflexivity|]. split; [vm_compute; reflexivity|].
  split; vm_compute; reflexivity.
Qed.





(** X20. The test on the paragraph after a currency symbol is not
    anchored: [/[0-9,.]+/.test(text)] holds as soon as the text holds one
    digit, comma or period anywhere, so that paragraph supplies the amount
    whatever else it says. *)
Theorem amount_test_is_unanchored :
  forall s : jsstring,
    Regex.testAnywhere Patterns.amountChars s = true <->
    exists c, In c s /\ Patterns.isAmountChar c = true.
Proof.
  intros s. rewrite PatternFacts.amountChars_test. apply existsb_exists.
Qed.

(** X21. The combined format. The test [/^[€$£]?\s*[0-9,.]+$/] and the
    match with the capture groups succeed on the same texts, so the
    branch for a failed match is never taken; the second group is never
    empty, so [match[2] || text] never falls back to the text. Once a
    paragraph passes the test, [currency] becomes the symbol that
    paragraph starts with, or the empty string if it starts with none:
    whatever the loop over the standalone symbols had stored is
    dropped. *)
Theorem combined_test_and_match_agree :
  (forall text : jsstring,
     Regex.testWhole Patterns.combinedAmount text = true <->
     exists symbol digits, Patterns.matchCombinedAmount text = Some (symbol, digits)) /\
  (forall text symbol digits : jsstring,
     Patterns.matchCombinedAmount text = Some (symbol, digits) ->
     splitsAs text symbol digits /\
     orElse (Some symbol) [] = symbol /\ orElse (Some digits) text = digits) /\
  (forall (paragraphs : list Elem) (currency : jsstring) (p : Elem),
     find (fun p => Regex.testWhole Patterns.combinedAmount (trim (textContent p)))
          paragraphs = Some p ->
     exists symbol digits,
       splitsAs (trim (textContent p)) symbol digits /\
       Fields.combinedFormat paragraphs currency [] = (symbol, digits)).
Proof.
  split; [|split].
  - exact PatternFacts.combinedAmount_test_match.
  - intros text symbol digits H.
    pose proof (PatternFacts.matchCombinedAmount_sound text symbol digits H) as S.
    split; [exact S|]. split; [apply orElse_same|].
    destruct S as (space & _ & _ & _ & Hne & _).
    apply orElse_some_nonempty. exact Hne.
  - intros paragraphs currency p F.
    pose proof (find_some _ _ F) as [_ Hp].
    apply FieldFacts.find_firstWhere in F.
    destruct (proj1 (PatternFacts.Matches_combinedAmount (trim (textContent p))))
      as (symbol & digits & S).
    { apply RegexFacts.matches_Matches. exact Hp. }
    exists symbol, digits. split; [exact S|].
    exact (RecordFacts.combinedFormat_split paragraphs currency p symbol digits F S).
Qed.

(** ** The click target and the modal *)

Module ModalFacts.
Import DomFacts.

Lemma invalid_finds_nothing (doc : Document) (selector : Selector.selector) (root : Root) :
  Selector.valid selector = false -> DOMUtils.querySelector doc selector root = None.
Proof.
  intros H. unfold DOMUtils.querySelector, nativeQuerySelector. rewrite H. reflexivity.
Qed.

Lemma querySelector_found (doc : Document) (selector : Selector.selector) (root : Root)
    (e : Elem) :
  DOMUtils.querySelector doc selector root = Some e ->
  Selector.valid selector = true /\
  In e (descendantElements doc root) /\
  Selector.matchesElement selector (e_node e) = true.
Proof.
  unfold DOMUtils.querySelector, nativeQuerySelector.
  destruct (Selector.valid selector); [|discriminate].
  intros H. apply find_some in H. split; [reflexivity | exact H].
Qed.

Section WithBrowser.
Variable B : Browser.t.
Variable doc : Document.

Lemma foundBy_tail (selector : Selector.selector) (rest : list Selector.selector)
    (button : Elem) :
  foundBy doc rest button -> foundBy doc (selector :: rest) button.
Proof. intros (s & Hs & H). exists s. split; [right; exact Hs | exact H]. Qed.

Lemma foundBy_head (selector : Selector.selector) (rest : list Selector.selector)
    (button : Elem) :
  DOMUtils.querySelector doc selector DocumentRoot = Some button ->
  foundBy doc (selector :: rest) button.
Proof.
  intros H. exists selector. split; [left; reflexivity|].
  split; [|exact H]. exact (proj1 (querySelector_found _ _ _ _ H)).
Qed.

(** What the loop of [closeModal] leaves behind. *)
Lemma closeModalLoop_trace (selectors : list Selector.selector) :
  forall before,
    let result := ModalHandler.closeModalLoop B doc selectors before in
    ModalHandler.closed result = existsb (closesWith B doc) selectors /\
    ModalHandler.escapeSent result = negb (ModalHandler.closed result) /\
    exists fresh,
      ModalHandler.clicked result = before ++ fresh /\
      Forall (foundBy doc selectors) fresh /\
      if ModalHandler.closed result
      then exists earlier button u,
             fresh = earlier ++ [button] /\
             Browser.clickOn B button = Returned u /\
             Forall (refuses B) earlier
      else Forall (refuses B) fresh.
Proof.
  induction selectors as [|selector rest IH]; intros before; cbv zeta.
  - simpl. split; [reflexivity|]. split; [reflexivity|].
    exists []. rewrite app_nil_r. split; [reflexivity|]. split; constructor.
  - cbn [ModalHandler.closeModalLoop existsb]. unfold closesWith at 1.
    destruct (DOMUtils.querySelector doc selector DocumentRoot) as [button|] eqn:Q.
    + destruct (Browser.clickOn B button) as [u|error] eqn:C.
      * simpl. split; [reflexivity|]. split; [reflexivity|].
        exists [button]. split; [reflexivity|].
        split; [constructor; [apply foundBy_head; exact Q | constructor]|].
        exists [], button, u. split; [reflexivity|]. split; [exact C | constructor].
      * destruct (IH (before ++ [button])) as (H1 & H2 & fresh & H3 & H4 & H5).
        cbn [orb]. split; [exact H1|]. split; [exact H2|].
        exists (button :: fresh). split; [rewrite H3, <- app_assoc; reflexivity|].
        split.
        { constructor; [apply foundBy_head; exact Q|].
          apply Forall_impl with (2 := H4). intros b. apply foundBy_tail. }
        destruct (ModalHandler.closed
                    (ModalHandler.closeModalLoop B doc rest (before ++ [button]))).
        -- destruct H5 as (earlier & last & u & -> & Hc & He).
           exists (button :: earlier), last, u. split; [reflexivity|].
           split; [exact Hc|]. constructor; [exists error; exact C | exact He].
        -- constructor; [exists error; exact C | exact H5].
    + destruct (IH before) as (H1 & H2 & fresh & H3 & H4 & H5).
      cbn [orb]. split; [exact H1|]. split; [exact H2|].
      exists fresh. split; [exact H3|]. split; [|exact H5].
      apply Forall_impl with (2 := H4). intros b. apply foundBy_tail.
Qed.

(** Selectors that do not parse leave no trace in the loop. *)
Lemma closeModalLoop_valid (selectors : list Selector.selector) :
  forall before,
    ModalHandler.closeModalLoop B doc selectors before =
    ModalHandler.closeModalLoop B doc (filter Selector.valid selectors) before.
Proof.
  induction selectors as [|selector rest IH]; intros before; [reflexivity|].
  cbn [filter]. destruct (Selector.valid selector) eqn:V.
  - cbn [ModalHandler.closeModalLoop].
    destruct (DOMUtils.querySelector doc selector DocumentRoot) as [button|]; [|apply IH].
    destruct (Browser.clickOn B button); [reflexivity | apply IH].
  - cbn [ModalHandler.closeModalLoop].
    rewrite (invalid_finds_nothing doc selector DocumentRoot V). apply IH.
Qed.

End WithBrowser.

End ModalFacts.

(** X22. [findClickableElement] never leaves the container: what it
    returns is the container or an element below it, an element of the
    document if the container is one. It is the container itself when
    that is clickable; any other result is a [button], carries
    [role="button"] or is shown with the pointer cursor. *)
Theorem clickable_element_within_container :
  forall (B : Browser.t) (doc : Document) (container : Elem),
    let target := DOMUtilsDemo.findClickableElement B doc container in
    within doc container target /\
    (attached doc container -> attached doc target) /\
    (DOMUtilsDemo.isClickable B container = true -> target = container) /\
    (target = container \/
     Selector.matchesElement DOMUtilsDemo.sel_button (e_node target) = true \/
     Selector.matchesElement DOMUtilsDemo.sel_roleButton (e_node target) = true \/
     DOMUtilsDemo.hasStyle B target (js "cursor") (js "pointer") = true).
Proof.
  intros B doc container target.
  assert (K : forall selector e,
            In e (DOMUtils.querySelectorAll doc selector (ElementRoot container)) ->
            within doc container e /\ (attached doc container -> attached doc e)).
  { intros selector e He. split.
    - right. exact (DomFacts.querySelectorAll_subset _ _ _ _ He).
    - intros A. exact (DomFacts.querySelectorAll_attached doc selector
                         (ElementRoot container) e A He). }
  assert (Self : within doc container container /\
                 (attached doc container -> attached doc container))
    by (split; [left; reflexivity | auto]).
  unfold target, DOMUtilsDemo.findClickableElement.
  destruct (DOMUtilsDemo.isClickable B container) eqn:Hc.
  - destruct Self as [S1 S2]. auto.
  - destruct (DOMUtils.querySelectorAll doc DOMUtilsDemo.sel_button (ElementRoot container))
      as [|button buttons] eqn:Qb.
    + destruct (DOMUtils.querySelectorAll doc DOMUtilsDemo.sel_roleButton
                  (ElementRoot container)) as [|roleButton roleButtons] eqn:Qr.
      * destruct (find _ _) as [element|] eqn:F.
        -- apply find_some in F as [Hin Hs].
           destruct (K _ _ Hin) as [K1 K2].
           split; [exact K1|]. split; [exact K2|]. split; [discriminate|]. auto.
        -- destruct Self as [S1 S2]. split; [exact S1|]. split; [exact S2|].
           split; [discriminate|]. left. reflexivity.
      * assert (Hin : In roleButton (DOMUtils.querySelectorAll doc DOMUtilsDemo.sel_roleButton
                                       (ElementRoot container)))
          by (rewrite Qr; left; reflexivity).
        destruct (K _ _ Hin) as [K1 K2].
        split; [exact K1|]. split; [exact K2|]. split; [discriminate|].
        right. right. left. exact (GenericFacts.querySelectorAll_matches _ _ _ _ Hin).
    + assert (Hin : In button (DOMUtils.querySelectorAll doc DOMUtilsDemo.sel_button
                                 (ElementRoot container)))
        by (rewrite Qb; left; reflexivity).
      destruct (K _ _ Hin) as [K1 K2].
      split; [exact K1|]. split; [exact K2|]. split; [discriminate|].
      right. left. exact (GenericFacts.querySelectorAll_matches _ _ _ _ Hin).
Qed.

(** X23. [closeModal]: it returns [true] exactly when one of the
    configured selectors finds a button whose click returns; the Escape
    key event is sent exactly when it returns [false]. Every element it
    clicks is the first match of a configured selector that parses; when
    it returns [true] the last click is the one that returned and all
    clicks before it threw, and when it returns [false] every click
    threw. *)
Theorem closeModal_outcome :
  forall (B : Browser.t) (doc : Document),
    let result := ModalHandler.closeModal B doc in
    ModalHandler.closed result
      = existsb (closesWith B doc) ScriptDemo.CONFIG.CLOSE_BUTTON /\
    ModalHandler.escapeSent result = negb (ModalHandler.closed result) /\
    Forall (foundBy doc ScriptDemo.CONFIG.CLOSE_BUTTON)
           (ModalHandler.clicked result) /\
    if ModalHandler.closed result
    then exists earlier button u,
           ModalHandler.clicked result = earlier ++ [button] /\
           Browser.clickOn B button = Returned u /\
           Forall (refuses B) earlier
    else Forall (refuses B) (ModalHandler.clicked result).
Proof.
  intros B doc result.
  destruct (ModalFacts.closeModalLoop_trace B doc ScriptDemo.CONFIG.CLOSE_BUTTON [])
    as (H1 & H2 & fresh & H3 & H4 & H5).
  fold (ModalHandler.closeModal B doc) in H1, H2, H3, H5. fold result in H1, H2, H3, H5.
  simpl app in H3. rewrite H3.
  split; [exact H1|]. split; [exact H2|]. split; [exact H4|]. exact H5.
Qed.

(** X24. The fourth close-button selector, [button:contains("Close")], is
    not a CSS selector, so it never finds anything: [closeModal] behaves
    as if the list held the other four selectors only, and in general a
    selector that does not parse leaves no trace in the loop. On a page
    whose only button reads "Close" nothing is clicked and the Escape key
    event is sent. *)
Theorem contains_selector_never_closes :
  forall (B : Browser.t) (doc : Document),
    (forall (selectors : list Selector.selector) (clicked : list Elem),
       ModalHandler.closeModalLoop B doc selectors clicked =
       ModalHandler.closeModalLoop B doc (filter Selector.valid selectors) clicked) /\
    DOMUtils.querySelector doc
      [[Selector.TypeSel (js "button"); Selector.PseudoContains (js "Close")]]
      DocumentRoot = None /\
    ModalHandler.closeModal B doc =
    ModalHandler.closeModalLoop B doc
      [ [[Selector.IdSel (js "closeModalButton")]];
        [[Selector.ClassSel (js "LEGACY_MODAL_closeButton")]];
        [[Selector.TypeSel (js "button"); Selector.AttrEquals (js "role") (js "button")]];
        [[Selector.AttrEquals (js "aria-label") (js "Close")]] ] [] /\
    ModalHandler.closeModal Fixture.quiet
      (Sample.page [Sample.el "button" [Sample.txt "Close"]])
    = {| ModalHandler.clicked := [];
         ModalHandler.escapeSent := true;
         ModalHandler.closed := false |}.
Proof.
  intros B doc. split; [|split; [|split]].
  - intros selectors clicked. apply ModalFacts.closeModalLoop_valid.
  - apply ModalFacts.invalid_finds_nothing. reflexivity.
  - unfold ModalHandler.closeModal.
    rewrite ModalFacts.closeModalLoop_valid. reflexivity.
  - vm_compute. reflexivity.
Qed.

(** X25. A modal that never opens is not an error. In a turn of the
    loop, once the click on the target has returned, the row holds what
    [extractModalDetails] reads from the document at that moment and an
    empty [errorMessage], whether the wait for the modal was rejected or
    not; read from a document without the form controls, all five detail
    fields are empty or [false]. *)
Theorem unopened_modal_is_not_an_error :
  forall (B : Browser.t) (atClick atRead atClose : Document) (wait : outcome unit)
         (deposit : ScriptDemo.Deposit),
    (exists u,
       Browser.clickOn B
         (DOMUtilsDemo.findClickableElement B atClick (ScriptDemo.element deposit))
       = Returned u) ->
    exists details,
    ScriptDemo.getDepositDetails deposit
      (ModalHandler.turn B atClick atRead atClose wait deposit) = Returned details /\
    let row := ScriptDemo.formatDeposit details in
    let modalInfo := ModalHandler.extractModalDetails B atRead in
    ScriptDemo.Details.modalInfo details = Some modalInfo /\
    ScriptDemo.Details.error details = None /\
    property row (js "errorMessage") = VString [] /\
    property row (js "billPayer") = VString (ScriptDemo.ModalInfo.billPayer modalInfo) /\
    property row (js "formAmount") = VString (ScriptDemo.ModalInfo.amount modalInfo) /\
    property row (js "depositDate") = VString (ScriptDemo.ModalInfo.depositDate modalInfo) /\
    property row (js "note") = VString (ScriptDemo.ModalInfo.note modalInfo) /\
    property row (js "alreadyPaid") = VBoolean (ScriptDemo.ModalInfo.alreadyPaid modalInfo) /\
    ((forall selector,
        In selector [ModalHandler.CONFIG.BILL_PAYER; ModalHandler.CONFIG.AMOUNT;
                     ModalHandler.CONFIG.DATE; ModalHandler.CONFIG.NOTE;
                     ModalHandler.CONFIG.ALREADY_PAID] ->
        DOMUtils.querySelector atRead selector DocumentRoot = None) ->
     modalInfo = {| ScriptDemo.ModalInfo.billPayer := [];
                    ScriptDemo.ModalInfo.amount := [];
                    ScriptDemo.ModalInfo.depositDate := [];
                    ScriptDemo.ModalInfo.note := [];
                    ScriptDemo.ModalInfo.alreadyPaid := false |}).
Proof.
  intros B atClick atRead atClose wait deposit [u Hclick].
  exists {| ScriptDemo.Details.index := ScriptDemo.index deposit;
            ScriptDemo.Details.listInfo := Some (ScriptDemo.listInfoOf deposit);
            ScriptDemo.Details.modalInfo := Some (ModalHandler.extractModalDetails B atRead);
            ScriptDemo.Details.error := None;
            ScriptDemo.Details.timestamp := Some ScriptDemo.CONFIG.TIMESTAMPS_current;
            ScriptDemo.Details.extractedBy := Some ScriptDemo.CONFIG.USER |}.
  split.
  { unfold ScriptDemo.getDepositDetails, ModalHandler.turn.
    cbn [ScriptDemo.click ScriptDemo.modalWait ScriptDemo.modalDetails].
    rewrite Hclick. reflexivity. }
  intros row modalInfo. unfold row.
  split; [reflexivity|]. split; [reflexivity|]. split; [reflexivity|].
  split; [|split; [|split; [|split; [|split]]]].
  - change (property _ (js "billPayer"))
      with (VString (orElse (Some (ScriptDemo.ModalInfo.billPayer modalInfo)) [])).
    rewrite orElse_same. reflexivity.
  - change (property _ (js "formAmount"))
      with (VString (orElse (Some (ScriptDemo.ModalInfo.amount modalInfo)) [])).
    rewrite orElse_same. reflexivity.
  - change (property _ (js "depositDate"))
      with (VString (orElse (Some (ScriptDemo.ModalInfo.depositDate modalInfo)) [])).
    rewrite orElse_same. reflexivity.
  - change (property _ (js "note"))
      with (VString (orElse (Some (ScriptDemo.ModalInfo.note modalInfo)) [])).
    rewrite orElse_same. reflexivity.
  - change (property _ (js "alreadyPaid"))
      with (VBoolean (ScriptDemo.ModalInfo.alreadyPaid modalInfo || false)).
    rewrite orb_false_r. reflexivity.
  - intros H. unfold modalInfo, ModalHandler.extractModalDetails.
    rewrite !H by (simpl; auto 6). reflexivity.
Qed.

Lemma unopened_modal_witness :
  (exists u,
     Browser.clickOn Fixture.quiet
       (DOMUtilsDemo.findClickableElement Fixture.quiet Sample.returnable
          (ScriptDemo.element Fixture.returnableDeposit)) = Returned u) /\
  ScriptDemo.extractDepositInfo Sample.returnable Sample.returnableContainer 1
    = Returned Fixture.returnableDeposit /\
  exists details,
    ScriptDemo.getDepositDetails Fixture.returnableDeposit
      (ModalHandler.turn Fixture.quiet Sample.returnable Sample.returnable
         Sample.returnable (Thrown (ErrorObject (js "Timeout")))
         Fixture.returnableDeposit) = Returned details /\
    let row := ScriptDemo.formatDeposit details in
    property row (js "errorMessage") = VString [] /\
    property row (js "billPayer") = VString [] /\
    property row (js "alreadyPaid") = VBoolean false.
Proof.
  assert (C : exists u,
            Browser.clickOn Fixture.quiet
              (DOMUtilsDemo.findClickableElement Fixture.quiet Sample.returnable
                 (ScriptDemo.element Fixture.returnableDeposit)) = Returned u)
    by (exists tt; reflexivity).
  split; [exact C|]. split; [vm_compute; reflexivity|].
  destruct (unopened_modal_is_not_an_error Fixture.quiet Sample.returnable
              Sample.returnable Sample.returnable (Thrown (ErrorObject (js "Timeout")))
              Fixture.returnableDeposit C)
    as (details & Hd & _ & _ & He & Hb & _ & _ & _ & Hp & Hnone).
  exists details. split; [exact Hd|].
  cbv zeta. split; [exact He|].
  rewrite Hb, Hp. rewrite Hnone; [split; reflexivity|].
  intros selector H. simpl in H.
  repeat (destruct H as [<-|H]; [reflexivity|]). destruct H.
Defined.

(** ** No element twice *)

Module DistinctFacts.
Import DomFacts.

Lemma elementsBelow_refs (r : ref) (e : Elem) (cs : list Node) :
  Forall (fun n => forall r e, In e (subtree r n) -> exists path, e_ref e = path ++ r) cs ->
  forall i, In e (elementsBelow r i cs) ->
  exists path j, e_ref e = path ++ j :: r /\ (i <= j)%nat.
Proof.
  induction 1 as [|c cs Hc _ IH]; intros i H; simpl in H; [contradiction|].
  apply in_app_or in H as [H|H].
  - destruct (Hc _ _ H) as [path E]. exists path, i. split; [exact E | lia].
  - destruct (IH _ H) as (path & j & E & Hj). exists path, j. split; [exact E | lia].
Qed.

(** The position of an element of a subtree ends with the position of
    the root of the subtree. *)
Lemma subtree_refs (n : Node) :
  forall r e, In e (subtree r n) -> exists path, e_ref e = path ++ r.
Proof.
  induction n as [d|d|name attrs cs IH] using Node_induction; intros r e H;
    try contradiction.
  rewrite subtree_element in H. destruct H as [<-|H].
  - exists []. reflexivity.
  - destruct (elementsBelow_refs r e cs IH 0%nat H) as (path & j & E & _).
    exists (path ++ [j]). rewrite <- app_assoc. exact E.
Qed.

Lemma below_refs (r : ref) (e : Elem) (cs : list Node) (i : nat) :
  In e (elementsBelow r i cs) ->
  exists path j, e_ref e = path ++ j :: r /\ (i <= j)%nat.
Proof.
  apply elementsBelow_refs. apply Forall_forall. intros n _. apply subtree_refs.
Qed.

Lemma ref_longer (path : ref) (j : nat) (r : ref) : path ++ j :: r <> r.
Proof.
  intros E. apply (f_equal (@List.length nat)) in E.
  rewrite length_app in E. simpl in E. lia.
Qed.

Lemma elementsBelow_distinct (cs : list Node) :
  Forall (fun n => forall r, NoDup (map e_ref (subtree r n))) cs ->
  forall r i, NoDup (map e_ref (elementsBelow r i cs)).
Proof.
  induction 1 as [|c cs Hc _ IH]; intros r i; simpl; [constructor|].
  rewrite map_app. apply NoDup_app.
  - apply Hc.
  - apply IH.
  - intros x H1 H2.
    apply in_map_iff in H1 as (a & <- & Ha). apply in_map_iff in H2 as (b & Eb & Hb).
    destruct (subtree_refs c _ _ Ha) as [p1 E1].
    destruct (below_refs _ _ _ _ Hb) as (p2 & j & E2 & Hj).
    rewrite E1, E2 in Eb.
    change (p2 ++ j :: r) with (p2 ++ [j] ++ r) in Eb.
    change (p1 ++ i :: r) with (p1 ++ [i] ++ r) in Eb.
    rewrite !app_assoc in Eb. apply app_inv_tail in Eb.
    apply app_inj_tail in Eb as [_ ->]. lia.
Qed.

Lemma subtree_distinct (n : Node) : forall r, NoDup (map e_ref (subtree r n)).
Proof.
  induction n as [d|d|name attrs cs IH] using Node_induction; intros r.
  - constructor.
  - constructor.
  - rewrite subtree_element. cbn [map e_ref]. constructor.
    + intros H. apply in_map_iff in H as (b & Eb & Hb).
      destruct (below_refs _ _ _ _ Hb) as (p & j & E & _).
      rewrite E in Eb. exact (ref_longer _ _ _ Eb).
    + apply elementsBelow_distinct. exact IH.
Qed.

Lemma NoDup_map_filter {A B : Type} (h : A -> B) (f : A -> bool) (l : list A) :
  NoDup (map h l) -> NoDup (map h (filter f l)).
Proof.
  induction l as [|a l IH]; simpl; intros H; [constructor|].
  inversion H as [|x xs Hx Hxs]; subst.
  destruct (f a); simpl; [constructor|]; auto.
  intros Hin. apply Hx. apply in_map_iff in Hin as (y & E & Hy).
  apply filter_In in Hy as [Hy _]. rewrite <- E. apply in_map. exact Hy.
Qed.

Lemma descendantElements_distinct (doc : Document) (root : Root) :
  NoDup (map e_ref (descendantElements doc root)).
Proof.
  destruct root as [|e]; simpl; apply elementsBelow_distinct;
    apply Forall_forall; intros n _; apply subtree_distinct.
Qed.

(** [querySelectorAll] lists no element twice. *)
Lemma querySelectorAll_distinct (doc : Document) (selector : Selector.selector)
    (root : Root) :
  NoDup (map e_ref (DOMUtils.querySelectorAll doc selector root)).
Proof.
  unfold DOMUtils.querySelectorAll, nativeQuerySelectorAll.
  destruct (Selector.valid selector); [|constructor].
  apply NoDup_map_filter. apply descendantElements_distinct.
Qed.

Lemma mapIndexed_back {A B : Type} (f : A -> Z -> outcome B) (g : B -> A)
    (items : list A) :
  (forall item i b, f item i = Returned b -> g b = item) ->
  forall i bs, mapIndexed f items i = Returned bs -> map g bs = items.
Proof.
  intros Hg. induction items as [|item rest IH]; intros i bs H; simpl in H.
  - injection H as <-. reflexivity.
  - destruct (f item (i + 1)%Z) as [b0|] eqn:F; cbn [bind] in H; [|discriminate].
    destruct (mapIndexed f rest (i + 1)%Z) as [bs0|] eqn:M; cbn [bind] in H; [|discriminate].
    injection H as <-. simpl. rewrite (Hg _ _ _ F), (IH _ _ M). reflexivity.
Qed.

End DistinctFacts.

(** X26. Discovery returns no element twice, on the path of the fixed
    selectors as on the generic path, in both scripts and for any
    configuration; so [findAllDeposits] of script-demo.js returns records
    whose [element]s are the discovered containers in order, each once. *)
Theorem containers_are_distinct :
  forall (CONFIG : DepositSelectors) (numberPattern : Regex.regex) (doc : Document),
    NoDup (map e_ref (Discovery.findDepositContainers CONFIG numberPattern doc)) /\
    NoDup (Discovery.findDepositContainers CONFIG numberPattern doc) /\
    exists deposits,
      ScriptDemo.findAllDeposits doc = Returned deposits /\
      map ScriptDemo.element deposits = ScriptDemo.findDepositContainers doc /\
      NoDup (map (fun deposit => e_ref (ScriptDemo.element deposit)) deposits).
Proof.
  intros CONFIG numberPattern doc.
  assert (D : forall C P, NoDup (map e_ref (Discovery.findDepositContainers C P doc))).
  { intros C P. unfold Discovery.findDepositContainers.
    destruct (filter _ _) as [|c0 cs] eqn:F.
    - apply DiscoveryFacts.collectContainers_distinct. constructor.
    - rewrite <- F. apply DistinctFacts.NoDup_map_filter.
      apply DistinctFacts.querySelectorAll_distinct. }
  split; [apply D|]. split; [exact (NoDup_map_inv _ _ (D CONFIG numberPattern))|].
  destruct (BatchFacts.findAllDeposits_returns (fun s => s) (fun _ => []) doc)
    as [_ (deposits & E & _)].
  exists deposits. split; [exact E|].
  assert (M : map ScriptDemo.element deposits = ScriptDemo.findDepositContainers doc).
  { apply (DistinctFacts.mapIndexed_back (ScriptDemo.extractDepositInfo doc)
             ScriptDemo.element _) with (i := 0%Z); [|exact E].
    intros item i b H.
    destruct (ShapeFacts.ScriptDemo_record doc item i) as (c0 & a0 & _ & R).
    rewrite R in H. injection H as <-. reflexivity. }
  split; [exact M|].
  rewrite <- (map_map ScriptDemo.element e_ref). rewrite M. apply D.
Qed.

